(** * Consent management system: ingestion worker and query service

    A shallow embedding of [ingestion-function/main.py] and
    [query-service/app.py], and the properties of the two programs.

    - Python objects are modelled dynamically (type [value]); an exception
      is the [Raise] branch of [result], and [try ... except Exception] is a
      match on it.
    - Python [str] values are strings of 7-bit ASCII characters: on that
      range [lower], [strip], [split] and the classes [\s] and [\w] of [re]
      are Python's.
    - A Firestore collection is a finite map from document identifier to
      the document's fields; the session table [active_sessions] is a
      finite map from token to session; instants are integers.
    - What the programs obtain from outside is an argument: the request
      body, the value of the Authorization header, the clock, the fresh
      identifiers and tokens, the outcome of the OCR operation, whether
      Firestore answers ([fs_ok]), and the functions [json.loads],
      [model.generate_content] and [str] on objects that are not strings.
      [hashlib.sha256] and [json.dumps] are defined here.
    - [os.path.splitext] is defined here as [posixpath] has it; an upload
      is the name and the content of the file part.
    - [health_check] and the unused [extract_entities] of the query service
      are not modelled. *)

From Stdlib Require Import ZArith NArith Ascii String List Bool.
From stdpp Require Import gmap strings list fin_maps sorting pretty.

(** ** Python strings *)

Module Py.

Definition ord (c : ascii) : N := N_of_ascii c.

(** [str.isspace] on one ASCII character: TAB..CR, FS..US and the blank. *)
Definition isspace (c : ascii) : bool :=
  let n := ord c in
  ((9 <=? n) && (n <=? 13) || (28 <=? n) && (n <=? 32))%N.

Definition isupper (c : ascii) : bool :=
  let n := ord c in ((65 <=? n) && (n <=? 90))%N.

Definition islower (c : ascii) : bool :=
  let n := ord c in ((97 <=? n) && (n <=? 122))%N.

Definition isdigit (c : ascii) : bool :=
  let n := ord c in ((48 <=? n) && (n <=? 57))%N.

(** The class [\w] of [re] on ASCII: letters, digits and the underscore. *)
Definition isword (c : ascii) : bool :=
  isupper c || islower c || isdigit c || (ord c =? 95)%N.

Definition lower_char (c : ascii) : ascii :=
  if isupper c then ascii_of_N (ord c + 32) else c.

(** [s.lower()] *)
Fixpoint lower (s : string) : string :=
  match s with
  | EmptyString => EmptyString
  | String c r => String (lower_char c) (lower r)
  end.

Fixpoint lstrip (s : string) : string :=
  match s with
  | EmptyString => EmptyString
  | String c r => if isspace c then lstrip r else s
  end.

Fixpoint rstrip (s : string) : string :=
  match s with
  | EmptyString => EmptyString
  | String c r =>
      match rstrip r with
      | EmptyString => if isspace c then EmptyString else String c EmptyString
      | r' => String c r'
      end
  end.

(** [s.strip()] *)
Definition strip (s : string) : string := rstrip (lstrip s).

(** [s.startswith(p)] *)
Fixpoint startswith (s p : string) : bool :=
  match p, s with
  | EmptyString, _ => true
  | String _ _, EmptyString => false
  | String a p', String b s' => Ascii.eqb a b && startswith s' p'
  end.

Fixpoint drop (n : nat) (s : string) : string :=
  match n, s with
  | O, _ => s
  | S n', String _ r => drop n' r
  | S _, EmptyString => EmptyString
  end.

(** [s.endswith(p)] *)
Definition endswith (s p : string) : bool :=
  (String.length p <=? String.length s)%nat
  && String.eqb (drop (String.length s - String.length p) s) p.

(** [sub in s] *)
Fixpoint contains (sub s : string) : bool :=
  startswith s sub
  || match s with
     | EmptyString => false
     | String _ r => contains sub r
     end.

(** [s.replace(old, new)] for a non-empty [old]: occurrences are found left
    to right and do not overlap.  [skip] counts the characters of an
    occurrence already replaced that are still to be passed over. *)
Fixpoint replace_from (skip : nat) (old new s : string) : string :=
  match s with
  | EmptyString => EmptyString
  | String c r =>
      match skip with
      | S k => replace_from k old new r
      | O =>
          if startswith s old
          then new +:+ replace_from (String.length old - 1) old new r
          else String c (replace_from 0 old new r)
      end
  end.

Definition replace (s old new : string) : string := replace_from 0 old new s.

(** [s.split()]: the maximal runs of non-blank characters.  [cur] is the
    run being read. *)
Fixpoint split_from (cur : option string) (s : string) : list string :=
  match s with
  | EmptyString => match cur with Some w => [w] | None => [] end
  | String c r =>
      if isspace c
      then match cur with
           | Some w => w :: split_from None r
           | None => split_from None r
           end
      else split_from (Some (match cur with
                             | Some w => w +:+ String c EmptyString
                             | None => String c EmptyString
                             end)) r
  end.

Definition split (s : string) : list string := split_from None s.

(** [sep.join(l)] *)
Fixpoint join (sep : string) (l : list string) : string :=
  match l with
  | [] => EmptyString
  | [x] => x
  | x :: r => x +:+ sep +:+ join sep r
  end.

End Py.

(** ** The regular expressions of [_extract_key_entity]

    The five patterns are sequences of literal characters, [\s+] and one
    capturing [(\w+)].  [search] is [re.search]: the leftmost position at
    which the backtracking matcher succeeds, each [+] greedy. *)

Module Re.

Inductive atom : Type :=
  | Chr (c : ascii)
  | Plus (cls : ascii -> bool) (capture : bool).

Definition regex : Type := list atom.

Fixpoint lit (s : string) : regex :=
  match s with
  | EmptyString => []
  | String c r => Chr c :: lit r
  end.

(** One or more characters of [cls], the longest run first; [k] is the rest
    of the pattern, given the text matched so far and the text left. *)
Fixpoint plus_greedy (cls : ascii -> bool) (k : string -> string -> option string)
    (acc s : string) : option string :=
  match s with
  | EmptyString => None
  | String c r =>
      if cls c then
        let acc' := acc +:+ String c EmptyString in
        match plus_greedy cls k acc' r with
        | Some g => Some g
        | None => k acc' r
        end
      else None
  end.

(** Match [re] at the start of [s]; the result is group 1 ([g] until the
    capturing atom has matched). *)
Fixpoint match_here (re : regex) (g s : string) : option string :=
  match re with
  | [] => Some g
  | Chr c :: re' =>
      match s with
      | String c' r => if Ascii.eqb c c' then match_here re' g r else None
      | EmptyString => None
      end
  | Plus cls capture :: re' =>
      plus_greedy cls (fun m r => match_here re' (if capture then m else g) r)
        EmptyString s
  end.

(** [re.search(re, s)], reduced to [match.group(1)]. *)
Fixpoint search (re : regex) (s : string) : option string :=
  match match_here re EmptyString s with
  | Some g => Some g
  | None =>
      match s with
      | EmptyString => None
      | String _ r => search re r
      end
  end.

Definition spaces : atom := Plus Py.isspace false.
Definition word : atom := Plus Py.isword true.

End Re.

(** ** SHA-256 ([hashlib.sha256(...).hexdigest()]) *)

Module SHA256.

Local Open Scope N_scope.

Definition w32 (x : N) : N := N.land x 0xffffffff.
Definition add32 (a b : N) : N := w32 (a + b).
Definition rotr (n x : N) : N := N.lor (N.shiftr x n) (w32 (N.shiftl x (32 - n))).
Definition not32 (x : N) : N := N.lxor x 0xffffffff.

Definition ch (x y z : N) : N := N.lxor (N.land x y) (N.land (not32 x) z).
Definition maj (x y z : N) : N :=
  N.lxor (N.lxor (N.land x y) (N.land x z)) (N.land y z).
Definition bsig0 (x : N) : N := N.lxor (N.lxor (rotr 2 x) (rotr 13 x)) (rotr 22 x).
Definition bsig1 (x : N) : N := N.lxor (N.lxor (rotr 6 x) (rotr 11 x)) (rotr 25 x).
Definition ssig0 (x : N) : N := N.lxor (N.lxor (rotr 7 x) (rotr 18 x)) (N.shiftr x 3).
Definition ssig1 (x : N) : N := N.lxor (N.lxor (rotr 17 x) (rotr 19 x)) (N.shiftr x 10).

(** The largest [r] below [2 ^ bits] with [r ^ e <= n], bit by bit. *)
Fixpoint iroot (e : N) (bits : nat) (n r : N) : N :=
  match bits with
  | O => r
  | S b =>
      let r' := r + N.shiftl 1 (N.of_nat b) in
      iroot e b n (if r' ^ e <=? n then r' else r)
  end.

Definition primes : list N :=
  [ 2; 3; 5; 7; 11; 13; 17; 19; 23; 29; 31; 37; 41; 43; 47; 53; 59; 61; 67; 71; 73; 79;
    83; 89; 97; 101; 103; 107; 109; 113; 127; 131; 137; 139; 149; 151; 157; 163; 167;
    173; 179; 181; 191; 193; 197; 199; 211; 223; 227; 229; 233; 239; 241; 251; 257; 263;
    269; 271; 277; 281; 283; 293; 307; 311 ].

(** The round constants: the first 32 bits of the fractional parts of the
    cube roots of the first 64 primes. *)
Definition K : list N :=
  Eval vm_compute in
    List.map (fun p => w32 (iroot 3 36 (N.shiftl p 96) 0)) primes.

(** The initial hash value: the first 32 bits of the fractional parts of
    the square roots of the first 8 primes. *)
Definition H0 : list N :=
  Eval vm_compute in
    List.map (fun p => w32 (iroot 2 36 (N.shiftl p 64) 0)) (List.firstn 8 primes).

(** Big-endian bytes of [x], [n] of them. *)
Fixpoint be_bytes (n : nat) (x : N) : list N :=
  match n with
  | O => []
  | S n' => N.land (N.shiftr x (8 * N.of_nat n')) 0xff :: be_bytes n' x
  end.

(** The message, the bit 1, zero bits up to 56 modulo 64 bytes, and the
    length in bits on 8 bytes. *)
Definition pad (msg : list N) : list N :=
  let len := N.of_nat (List.length msg) in
  let zeros := (55 + 64 - len mod 64) mod 64 in
  msg ++ [0x80] ++ List.repeat 0 (N.to_nat zeros) ++ be_bytes 8 (8 * len).

(** The 32-bit big-endian words of a byte list. *)
Fixpoint words (n : nat) (bs : list N) : list N :=
  match n, bs with
  | S n', b0 :: b1 :: b2 :: b3 :: r =>
      (N.shiftl b0 24 + N.shiftl b1 16 + N.shiftl b2 8 + b3) :: words n' r
  | _, _ => []
  end.

Definition nth_word (i : nat) (w : list N) : N := List.nth i w 0.

(** One round: [w] holds the sixteen schedule words W[t..t+15]. *)
Definition round (st : list N * list N) (k : N) : list N * list N :=
  let '(h, w) := st in
  match h with
  | [a; b; c; d; e; f; g; hh] =>
      let t1 := add32 (add32 (add32 (add32 hh (bsig1 e)) (ch e f g)) k) (nth_word 0 w) in
      let t2 := add32 (bsig0 a) (maj a b c) in
      let wn := add32 (add32 (add32 (ssig1 (nth_word 14 w)) (nth_word 9 w))
                         (ssig0 (nth_word 1 w))) (nth_word 0 w) in
      ([add32 t1 t2; a; b; c; add32 d t1; e; f; g], List.tl w ++ [wn])
  | _ => st
  end.

Definition compress (h : list N) (block : list N) : list N :=
  let '(h', _) := List.fold_left round K (h, words 16 block) in
  List.map (fun p => add32 (fst p) (snd p)) (List.combine h h').

Fixpoint blocks (n : nat) (h : list N) (bs : list N) : list N :=
  match n with
  | O => h
  | S n' => blocks n' (compress h (List.firstn 64 bs)) (List.skipn 64 bs)
  end.

Definition digest (msg : list N) : list N :=
  let p := pad msg in
  blocks (List.length p / 64) H0 p.

Definition hex_digit (n : N) : ascii :=
  if n <? 10 then ascii_of_N (48 + n) else ascii_of_N (87 + n).

Fixpoint hex32 (n : nat) (x : N) : string :=
  match n with
  | O => EmptyString
  | S n' => String (hex_digit (N.land (N.shiftr x (4 * N.of_nat n')) 0xf)) (hex32 n' x)
  end.

Fixpoint bytes_of (s : string) : list N :=
  match s with
  | EmptyString => []
  | String c r => Py.ord c :: bytes_of r
  end.

(** [hashlib.sha256(s.encode()).hexdigest()] *)
Definition hexdigest (s : string) : string :=
  List.fold_right (fun x acc => hex32 8 x +:+ acc) EmptyString (digest (bytes_of s)).

End SHA256.


(** ** Python values and exceptions *)

(** The exception classes the two programs can meet; [ServiceError] stands
    for whatever an external service (Firestore, Vision, Gemini) raises. *)
Inductive exn : Type :=
  | AttributeError
  | TypeError
  | KeyError
  | IndexError
  | ServiceError (msg : string).

Inductive result (A : Type) : Type :=
  | Ok (a : A)
  | Raise (e : exn).

Arguments Ok {A} a.
Arguments Raise {A} e.

#[global] Instance result_ret : MRet result := fun A a => Ok a.
#[global] Instance result_bind : MBind result := fun A B f r =>
  match r with
  | Ok a => f a
  | Raise e => Raise e
  end.

(** A Python object as the programs handle them: what [json.loads] and
    [request.get_json] return, and what a Firestore document holds.
    [VTimestamp] is the sentinel [firestore.SERVER_TIMESTAMP]; no code path
    reads a timestamp back. *)
#[warnings="-register-all"]
Inductive value : Type :=
  | VNone
  | VBool (b : bool)
  | VInt (z : Z)
  | VStr (s : string)
  | VList (l : list value)
  | VDict (d : list (string * value))
  | VTimestamp.

(** A [dict] with string keys, in insertion order. *)
Abbreviation dict := (list (string * value)).

Fixpoint dict_lookup (d : dict) (k : string) : option value :=
  match d with
  | [] => None
  | (k', v) :: r => if String.eqb k' k then Some v else dict_lookup r k
  end.

(** [d[k] = v] *)
Fixpoint dict_set (d : dict) (k : string) (v : value) : dict :=
  match d with
  | [] => [(k, v)]
  | (k', v') :: r =>
      if String.eqb k' k then (k', v) :: r else (k', v') :: dict_set r k v
  end.

(** [d.get(k, default)] *)
Definition dict_get (d : dict) (k : string) (default : value) : value :=
  match dict_lookup d k with
  | Some v => v
  | None => default
  end.

(** [d.update(u)] *)
Definition dict_update (d u : dict) : dict :=
  List.fold_left (fun acc kv => dict_set acc (fst kv) (snd kv)) u d.

(** [bool(v)] *)
Definition truthy (v : value) : bool :=
  match v with
  | VNone => false
  | VBool b => b
  | VInt z => negb (z =? 0)%Z
  | VStr s => negb (String.eqb s "")
  | VList l => match l with [] => false | _ => true end
  | VDict d => match d with [] => false | _ => true end
  | VTimestamp => true
  end.

(** [v == s] for a string literal [s] *)
Definition is_str (v : value) (s : string) : bool :=
  match v with
  | VStr s' => String.eqb s' s
  | _ => false
  end.

(** [v.get(k, default)]: only a [dict] has the method. *)
Definition py_get (v : value) (k : string) (default : value) : result value :=
  match v with
  | VDict d => Ok (dict_get d k default)
  | _ => Raise AttributeError
  end.

(** [v.items()] *)
Definition py_items (v : value) : result dict :=
  match v with
  | VDict d => Ok d
  | _ => Raise AttributeError
  end.

(** [v.strip()], [v.lower()], [v.split()]: only a [str] has the methods. *)
Definition py_strip (v : value) : result string :=
  match v with
  | VStr s => Ok (Py.strip s)
  | _ => Raise AttributeError
  end.

Definition py_lower (v : value) : result string :=
  match v with
  | VStr s => Ok (Py.lower s)
  | _ => Raise AttributeError
  end.

Definition py_split (v : value) : result (list string) :=
  match v with
  | VStr s => Ok (Py.split s)
  | _ => Raise AttributeError
  end.

(** [v[k]] for a string key *)
Definition py_subscript (v : value) (k : string) : result value :=
  match v with
  | VDict d =>
      match dict_lookup d k with
      | Some x => Ok x
      | None => Raise KeyError
      end
  | _ => Raise TypeError
  end.

Fixpoint chars (s : string) : list value :=
  match s with
  | EmptyString => []
  | String c r => VStr (String c EmptyString) :: chars r
  end.

(** [iter(v)]: the elements of a list, the keys of a dict, the characters
    of a string. *)
Definition py_iter (v : value) : result (list value) :=
  match v with
  | VList l => Ok l
  | VDict d => Ok (List.map (fun kv => VStr (fst kv)) d)
  | VStr s => Ok (chars s)
  | _ => Raise TypeError
  end.

Fixpoint all_str (l : list value) : result (list string) :=
  match l with
  | [] => Ok []
  | VStr s :: r => r' ← all_str r; Ok (s :: r')
  | _ :: _ => Raise TypeError
  end.

(** [sep.join(v)]: [v] must be an iterable of [str]. *)
Definition py_join (sep : string) (v : value) : result string :=
  l ← py_iter v; ss ← all_str l; Ok (Py.join sep ss).

(** [full_text += v] *)
Definition py_concat (s : string) (v : value) : result string :=
  match v with
  | VStr t => Ok (s +:+ t)
  | _ => Raise TypeError
  end.

(** ** Text constants and [json.dumps] *)

Definition nl : string := String (ascii_of_N 10) EmptyString.
Definition dq : string := String (ascii_of_N 34) EmptyString.
Definition backslash : string := String (ascii_of_N 92) EmptyString.

(** [s] between double quotes. *)
Definition q (s : string) : string := dq +:+ s +:+ dq.

(** One character of a JSON string literal, as [json.dumps] writes it with
    [ensure_ascii]: the quote, the backslash and everything outside the
    printable range are escaped. *)
Definition json_escape_char (c : ascii) : string :=
  let n := Py.ord c in
  if (n =? 34)%N then backslash +:+ dq
  else if (n =? 92)%N then backslash +:+ backslash
  else if (n =? 10)%N then backslash +:+ "n"
  else if (n =? 13)%N then backslash +:+ "r"
  else if (n =? 9)%N then backslash +:+ "t"
  else if (n =? 8)%N then backslash +:+ "b"
  else if (n =? 12)%N then backslash +:+ "f"
  else if ((32 <=? n) && (n <=? 126))%N then String c EmptyString
  else backslash +:+ "u00" +:+ SHA256.hex32 2 n.

Fixpoint json_escape (s : string) : string :=
  match s with
  | EmptyString => EmptyString
  | String c r => json_escape_char c +:+ json_escape r
  end.

(** [json.dumps(v)] with the default separators. *)
Fixpoint json_dumps (v : value) : result string :=
  match v with
  | VNone => Ok "null"
  | VBool true => Ok "true"
  | VBool false => Ok "false"
  | VInt z => Ok (pretty z)
  | VStr s => Ok (q (json_escape s))
  | VList l =>
      parts ← (fix items (l : list value) : result (list string) :=
                 match l with
                 | [] => Ok []
                 | x :: r => sx ← json_dumps x; sr ← items r; Ok (sx :: sr)
                 end) l;
      Ok ("[" +:+ Py.join ", " parts +:+ "]")
  | VDict d =>
      parts ← (fix members (d : dict) : result (list string) :=
                 match d with
                 | [] => Ok []
                 | (k, x) :: r =>
                     sx ← json_dumps x; sr ← members r;
                     Ok ((q (json_escape k) +:+ ": " +:+ sx) :: sr)
                 end) d;
      Ok ("{" +:+ Py.join ", " parts +:+ "}")
  | VTimestamp => Raise TypeError
  end.

(** The analysis substituted when the model call fails
    ([process_consent_pdf], the [except] branch of step 3). *)
Definition fallback_analysis : value :=
  VDict
    [ ("summary", VStr "Consent form processed - AI analysis failed");
      ("entities",
        VDict
          [ ("patient_name", VStr "N/A");
            ("patient_email", VStr "N/A");
            ("date_of_birth", VStr "N/A");
            ("doctor_name", VStr "N/A");
            ("procedure", VStr "N/A");
            ("date", VStr "N/A") ]);
      ("consented_items", VList [VStr "Analysis pending"]);
      ("declined_items", VList []);
      ("patient_id", VStr "unknown") ].

(** The text of the analysis prompt before [{full_text}]. *)
Definition analysis_prompt_head : string :=
  Py.join nl
    [ "";
      "    Analyze the following medical consent form text and respond ONLY with a valid JSON object.";
      "    The JSON object should have these exact keys: " +:+ q "summary" +:+ ", " +:+ q "entities" +:+ ", " +:+ q "consented_items" +:+ ", " +:+ q "declined_items" +:+ ", " +:+ q "patient_id" +:+ ".";
      "    ";
      "    - " +:+ q "summary" +:+ ": A brief, one-paragraph summary of the document's purpose.";
      "    - " +:+ q "entities" +:+ ": An object containing key entities like " +:+ q "patient_name" +:+ ", " +:+ q "patient_email" +:+ ", " +:+ q "date_of_birth" +:+ ", " +:+ q "doctor_name" +:+ ", " +:+ q "procedure" +:+ ", and " +:+ q "date" +:+ ". If a value is not found, use " +:+ q "N/A" +:+ ".";
      "    - " +:+ q "consented_items" +:+ ": A list of strings, where each string is a specific item the patient consented to.";
      "    - " +:+ q "declined_items" +:+ ": A list of strings, where each string is a specific item the patient declined.";
      "    - " +:+ q "patient_id" +:+ ": Extract or generate a unique identifier for the patient (e.g., email, patient number, or combination of name and DOB). This is critical for patient-specific access.";
      "    ";
      "    IMPORTANT: Extract patient identification information carefully as it will be used for authentication and authorization.";
      "    ";
      "    TEXT:";
      "    " ].

(** The text of the analysis prompt after [{full_text}]. *)
Definition analysis_prompt_tail : string :=
  Py.join nl
    [ "";
      "    " ].

(** The text of the answer prompt before [{query}]. *)
Definition answer_prompt_head : string :=
  Py.join nl
    [ "";
      "    You are a helpful medical consent assistant. Based ONLY on the patient's consent form information below, ";
      "    answer their question clearly and concisely in a friendly, professional tone.";
      "    ";
      "    IMPORTANT SECURITY RULES:";
      "    - Only discuss information from the patient's OWN consent forms provided below";
      "    - Never mention or reference other patients";
      "    - If asked about other patients, politely decline";
      "    - Keep responses focused on the patient's own medical consents";
      "    ";
      "    Patient's Question: " ].

(** The text of the answer prompt between [{query}] and [{context}]. *)
Definition answer_prompt_mid : string :=
  Py.join nl
    [ "";
      "    ";
      "    Patient's Consent Form Information:";
      "    " ].

(** The text of the answer prompt after [{context}]. *)
Definition answer_prompt_tail : string :=
  Py.join nl
    [ "";
      "    ";
      "    Provide a direct, helpful answer based ONLY on the information above. If the information is not available ";
      "    in the provided documents, say so clearly and suggest they contact their healthcare provider.";
      "    " ].


(** ** Firestore collections

    A collection maps a document identifier to the document's fields.  A
    query streams its matches in ascending order of document identifier,
    a range query in ascending order of the ranged field first (Firestore's
    orderings when the code gives none); strings compare by their bytes. *)

Abbreviation collection := (gmap string dict).

Definition by_id : relation (string * dict) :=
  fun a b => String.le (fst a) (fst b).

#[global] Instance by_id_dec : RelDecision by_id :=
  fun a b => decide (String.le (fst a) (fst b)).

(** [collection.stream()] *)
Definition stream (c : collection) : list (string * dict) :=
  merge_sort by_id (map_to_list c).

(** [collection.where(field, "==", s).stream()] *)
Definition where_eq (field s : string) (c : collection) : list (string * dict) :=
  List.filter (fun kd => is_str (dict_get (snd kd) field VNone) s) (stream c).

Definition array_has (v : value) (s : string) : bool :=
  match v with
  | VList l => List.existsb (fun x => is_str x s) l
  | _ => false
  end.

(** [collection.where(field, "array_contains", s).stream()] *)
Definition where_array_contains (field s : string) (c : collection)
    : list (string * dict) :=
  List.filter (fun kd => array_has (dict_get (snd kd) field VNone) s) (stream c).

Definition str_field (field : string) (d : dict) : option string :=
  match dict_lookup d field with
  | Some (VStr s) => Some s
  | _ => None
  end.

Definition in_range (field lo hi : string) (kd : string * dict) : bool :=
  match str_field field (snd kd) with
  | Some s => String.leb lo s && String.leb s hi
  | None => false
  end.

Definition by_field (field : string) : relation (string * dict) :=
  fun a b =>
    let ka := default EmptyString (str_field field (snd a)) in
    let kb := default EmptyString (str_field field (snd b)) in
    Is_true (String.ltb ka kb || String.eqb ka kb && String.leb (fst a) (fst b)).

#[global] Instance by_field_dec field : RelDecision (by_field field) :=
  fun a b => Is_true_dec _.

(** [collection.where(field, ">=", lo).where(field, "<=", hi).stream()] *)
Definition where_range (field lo hi : string) (c : collection)
    : list (string * dict) :=
  merge_sort (by_field field) (List.filter (in_range field lo hi) (map_to_list c)).

(** The characters of U+F8FF as Firestore compares them (UTF-8). *)
Definition uf8ff : string :=
  String (ascii_of_N 239) (String (ascii_of_N 163) (String (ascii_of_N 191) EmptyString)).

(** Whether the Firestore calls on a collection succeed during one request
    or invocation; a failed call raises. *)
Definition firestore (fs_ok : string -> bool) (coll : string) {A} (a : A) : result A :=
  if fs_ok coll then Ok a else Raise (ServiceError "firestore").

(** ** The query service ([query-service/app.py]) *)

(** What a handler returns: [jsonify(body), status], or the handler's
    [except] branch, [jsonify({"error": f"{prefix}: {str(e)}"}), 500]. *)
Inductive response : Type :=
  | Json (status : Z) (body : dict)
  | ServerError (prefix : string) (e : exn).

Definition status_of (r : response) : Z :=
  match r with
  | Json s _ => s
  | ServerError _ _ => 500
  end.

Definition body_of (r : response) : dict :=
  match r with
  | Json _ b => b
  | ServerError _ _ => []
  end.

(** An entry of [active_sessions]; instants are microseconds on the clock
    [datetime.now()] reads. *)
Record session : Type := {
  session_email : string;
  session_patient_name : value;
  session_expires : Z
}.

(** [timedelta(hours=8)] *)
Definition eight_hours : Z := 8 * 3600 * 1000000.

Definition hash_password (password : string) : string :=
  SHA256.hexdigest password.

Inductive verdict : Type :=
  | Rejected (r : response)
  | Accepted (patient_email : string).

(** The decorator [verify_session]: the table after the check, and either
    the 401 response or the email bound to the request.  [authorization] is
    [request.headers.get('Authorization')]. *)
Definition verify_session (authorization : option string) (now : Z)
    (active_sessions : gmap string session) : gmap string session * verdict :=
  let unauthorized := Json 401 [("error", VStr "Unauthorized. Please log in.")] in
  match authorization with
  | None => (active_sessions, Rejected unauthorized)
  | Some session_token =>
      if String.eqb session_token "" then (active_sessions, Rejected unauthorized)
      else
        match active_sessions !! session_token with
        | None => (active_sessions, Rejected unauthorized)
        | Some session_data =>
            if (session_expires session_data <? now)%Z
            then (delete session_token active_sessions,
                  Rejected (Json 401 [("error", VStr "Session expired. Please log in again.")]))
            else (active_sessions, Accepted (session_email session_data))
        end
  end.

(** [data.get(k, '').strip()] *)
Definition field_stripped (data : value) (k : string) : result string :=
  v ← py_get data k (VStr ""); py_strip v.

(** [POST /register]; [patient_id] is [str(uuid.uuid4())]. *)
Definition register_patient (data : value) (patient_id : string)
    (fs_ok : string -> bool) (patients : collection) : collection * response :=
  let attempt : result (collection * response) :=
    e ← field_stripped data "email";
    let email := Py.lower e in
    password ← field_stripped data "password";
    patient_name ← field_stripped data "patient_name";
    date_of_birth ← field_stripped data "date_of_birth";
    if String.eqb email "" || String.eqb password ""
    then Ok (patients, Json 400 [("error", VStr "Email and password are required")])
    else
      existing ← firestore fs_ok "patients" (take 1 (where_eq "email" email patients));
      match existing with
      | _ :: _ => Ok (patients, Json 409 [("error", VStr "Patient already registered")])
      | [] =>
          patients' ← firestore fs_ok "patients"
            (<[patient_id :=
                 [ ("email", VStr email);
                   ("password_hash", VStr (hash_password password));
                   ("patient_name", VStr patient_name);
                   ("date_of_birth", VStr date_of_birth);
                   ("created_at", VTimestamp) ]]> patients);
          Ok (patients',
              Json 200 [("message", VStr "Registration successful"); ("email", VStr email)])
      end
  in
  match attempt with
  | Ok r => r
  | Raise e => (patients, ServerError "Registration failed" e)
  end.

(** [POST /login]; [session_token] is [secrets.token_urlsafe(32)]. *)
Definition login_patient (data : value) (session_token : string) (now : Z)
    (fs_ok : string -> bool) (patients : collection)
    (active_sessions : gmap string session) : gmap string session * response :=
  let invalid := Json 401 [("error", VStr "Invalid email or password")] in
  let attempt : result (gmap string session * response) :=
    e ← field_stripped data "email";
    let email := Py.lower e in
    password ← field_stripped data "password";
    if String.eqb email "" || String.eqb password ""
    then Ok (active_sessions, Json 400 [("error", VStr "Email and password are required")])
    else
      found ← firestore fs_ok "patients" (take 1 (where_eq "email" email patients));
      match found with
      | [] => Ok (active_sessions, invalid)
      | (_, []) :: _ => Ok (active_sessions, invalid)
      | (_, patient_doc) :: _ =>
          if negb (is_str (dict_get patient_doc "password_hash" VNone) (hash_password password))
          then Ok (active_sessions, invalid)
          else
            let patient_name := dict_get patient_doc "patient_name" (VStr "N/A") in
            Ok (<[session_token :=
                    {| session_email := email;
                       session_patient_name := patient_name;
                       session_expires := now + eight_hours |}]> active_sessions,
                Json 200
                  [ ("message", VStr "Login successful");
                    ("session_token", VStr session_token);
                    ("patient_name", patient_name);
                    ("email", VStr email) ])
      end
  in
  match attempt with
  | Ok r => r
  | Raise e => (active_sessions, ServerError "Login failed" e)
  end.

(** [POST /logout], behind [verify_session]. *)
Definition logout_patient (authorization : option string) (now : Z)
    (active_sessions : gmap string session) : gmap string session * response :=
  match verify_session authorization now active_sessions with
  | (sessions, Rejected r) => (sessions, r)
  | (sessions, Accepted _) =>
      (match authorization with
       | Some session_token => delete session_token sessions
       | None => sessions
       end,
       Json 200 [("message", VStr "Logged out successfully")])
  end.

(** The dict [search_patient_documents] builds for one matching entry; its
    keys are fixed, so it is a record here. *)
Record found_doc : Type := {
  doc_id : string;
  doc_filename : value;
  doc_summary : value;
  doc_consented_items : value;
  doc_declined_items : value;
  doc_patient_name : value;
  doc_entities : value
}.

Definition found_of (kd : string * dict) : found_doc :=
  let doc_data := snd kd in
  {| doc_id := fst kd;
     doc_filename := dict_get doc_data "document_id" (VStr "unknown");
     doc_summary := dict_get doc_data "summary" (VStr "");
     doc_consented_items := dict_get doc_data "consented_items" (VList []);
     doc_declined_items := dict_get doc_data "declined_items" (VList []);
     doc_patient_name := dict_get doc_data "patient_name" (VStr "N/A");
     doc_entities := dict_get doc_data "entities" (VDict []) |}.

(** [search_patient_documents]: a failed Firestore call is logged and
    leaves the list empty. *)
Definition search_patient_documents (patient_email : string)
    (fs_ok : string -> bool) (entity_index : collection) : list found_doc :=
  match firestore fs_ok "entity_index" (where_eq "patient_email" patient_email entity_index) with
  | Ok patient_docs => List.map found_of patient_docs
  | Raise _ => []
  end.

(** The regular expressions of [_extract_key_entity], in order. *)
Definition patient_patterns : list Re.regex :=
  [ Re.lit "patient" ++ [Re.spaces; Re.word];
    [Re.word; Re.spaces] ++ Re.lit "declined";
    [Re.word; Re.spaces] ++ Re.lit "consented";
    Re.lit "what" ++ [Re.spaces] ++ Re.lit "did" ++ [Re.spaces; Re.word];
    [Re.word; Re.spaces] ++ Re.lit "patient" ].

Fixpoint first_match (patterns : list Re.regex) (s : string) : option string :=
  match patterns with
  | [] => None
  | pattern :: rest =>
      match Re.search pattern s with
      | Some g => Some g
      | None => first_match rest s
      end
  end.

Definition _extract_key_entity (question : string) : option string :=
  first_match patient_patterns (Py.lower question).

(** [_resolve_document_from_entity]: the first document of the first of the
    three queries that yields one; [None] also when Firestore fails. *)
Definition _resolve_document_from_entity (entity : string)
    (fs_ok : string -> bool) (entity_index : collection) : option dict :=
  let attempt : result (option dict) :=
    docs ← firestore fs_ok "entity_index" (where_eq "patient_name" entity entity_index);
    match docs with
    | doc :: _ => Ok (Some (snd doc))
    | [] =>
        docs ← firestore fs_ok "entity_index"
          (where_array_contains "search_terms" (Py.lower entity) entity_index);
        match docs with
        | doc :: _ => Ok (Some (snd doc))
        | [] =>
            docs ← firestore fs_ok "entity_index"
              (where_range "patient_name" entity (entity +:+ uf8ff) entity_index);
            match docs with
            | doc :: _ => Ok (Some (snd doc))
            | [] => Ok None
            end
        end
    end
  in
  match attempt with
  | Ok r => r
  | Raise _ => None
  end.

(** [_get_most_recent_document]: the first document of the collection. *)
Definition _get_most_recent_document (fs_ok : string -> bool)
    (entity_index : collection) : option dict :=
  match firestore fs_ok "entity_index" (take 1 (stream entity_index)) with
  | Ok (doc :: _) => Some (snd doc)
  | _ => None
  end.

Section Services.

(** The external functions: [str(v)] and f-string formatting of an object
    that is not a [str], and the text of [model.generate_content(prompt)]. *)
Variable py_repr : value -> string.
Variable generate_content : string -> result string.

(** [str(v)], [f"{v}"] *)
Definition py_str (v : value) : string :=
  match v with
  | VStr s => s
  | _ => py_repr v
  end.

(** [', '.join(items) if items else none] *)
Definition items_or (items : value) (none : string) : result string :=
  if truthy items then py_join ", " items else Ok none.

(** [generate_fallback_answer] *)
Definition generate_fallback_answer (query : string) (relevant_docs : list found_doc)
    : result string :=
  let query_lower := Py.lower query in
  let nothing :=
    "I found your consent form but couldn't extract specific information. Please contact your healthcare provider for details." in
  match relevant_docs with
  | [] => Ok nothing
  | doc :: _ =>
      if Py.contains "decline" query_lower then
        let declined := doc_declined_items doc in
        if truthy declined then
          items ← py_join ", " declined;
          Ok ("Based on your consent form, you declined: " +:+ items)
        else Ok "Based on your consent form, you didn't decline any items."
      else if Py.contains "consent" query_lower || Py.contains "agree" query_lower then
        let consented := doc_consented_items doc in
        if truthy consented then
          items ← py_join ", " consented;
          Ok ("Based on your consent form, you consented to: " +:+ items)
        else Ok "Based on your consent form, no specific consent items were listed."
      else Ok nothing
  end.

(** The context block of [generate_answer], one document after another. *)
Fixpoint answer_context (context : string) (docs : list found_doc) : result string :=
  match docs with
  | [] => Ok context
  | doc :: rest =>
      let context := context +:+ nl +:+ "Consent Form: " +:+ py_str (doc_filename doc) +:+ nl in
      let context := context +:+ "Patient: " +:+ py_str (doc_patient_name doc) +:+ nl in
      let context := context +:+ "Summary: " +:+ py_str (doc_summary doc) +:+ nl in
      consented ← items_or (doc_consented_items doc) "None listed";
      let context := context +:+ "Items Consented To: " +:+ consented +:+ nl in
      declined ← items_or (doc_declined_items doc) "None listed";
      let context := context +:+ "Items Declined: " +:+ declined +:+ nl in
      answer_context context rest
  end.

Definition answer_prompt (query context : string) : string :=
  answer_prompt_head +:+ query +:+ answer_prompt_mid +:+ context +:+ answer_prompt_tail.

(** [generate_answer] *)
Definition generate_answer (query : string) (relevant_docs : list found_doc)
    : result string :=
  match relevant_docs with
  | [] => Ok "No relevant consent forms found for your query."
  | _ =>
      context ← answer_context "" (take 3 relevant_docs);
      match generate_content (answer_prompt query context) with
      | Ok text => Ok (Py.strip text)
      | Raise _ => generate_fallback_answer query relevant_docs
      end
  end.

(** [POST /query], behind [verify_session]. *)
Definition handle_query (authorization : option string) (now : Z) (data : value)
    (fs_ok : string -> bool) (entity_index : collection)
    (active_sessions : gmap string session) : gmap string session * response :=
  match verify_session authorization now active_sessions with
  | (sessions, Rejected r) => (sessions, r)
  | (sessions, Accepted patient_email) =>
      let attempt : result response :=
        query ← field_stripped data "query";
        if String.eqb query "" then Ok (Json 400 [("error", VStr "No query provided")])
        else
          let relevant_docs := search_patient_documents patient_email fs_ok entity_index in
          match relevant_docs with
          | [] =>
              Ok (Json 200
                    [ ("query", VStr query);
                      ("answer", VStr "I don't have any consent forms on file for you. Please contact your healthcare provider.");
                      ("sources", VList []) ])
          | _ =>
              answer ← generate_answer query relevant_docs;
              Ok (Json 200
                    [ ("query", VStr query);
                      ("answer", VStr answer);
                      ("sources", VList (List.map doc_filename relevant_docs)) ])
          end
      in
      (sessions,
       match attempt with
       | Ok r => r
       | Raise e => ServerError "Internal server error" e
       end)
  end.

(** [_generate_contextual_answer] *)
Definition _generate_contextual_answer (question : string) (document_data : dict)
    : string :=
  let attempt : result string :=
    let document_id := py_str (dict_get document_data "document_id" (VStr "Unknown")) in
    let question_lower := Py.lower question in
    if Py.contains "decline" question_lower then
      let declined := dict_get document_data "declined_items" (VList []) in
      if truthy declined then
        items ← py_join ", " declined;
        Ok ("Based on " +:+ document_id +:+ ", the following items were declined: " +:+ items)
      else Ok ("Based on " +:+ document_id +:+ ", no items were declined.")
    else if Py.contains "consent" question_lower || Py.contains "agree" question_lower then
      let consented := dict_get document_data "consented_items" (VList []) in
      if truthy consented then
        items ← py_join ", " consented;
        Ok ("Based on " +:+ document_id +:+ ", the following items were consented to: " +:+ items)
      else Ok ("Based on " +:+ document_id +:+ ", no specific consent items were found.")
    else
      let summary_text := py_str (dict_get document_data "summary" (VStr "No summary available.")) in
      Ok ("Based on " +:+ document_id +:+ ": " +:+ summary_text)
  in
  match attempt with
  | Ok answer => answer
  | Raise _ => "Found document but couldn't generate specific answer."
  end.

Definition opt_str (o : option string) : value :=
  match o with
  | Some s => VStr s
  | None => VNone
  end.

(** [POST /ask] *)
Definition ask_question (data : value) (fs_ok : string -> bool)
    (entity_index : collection) : response :=
  let attempt : result response :=
    question ← field_stripped data "question";
    if String.eqb question "" then Ok (Json 400 [("error", VStr "No question provided")])
    else
      let key_entity := _extract_key_entity question in
      let document_data :=
        match key_entity with
        | Some entity =>
            if String.eqb entity ""
            then _get_most_recent_document fs_ok entity_index
            else _resolve_document_from_entity entity fs_ok entity_index
        | None => _get_most_recent_document fs_ok entity_index
        end in
      match document_data with
      | None | Some [] => Ok (Json 404 [("error", VStr "No consent form found")])
      | Some document_data =>
          let answer := _generate_contextual_answer question document_data in
          Ok (Json 200
                [ ("answer", VStr answer);
                  ("document_id", dict_get document_data "document_id" VNone);
                  ("entity", opt_str key_entity) ])
      end
  in
  match attempt with
  | Ok r => r
  | Raise e => ServerError "Internal server error" e
  end.

End Services.

(** ** Uploads ([query-service/app.py], [/upload]) *)

(** [os.path.splitext] as [posixpath] has it. *)
Module OsPath.

(** [p.rfind(c)] for one character: the highest index, [None] for [-1]. *)
Fixpoint rfind (p : string) (c : ascii) : option nat :=
  match p with
  | EmptyString => None
  | String a r =>
      match rfind r c with
      | Some i => Some (S i)
      | None => if Ascii.eqb a c then Some O else None
      end
  end.

Definition index (o : option nat) : Z :=
  match o with
  | Some i => Z.of_nat i
  | None => -1
  end.

(** The loop over the leading dots of the last component: whether a
    character other than the dot comes before [dotIndex], [n] positions
    from [filenameIndex] on. *)
Fixpoint has_stem (p : string) (filenameIndex n : nat) : bool :=
  match n with
  | O => false
  | S n' =>
      match String.get filenameIndex p with
      | Some c => if Ascii.eqb c "." then has_stem p (S filenameIndex) n' else true
      | None => true
      end
  end.

Definition splitext (p : string) : string * string :=
  let sepIndex := index (rfind p "/") in
  let dotIndex := index (rfind p ".") in
  if (sepIndex <? dotIndex)%Z
     && has_stem p (Z.to_nat (sepIndex + 1)) (Z.to_nat (dotIndex - (sepIndex + 1)))
  then (String.substring 0 (Z.to_nat dotIndex) p, Py.drop (Z.to_nat dotIndex) p)
  else (p, EmptyString).

End OsPath.

(** [POST /upload].  [file] is the name and the content of
    [request.files['file']], [None] when the form has no such part;
    [unique] is [str(uuid.uuid4())]; [storage_ok] tells whether
    [blob.upload_from_file] succeeds. *)
Definition upload_file (file : option (string * string)) (unique : string)
    (storage_ok : bool) (bucket : gmap string string) : gmap string string * response :=
  match file with
  | None => (bucket, Json 400 [("error", VStr "No file provided")])
  | Some (filename, content) =>
      if String.eqb filename "" then (bucket, Json 400 [("error", VStr "No file selected")])
      else if negb (Py.endswith (Py.lower filename) ".pdf")
      then (bucket, Json 400 [("error", VStr "Only PDF files are allowed")])
      else
        let file_extension := snd (OsPath.splitext filename) in
        let unique_filename := unique +:+ file_extension in
        if storage_ok
        then (<[unique_filename := content]> bucket,
              Json 200 [ ("message", VStr "File uploaded successfully");
                         ("filename", VStr unique_filename);
                         ("original_name", VStr filename) ])
        else (bucket, ServerError "Upload failed" (ServiceError "storage"))
  end.

(** ** The ingestion worker ([ingestion-function/main.py]) *)

(** The databases and the bucket of the triggering event (object name to
    content). *)
Record world : Type := {
  w_consents : collection;
  w_entity_index : collection;
  w_patients : collection;
  w_bucket : gmap string string
}.

(** The calls an invocation makes on the external services, in order; a
    call is listed whether it succeeds or raises. *)
Inductive call : Type :=
  | VisionOcr (source_uri destination_uri : string)
  | StorageList (prefix : string)
  | BlobDownload (name : string)
  | ModelGenerate (prompt : string)
  | FirestoreSet (coll document_id : string) (fields : dict)
  | FirestoreQuery (coll : string)
  | FirestoreUpdate (coll document_id : string) (fields : dict)
  | BlobDelete (name : string).

(** [file_name.lower().endswith('.pdf')] *)
Definition is_pdf (file_name : string) : bool :=
  Py.endswith (Py.lower file_name) ".pdf".

(** [doc_id = file_name.replace(".pdf", "")] *)
Definition doc_id_of (file_name : string) : string :=
  Py.replace file_name ".pdf" "".

(** [storage_bucket.list_blobs(prefix=...)] filtered on [".json" in b.name]:
    the listing is in ascending order of object name. *)
Definition ocr_blobs (file_name : string) (bucket : gmap string string)
    : list (string * string) :=
  List.filter
    (fun b => Py.startswith (fst b) (file_name +:+ "-ocr-output/")
              && Py.contains ".json" (fst b))
    (merge_sort (fun a b => String.le (fst a) (fst b)) (map_to_list bucket)).

(** The loop over [entities.items()] of [_store_enhanced_analysis].  The
    f-string formats any object; [.lower()] then fails on all but a [str]. *)
Fixpoint index_entities (items entity_data : dict) (search_terms : list value)
    : result (dict * list value) :=
  match items with
  | [] => Ok (entity_data, search_terms)
  | (entity_type, entity_value) :: rest =>
      if truthy entity_value && negb (is_str entity_value "N/A") then
        match entity_value with
        | VStr s =>
            index_entities rest (dict_set entity_data entity_type entity_value)
              (search_terms ++ [VStr (entity_type +:+ ":" +:+ s); VStr (Py.lower s)])
        | _ => Raise AttributeError
        end
      else index_entities rest entity_data search_terms
  end.

(** The default password of [_create_patient_account]. *)
Definition default_password_of (patient_name : value) : result string :=
  first ← (if is_str patient_name "N/A" then Ok "patient"
           else
             ws ← py_split patient_name;
             match ws with
             | [] => Raise IndexError
             | w :: _ => Ok (Py.lower w)
             end);
  Ok (first +:+ "123!").

(** [_create_patient_account]; [patient_id] is [secrets.token_urlsafe(16)].
    Every exception is logged and raised again. *)
Definition _create_patient_account (patient_email : string) (patient_name : value)
    (patient_id : string) (fs_ok : string -> bool) (patients : collection)
    : result unit * collection * list call :=
  match default_password_of patient_name with
  | Raise e => (Raise e, patients, [])
  | Ok default_password =>
      let password_hash := SHA256.hexdigest default_password in
      match firestore fs_ok "patients" (take 1 (where_eq "email" patient_email patients)) with
      | Raise e => (Raise e, patients, [FirestoreQuery "patients"])
      | Ok ((existing_id, existing_data) :: _) =>
          let update_data :=
            [ ("patient_name", patient_name);
              ("email", VStr patient_email);
              ("updated_at", VTimestamp) ]
            ++ (if negb (truthy (dict_get existing_data "password_hash" VNone))
                then [ ("password_hash", VStr password_hash);
                       ("default_password", VStr default_password) ]
                else []) in
          let calls :=
            [FirestoreQuery "patients"; FirestoreUpdate "patients" existing_id update_data] in
          match firestore fs_ok "patients"
                  (<[existing_id := dict_update existing_data update_data]> patients) with
          | Ok patients' => (Ok tt, patients', calls)
          | Raise e => (Raise e, patients, calls)
          end
      | Ok [] =>
          let fields :=
            [ ("email", VStr patient_email);
              ("password_hash", VStr password_hash);
              ("patient_name", patient_name);
              ("default_password", VStr default_password);
              ("created_at", VTimestamp);
              ("updated_at", VTimestamp) ] in
          let calls :=
            [FirestoreQuery "patients"; FirestoreSet "patients" patient_id fields] in
          match firestore fs_ok "patients" (<[patient_id := fields]> patients) with
          | Ok patients' => (Ok tt, patients', calls)
          | Raise e => (Raise e, patients, calls)
          end
      end
  end.

(** The inner loop of step 2: the page texts of one OCR result. *)
Fixpoint read_pages (full_text : string) (pages : list value) : result string :=
  match pages with
  | [] => Ok full_text
  | page_response :: rest =>
      annotation ← py_subscript page_response "fullTextAnnotation";
      text ← py_subscript annotation "text";
      full_text ← py_concat full_text text;
      read_pages full_text rest
  end.

Section Ingestion.

(** The external functions: [json.loads] and the text of
    [model.generate_content(prompt)]. *)
Variable json_loads : string -> result value.
Variable generate_content : string -> result string.

(** The entry [_store_enhanced_analysis] builds for [entity_index]. *)
Definition entity_entry (document_id analysis_json : string) : result dict :=
  analysis ← json_loads analysis_json;
  entities ← py_get analysis "entities" (VDict []);
  items ← py_items entities;
  indexed ← index_entities items [] [];
  patient_id ← py_get analysis "patient_id" (VStr "unknown");
  patient_email ← py_get entities "patient_email" (VStr "N/A");
  patient_name ← py_get entities "patient_name" (VStr "N/A");
  stored_email ← (if is_str patient_email "N/A" then Ok "N/A" else py_lower patient_email);
  consented_items ← py_get analysis "consented_items" (VList []);
  declined_items ← py_get analysis "declined_items" (VList []);
  summary ← py_get analysis "summary" (VStr "");
  Ok [ ("document_id", VStr document_id);
       ("entities", VDict (fst indexed));
       ("search_terms", VList (snd indexed));
       ("patient_name", patient_name);
       ("patient_id", patient_id);
       ("patient_email", VStr stored_email);
       ("consented_items", consented_items);
       ("declined_items", declined_items);
       ("summary", summary);
       ("processed_timestamp", VTimestamp) ].

(** [_store_enhanced_analysis]: every exception, the one of the Firestore
    write included, is logged and dropped. *)
Definition _store_enhanced_analysis (document_id analysis_json full_text : string)
    (fs_ok : string -> bool) (entity_index : collection) : collection * list call :=
  match entity_entry document_id analysis_json with
  | Raise _ => (entity_index, [])
  | Ok entry =>
      (match firestore fs_ok "entity_index" (<[document_id := entry]> entity_index) with
       | Ok entity_index' => entity_index'
       | Raise _ => entity_index
       end,
       [FirestoreSet "entity_index" document_id entry])
  end.

(** Step 2: download and read the OCR results, in listing order. *)
Fixpoint read_blobs (full_text : string) (blob_list : list (string * string))
    : result string * list call :=
  match blob_list with
  | [] => (Ok full_text, [])
  | (name, json_string) :: rest =>
      match (response ← json_loads json_string;
             responses ← py_subscript response "responses";
             pages ← py_iter responses;
             read_pages full_text pages) with
      | Raise e => (Raise e, [BlobDownload name])
      | Ok full_text =>
          let '(r, calls) := read_blobs full_text rest in
          (r, BlobDownload name :: calls)
      end
  end.

Definition analysis_prompt (full_text : string) : string :=
  analysis_prompt_head +:+ full_text +:+ analysis_prompt_tail.

Definition fence_json : string := "```json".
Definition fence : string := "```".

(** Step 3: the model's text without its code fences, or the fallback. *)
Definition analyse (full_text : string) : result string :=
  match generate_content (analysis_prompt full_text) with
  | Ok text => Ok (Py.replace (Py.replace (Py.strip text) fence_json "") fence "")
  | Raise _ => json_dumps fallback_analysis
  end.

(** Step 6: the account of the patient the form names, every exception
    logged and dropped. *)
Definition provision_account (cleaned_response patient_id : string)
    (fs_ok : string -> bool) (patients : collection) : collection * list call :=
  match (analysis ← json_loads cleaned_response;
         entities ← py_get analysis "entities" (VDict []);
         e ← py_get entities "patient_email" (VStr "");
         patient_email ← py_lower e;
         patient_name ← py_get entities "patient_name" (VStr "N/A");
         Ok (patient_email, patient_name)) with
  | Raise _ => (patients, [])
  | Ok (patient_email, patient_name) =>
      if negb (String.eqb patient_email "") && negb (String.eqb patient_email "n/a")
      then
        let '(_, patients', calls) :=
          _create_patient_account patient_email patient_name patient_id fs_ok patients in
        (patients', calls)
      else (patients, [])
  end.

(** [process_consent_pdf] on the event [{bucket, name}].  [ocr] is the
    outcome of the Vision operation: the result blobs it wrote, or the
    exception of [operation.result(timeout=420)]. *)
Definition process_consent_pdf (bucket_name file_name : string)
    (ocr : result (list (string * string))) (patient_id : string)
    (fs_ok : string -> bool) (w : world) : result unit * world * list call :=
  if negb (is_pdf file_name) then (Ok tt, w, [])
  else
    let gcs_source_uri := "gs://" +:+ bucket_name +:+ "/" +:+ file_name in
    let gcs_destination_uri :=
      "gs://" +:+ bucket_name +:+ "/" +:+ file_name +:+ "-ocr-output/" in
    let calls := [VisionOcr gcs_source_uri gcs_destination_uri] in
    match ocr with
    | Raise e => (Raise e, w, calls)
    | Ok written =>
        let bucket := list_to_map written ∪ w_bucket w in
        let w := {| w_consents := w_consents w; w_entity_index := w_entity_index w;
                    w_patients := w_patients w; w_bucket := bucket |} in
        let blob_list := ocr_blobs file_name bucket in
        let calls := calls ++ [StorageList (file_name +:+ "-ocr-output/")] in
        let '(read, downloads) := read_blobs "" blob_list in
        let calls := calls ++ downloads in
        match read with
        | Raise e => (Raise e, w, calls)
        | Ok full_text =>
            let calls := calls ++ [ModelGenerate (analysis_prompt full_text)] in
            match analyse full_text with
            | Raise e => (Raise e, w, calls)
            | Ok cleaned_response =>
                let doc_id := doc_id_of file_name in
                let record :=
                  [ ("filename", VStr file_name);
                    ("ai_analysis_json", VStr cleaned_response);
                    ("full_text", VStr full_text);
                    ("processed_timestamp", VTimestamp) ] in
                let calls := calls ++ [FirestoreSet "consents" doc_id record] in
                match firestore fs_ok "consents" (<[doc_id := record]> (w_consents w)) with
                | Raise e => (Raise e, w, calls)
                | Ok consents =>
                    let '(entity_index, stored) :=
                      _store_enhanced_analysis doc_id cleaned_response full_text fs_ok
                        (w_entity_index w) in
                    let '(patients, provisioned) :=
                      provision_account cleaned_response patient_id fs_ok (w_patients w) in
                    (Ok tt,
                     {| w_consents := consents;
                        w_entity_index := entity_index;
                        w_patients := patients;
                        w_bucket := List.fold_left (fun b blob => delete (fst blob) b)
                                      blob_list bucket |},
                     calls ++ stored ++ provisioned
                       ++ List.map (fun blob => BlobDelete (fst blob)) blob_list)
                end
            end
        end
    end.

End Ingestion.

(** ** Specification vocabulary *)

(** The alphabet of [secrets.token_urlsafe] and [uuid4]: URL-safe base64. *)
Definition urlsafe_char (c : ascii) : bool :=
  Py.isupper c || Py.islower c || Py.isdigit c
  || (Py.ord c =? 45)%N || (Py.ord c =? 95)%N.

Fixpoint urlsafe (s : string) : bool :=
  match s with
  | EmptyString => true
  | String c r => urlsafe_char c && urlsafe r
  end.

(** What [secrets.token_urlsafe(n)] returns for a positive [n]. *)
Definition is_token (s : string) : bool :=
  negb (String.eqb s "") && urlsafe s.

(** Every key of the session table was issued by [login_patient]. *)
Definition sessions_wf (active_sessions : gmap string session) : Prop :=
  ∀ t s, active_sessions !! t = Some s → is_token t = true.

Definition has_email (e : string) (d : dict) : bool :=
  is_str (dict_get d "email" VNone) e.

(** At most one account per email. *)
Definition unique_email (patients : collection) : Prop :=
  ∀ e k1 d1 k2 d2,
    patients !! k1 = Some d1 → patients !! k2 = Some d2 →
    has_email e d1 = true → has_email e d2 = true → k1 = k2.

(** The request body carries the text [s] under [k] once stripped:
    [data.get(k, '').strip() == s]. *)
Definition sends (data : value) (k s : string) : Prop :=
  field_stripped data k = Ok s.

(** The entry belongs to the patient with email [e]. *)
Definition owned_by (e : string) (kd : string * dict) : bool :=
  is_str (dict_get (snd kd) "patient_email" VNone) e.

(** An entity field that reaches the index: non-empty and not ["N/A"]. *)
Definition indexed (kv : string * value) : bool :=
  truthy (snd kv) && negb (is_str (snd kv) "N/A").

Definition str_valued (d : dict) : Prop :=
  Forall (fun kv : string * value => ∃ s, snd kv = VStr s) d.

(** The two search terms of one entity field. *)
Definition search_terms_of (kv : string * value) : list value :=
  match snd kv with
  | VStr s => [VStr (fst kv +:+ ":" +:+ s); VStr (Py.lower s)]
  | _ => []
  end.

(** The [patient_email] field of the entry: the extracted email in lower
    case, ["N/A"] when the analysis has none or says ["N/A"]. *)
Definition stored_email_of (entities : dict) : string :=
  match dict_lookup entities "patient_email" with
  | Some (VStr s) => if String.eqb s "N/A" then "N/A" else Py.lower s
  | _ => "N/A"
  end.

(** The text [json.dumps] gives for [fallback_analysis]. *)
Definition fallback_json : string :=
  "{" +:+ q "summary" +:+ ": " +:+ q "Consent form processed - AI analysis failed" +:+ ", "
  +:+ q "entities" +:+ ": {"
  +:+ q "patient_name" +:+ ": " +:+ q "N/A" +:+ ", "
  +:+ q "patient_email" +:+ ": " +:+ q "N/A" +:+ ", "
  +:+ q "date_of_birth" +:+ ": " +:+ q "N/A" +:+ ", "
  +:+ q "doctor_name" +:+ ": " +:+ q "N/A" +:+ ", "
  +:+ q "procedure" +:+ ": " +:+ q "N/A" +:+ ", "
  +:+ q "date" +:+ ": " +:+ q "N/A" +:+ "}, "
  +:+ q "consented_items" +:+ ": [" +:+ q "Analysis pending" +:+ "], "
  +:+ q "declined_items" +:+ ": [], "
  +:+ q "patient_id" +:+ ": " +:+ q "unknown" +:+ "}".

(** The body is not a JSON object, or its field [k] is present and is not
    a string (a number, [null], a list, ...). *)
Definition not_text (data : value) (k : string) : bool :=
  match data with
  | VDict d =>
      match dict_lookup d k with
      | Some (VStr _) | None => false
      | Some _ => true
      end
  | _ => true
  end.

(** A text that does not begin with a blank. *)
Definition no_leading_blank (s : string) : Prop :=
  match s with
  | EmptyString => True
  | String c _ => Py.isspace c = false
  end.

(** Every entry of the index names the document it is stored under. *)
Definition index_wf (entity_index : collection) : Prop :=
  ∀ k d, entity_index !! k = Some d → dict_lookup d "document_id" = Some (VStr k).

(** The text of one page of an OCR result, when the page has one. *)
Definition page_text (page_response : value) : option string :=
  match py_subscript page_response "fullTextAnnotation" with
  | Ok annotation =>
      match py_subscript annotation "text" with
      | Ok (VStr text) => Some text
      | _ => None
      end
  | Raise _ => None
  end.

(** The texts of a list, one after another. *)
Definition concat_texts (texts : list string) : string :=
  List.fold_right String.append EmptyString texts.

(** A list of texts, as the analysis is asked to give the consented and
    the declined items. *)
Definition text_items (v : value) : bool :=
  match v with
  | VList l => List.forallb (fun x => match x with VStr _ => true | _ => false end) l
  | _ => false
  end.

(** Every character of the text is in the class. *)
Fixpoint all_chars (cls : ascii -> bool) (s : string) : bool :=
  match s with
  | EmptyString => true
  | String c r => cls c && all_chars cls r
  end.

(** The pattern has a capturing group. *)
Definition captures (re : Re.regex) : bool :=
  List.existsb (fun a => match a with Re.Plus _ capture => capture | Re.Chr _ => false end) re.

(** ** Fixtures: concrete services and requests for the examples *)

Module Fixture.

Definition up : string -> bool := fun _ => true.
Definition down : string -> bool := fun _ => false.

Definition no_repr : value -> string := fun _ => "".

Definition model_down : string -> result string :=
  fun _ => Raise (ServiceError "vertexai").

Definition model_says (text : string) : string -> result string :=
  fun _ => Ok text.

(** A [json.loads] known on finitely many texts. *)
Fixpoint loads (table : list (string * value)) (text : string) : result value :=
  match table with
  | [] => Raise (ServiceError "json")
  | (t, v) :: rest => if String.eqb t text then Ok v else loads rest text
  end.

Definition credentials (email password : string) : value :=
  VDict [("email", VStr email); ("password", VStr password)].

Definition asking (k text : string) : value := VDict [(k, VStr text)].

Definition empty_world : world :=
  {| w_consents := ∅; w_entity_index := ∅; w_patients := ∅; w_bucket := ∅ |}.

(** One OCR result blob holding one page of text, and a [json.loads] that
    reads it. *)
Definition ocr_page (text : string) : value :=
  VDict [("responses", VList [VDict [("fullTextAnnotation", VDict [("text", VStr text)])]])].

Definition dumped (v : value) : string :=
  match json_dumps v with
  | Ok s => s
  | Raise _ => ""
  end.

Definition scan_blobs : list (string * string) :=
  [("form.pdf-ocr-output/output-1-to-1.json", dumped (ocr_page "I consent to surgery."))].

Definition scan_loads : string -> result value :=
  loads [ (dumped (ocr_page "I consent to surgery."), ocr_page "I consent to surgery.");
          (fallback_json, fallback_analysis) ].

(** Two ingestions of [form.pdf], the model being down. *)
Definition first_run : result unit * world * list call :=
  process_consent_pdf scan_loads model_down "consent-bucket" "form.pdf"
    (Ok scan_blobs) "n3wPat1ent" up empty_world.

Definition second_run : result unit * world * list call :=
  process_consent_pdf scan_loads model_down "consent-bucket" "form.pdf"
    (Ok scan_blobs) "0therPat1ent" up (snd (fst first_run)).

(** The same OCR result for an upload named [Scan.PDF]. *)
Definition upper_blobs : list (string * string) :=
  [("Scan.PDF-ocr-output/output-1-to-1.json", dumped (ocr_page "I consent to surgery."))].

(** Firestore accepts writes to [consents] only. *)
Definition only_consents : string -> bool := fun coll => String.eqb coll "consents".

(** An analysis as the model returns it, and a [json.loads] that reads it. *)
Definition jane_analysis : value :=
  VDict
    [ ("summary", VStr "Consent to an appendectomy.");
      ("entities",
        VDict
          [ ("patient_name", VStr "Jane");
            ("patient_email", VStr "Jane.Roe@Example.org");
            ("date_of_birth", VStr "N/A");
            ("doctor_name", VStr "Dr. Okafor");
            ("procedure", VStr "");
            ("date", VStr "2024-03-01") ]);
      ("consented_items", VList [VStr "anaesthesia"]);
      ("declined_items", VList [VStr "blood transfusion"]);
      ("patient_id", VStr "jane.roe@example.org") ].

Definition jane_loads : string -> result value :=
  loads [(dumped jane_analysis, jane_analysis)].

Definition bob_analysis : value :=
  VDict
    [ ("summary", VStr "Consent to a knee replacement.");
      ("entities",
        VDict
          [ ("patient_name", VStr "Bob");
            ("patient_email", VStr "bob@example.org");
            ("date_of_birth", VStr "1970-01-01");
            ("doctor_name", VStr "Dr. Okafor");
            ("procedure", VStr "knee replacement");
            ("date", VStr "2024-04-02") ]);
      ("consented_items", VList [VStr "general anaesthesia"]);
      ("declined_items", VList [VStr "research use of tissue"]);
      ("patient_id", VStr "bob@example.org") ].

Definition clinic_loads : string -> result value :=
  loads [(dumped jane_analysis, jane_analysis); (dumped bob_analysis, bob_analysis)].

(** The entity index after the forms of Jane and Bob were ingested. *)
Definition clinic_index : collection :=
  fst (_store_enhanced_analysis clinic_loads "bob-form" (dumped bob_analysis)
         "I, Bob, consent." up
         (fst (_store_enhanced_analysis clinic_loads "jane-form" (dumped jane_analysis)
                 "I, Jane, consent." up ∅))).

(** Jane's session. *)
Definition jane_token : string := "Q0FGRS1qYW5lLXRva2Vu".

Definition jane_sessions : gmap string session :=
  {[ jane_token := {| session_email := "jane.roe@example.org";
                      session_patient_name := VStr "Jane";
                      session_expires := eight_hours |} ]}.

(** A patient registered through [/register], and a token for her. *)
Definition ann : value := credentials "Ann@Example.org" "secret1".

Definition ann_registered : collection :=
  fst (register_patient ann "0b8f6c1e-ann" up ∅).

Definition ann_token : string := "kq3vX0aYc1-Zr_7TnE5uWg".

Definition ann_logged_in : gmap string session :=
  fst (login_patient ann ann_token 0 up ann_registered ∅).


(** An analysis with an email and a blank patient name. *)
Definition nameless_analysis : value :=
  VDict
    [ ("summary", VStr "Consent to a blood test.");
      ("entities",
        VDict [("patient_name", VStr "  "); ("patient_email", VStr "Zoe@Example.org")]);
      ("consented_items", VList [VStr "blood test"]);
      ("declined_items", VList []);
      ("patient_id", VStr "zoe") ].

Definition nameless_loads : string -> result value :=
  loads [(dumped nameless_analysis, nameless_analysis)].

(** A form as [search_patient_documents] returns it. *)
Definition form (id item : string) : found_doc :=
  {| doc_id := id;
     doc_filename := VStr id;
     doc_summary := VStr "Consent form.";
     doc_consented_items := VList [VStr item];
     doc_declined_items := VList [];
     doc_patient_name := VStr "Jane";
     doc_entities := VDict [] |}.

(** The OCR results of a form of twelve pages, in batches of two. *)
Definition ocr_pages (texts : list string) : value :=
  VDict [("responses",
          VList (List.map (fun t => VDict [("fullTextAnnotation", VDict [("text", VStr t)])])
                   texts))].

Definition batches : list (string * list string) :=
  [ ("scan.pdf-ocr-output/output-1-to-2.json", ["[1]"; "[2]"]);
    ("scan.pdf-ocr-output/output-3-to-4.json", ["[3]"; "[4]"]);
    ("scan.pdf-ocr-output/output-5-to-6.json", ["[5]"; "[6]"]);
    ("scan.pdf-ocr-output/output-7-to-8.json", ["[7]"; "[8]"]);
    ("scan.pdf-ocr-output/output-9-to-10.json", ["[9]"; "[10]"]);
    ("scan.pdf-ocr-output/output-11-to-12.json", ["[11]"; "[12]"]) ].

Definition batch_bucket : gmap string string :=
  list_to_map (List.map (fun b => (fst b, dumped (ocr_pages (snd b)))) batches).

Definition batch_loads : string -> result value :=
  loads (List.map (fun b => (dumped (ocr_pages (snd b)), ocr_pages (snd b))) batches).

(** The ingestion of Jane's form, the model answering with her analysis. *)
Definition jane_blobs : list (string * string) :=
  [("jane-form.pdf-ocr-output/output-1-to-1.json", dumped (ocr_page "I, Jane, consent."))].

Definition jane_run_loads : string -> result value :=
  loads [ (dumped (ocr_page "I, Jane, consent."), ocr_page "I, Jane, consent.");
          (dumped jane_analysis, jane_analysis) ].

Definition jane_run : result unit * world * list call :=
  process_consent_pdf jane_run_loads (model_says (dumped jane_analysis)) "consent-bucket"
    "jane-form.pdf" (Ok jane_blobs) "n3wPat1ent" up empty_world.

End Fixture.

(** Keep [simpl] from unfolding the services and the larger functions. *)
Arguments SHA256.hexdigest : simpl never.
Arguments hash_password : simpl never.
Arguments stream : simpl never.
Arguments where_eq : simpl never.
Arguments where_array_contains : simpl never.
Arguments where_range : simpl never.
Arguments search_patient_documents : simpl never.
Arguments generate_answer : simpl never.
Arguments _extract_key_entity : simpl never.
Arguments _resolve_document_from_entity : simpl never.
Arguments _get_most_recent_document : simpl never.
Arguments _generate_contextual_answer : simpl never.
Arguments Py.lower : simpl never.
Arguments Py.strip : simpl never.
Arguments Py.replace : simpl never.
Arguments Py.contains : simpl never.
Arguments analysis_prompt : simpl never.
Arguments ocr_blobs : simpl never.
Arguments doc_id_of : simpl never.
Arguments is_pdf : simpl never.

(** * Properties *)

(** ** SHA-256 test vectors (FIPS 180-4) *)

Example sha256_empty :
  SHA256.hexdigest ""
  = "e3b0c44298fc1c149afbf4c8996fb92427ae41e4649b934ca495991b7852b855".
Proof. vm_compute. reflexivity. Qed.

Example sha256_abc :
  SHA256.hexdigest "abc"
  = "ba7816bf8f01cfea414140de5dae2223b00361a396177a9cb410ff61f20015ad".
Proof. vm_compute. reflexivity. Qed.

Example sha256_two_blocks :
  SHA256.hexdigest "abcdbcdecdefdefgefghfghighijhijkijkljklmklmnlmnomnopnopq"
  = "248d6a61d20638b8e5c026930c3e6039a33ce45964ff2167f6ecedd419db06c1".
Proof. vm_compute. reflexivity. Qed.

(** ** Python string functions on examples *)

Example strip_example : Py.strip "  Jane Roe  " = "Jane Roe".
Proof. vm_compute. reflexivity. Qed.

Example split_example : Py.split "  Jane   Roe " = ["Jane"; "Roe"].
Proof. vm_compute. reflexivity. Qed.

Example replace_example : Py.replace "a.pdf.b.PDF.pdf" ".pdf" "" = "a.b.PDF".
Proof. vm_compute. reflexivity. Qed.

Example search_example :
  Re.search ([Re.word; Re.spaces] ++ Re.lit "declined") "she has   declined it"
  = Some "has".
Proof. vm_compute. reflexivity. Qed.

(** ** Dictionaries *)

Lemma dict_lookup_set_eq (d : dict) k v : dict_lookup (dict_set d k v) k = Some v.
Proof.
  induction d as [|[k' v'] d IH]; simpl.
  - by rewrite String.eqb_refl.
  - destruct (String.eqb k' k) eqn:E; simpl; rewrite E; [done|apply IH].
Qed.

Lemma dict_lookup_set_ne (d : dict) k k' v :
  k ≠ k' → dict_lookup (dict_set d k v) k' = dict_lookup d k'.
Proof.
  intros Hne. induction d as [|[k0 v0] d IH]; simpl.
  - apply String.eqb_neq in Hne. by rewrite Hne.
  - destruct (String.eqb k0 k) eqn:E; simpl.
    + apply String.eqb_eq in E as ->. apply String.eqb_neq in Hne. by rewrite Hne.
    + by rewrite IH.
Qed.

(** ** Streams of a collection *)

Lemma by_id_trans : Transitive by_id.
Proof. intros a b c. unfold by_id. apply transitivity. Qed.

Lemma by_id_total : Total by_id.
Proof. intros a b. unfold by_id. apply total, _. Qed.

#[local] Existing Instance by_id_trans.
#[local] Existing Instance by_id_total.

Lemma elem_of_stream (c : collection) k d : (k, d) ∈ stream c ↔ c !! k = Some d.
Proof. unfold stream. rewrite merge_sort_Permutation. apply elem_of_map_to_list. Qed.

Lemma stream_sorted (c : collection) : StronglySorted by_id (stream c).
Proof. apply StronglySorted_merge_sort; apply _. Qed.

Lemma stream_NoDup (c : collection) : NoDup (stream c).
Proof. unfold stream. rewrite merge_sort_Permutation. apply NoDup_map_to_list. Qed.

Lemma elem_of_filter_bool {A} (f : A → bool) l x :
  x ∈ List.filter f l ↔ x ∈ l ∧ f x = true.
Proof. rewrite !list_elem_of_In. apply List.filter_In. Qed.

Lemma filter_StronglySorted {A} (R : relation A) (f : A → bool) l :
  StronglySorted R l → StronglySorted R (List.filter f l).
Proof.
  induction 1 as [|x l Hl IH Hx]; simpl; [constructor|].
  destruct (f x); [|done]. constructor; [done|].
  rewrite Forall_forall in Hx. apply Forall_forall. intros y Hy.
  apply Hx. by apply elem_of_filter_bool in Hy as [Hy _].
Qed.

Lemma NoDup_filter_bool {A} (f : A → bool) l : NoDup l → NoDup (List.filter f l).
Proof.
  induction 1 as [|x l Hx Hl IH]; simpl; [constructor|].
  destruct (f x); [|done]. constructor; [|done].
  rewrite elem_of_filter_bool. tauto.
Qed.

(** A query sees only the documents it matches: two collections with the
    same matching documents give the same stream. *)
Lemma filter_stream_ext (f : string * dict → bool) (c c' : collection) :
  (∀ k d, f (k, d) = true → (c !! k = Some d ↔ c' !! k = Some d)) →
  List.filter f (stream c) = List.filter f (stream c').
Proof.
  intros H. apply (StronglySorted_unique_strong by_id).
  - intros [k1 d1] [k2 d2] H1 H2 Hle1 Hle2.
    apply elem_of_filter_bool in H1 as [H1 Hf1].
    apply elem_of_filter_bool in H2 as [H2 Hf2].
    apply elem_of_stream in H1, H2.
    assert (k1 = k2) as -> by (by apply (anti_symm String.le)).
    apply H in H1; [|done]. congruence.
  - apply filter_StronglySorted, stream_sorted.
  - apply filter_StronglySorted, stream_sorted.
  - apply NoDup_Permutation; [apply NoDup_filter_bool, stream_NoDup..|].
    intros [k d]. rewrite !elem_of_filter_bool, !elem_of_stream.
    split; intros [? ?]; split; try done; by apply H.
Qed.

Lemma filter_stream_nil (f : string * dict → bool) (c : collection) :
  List.filter f (stream c) = [] ↔ ∀ k d, c !! k = Some d → f (k, d) = false.
Proof.
  split.
  - intros Hnil k d Hk. destruct (f (k, d)) eqn:E; [|done].
    assert ((k, d) ∈ List.filter f (stream c)) as Hin.
    { apply elem_of_filter_bool. by rewrite elem_of_stream. }
    rewrite Hnil in Hin. by apply elem_of_nil in Hin.
  - intros Hnone. destruct (List.filter f (stream c)) as [|[k d] l] eqn:E; [done|].
    assert ((k, d) ∈ List.filter f (stream c)) as Hin by (rewrite E; left).
    apply elem_of_filter_bool in Hin as [Hk Hf]. apply elem_of_stream in Hk.
    rewrite (Hnone _ _ Hk) in Hf. done.
Qed.

(** The first document of a query is a match, and no match has a smaller
    identifier. *)
Lemma filter_stream_head (f : string * dict → bool) (c : collection) k d l :
  List.filter f (stream c) = (k, d) :: l →
  c !! k = Some d ∧ f (k, d) = true
  ∧ ∀ k' d', c !! k' = Some d' → f (k', d') = true → String.le k k'.
Proof.
  intros E.
  assert ((k, d) ∈ List.filter f (stream c)) as Hin by (rewrite E; left).
  apply elem_of_filter_bool in Hin as [Hk Hf]. apply elem_of_stream in Hk.
  split; [done|]. split; [done|]. intros k' d' Hk' Hf'.
  assert ((k', d') ∈ List.filter f (stream c)) as Hin'.
  { apply elem_of_filter_bool. by rewrite elem_of_stream. }
  pose proof (filter_StronglySorted by_id f _ (stream_sorted c)) as Hs.
  rewrite E in Hs, Hin'. apply StronglySorted_inv in Hs as [_ Hall].
  apply elem_of_cons in Hin' as [[= -> ->]|Hin']; [done|].
  rewrite Forall_forall in Hall. by apply (Hall (k', d')).
Qed.

Lemma filter_stream_singleton (f : string * dict → bool) (c : collection) k d :
  c !! k = Some d → f (k, d) = true →
  (∀ k' d', c !! k' = Some d' → f (k', d') = true → k' = k) →
  List.filter f (stream c) = [(k, d)].
Proof.
  intros Hk Hf Huniq.
  assert (NoDup (List.filter f (stream c))) as Hnd
    by apply NoDup_filter_bool, stream_NoDup.
  assert (∀ x, x ∈ List.filter f (stream c) ↔ x = (k, d)) as Hall.
  { intros [k' d']. rewrite elem_of_filter_bool, elem_of_stream. split.
    - intros [Hk' Hf']. assert (k' = k) as -> by eauto. congruence.
    - intros [= -> ->]. done. }
  destruct (List.filter f (stream c)) as [|x l].
  { exfalso. eapply elem_of_nil. by apply (Hall (k, d)). }
  assert (x = (k, d)) as -> by (apply Hall; left).
  destruct l as [|y l]; [done|].
  assert (y = (k, d)) as -> by (apply Hall; right; left).
  apply NoDup_cons in Hnd as [Hnd _]. exfalso. apply Hnd. left.
Qed.

Lemma elem_of_where_eq field s (c : collection) k d :
  (k, d) ∈ where_eq field s c ↔ c !! k = Some d ∧ is_str (dict_get d field VNone) s = true.
Proof. unfold where_eq. by rewrite elem_of_filter_bool, elem_of_stream. Qed.

Lemma where_eq_nil field s (c : collection) :
  where_eq field s c = [] ↔
  ∀ k d, c !! k = Some d → is_str (dict_get d field VNone) s = false.
Proof.
  apply (filter_stream_nil (fun kd => is_str (dict_get (snd kd) field VNone) s)).
Qed.

Lemma where_eq_singleton field s (c : collection) k d :
  c !! k = Some d → is_str (dict_get d field VNone) s = true →
  (∀ k' d', c !! k' = Some d' → is_str (dict_get d' field VNone) s = true → k' = k) →
  where_eq field s c = [(k, d)].
Proof.
  apply (filter_stream_singleton (fun kd => is_str (dict_get (snd kd) field VNone) s)).
Qed.

(** ** Session verification *)

Lemma verify_session_unknown header now (S : gmap string session) :
  (header = None ∨ ∃ t, header = Some t ∧ S !! t = None) →
  verify_session header now S
  = (S, Rejected (Json 401 [("error", VStr "Unauthorized. Please log in.")])).
Proof.
  intros [-> | (t & -> & Ht)]; simpl; [done|].
  destruct (String.eqb t ""); [done|]. by rewrite Ht.
Qed.

Lemma verify_session_expired t now (S : gmap string session) s :
  S !! t = Some s → t ≠ "" → (session_expires s < now)%Z →
  verify_session (Some t) now S
  = (delete t S, Rejected (Json 401 [("error", VStr "Session expired. Please log in again.")])).
Proof.
  intros Ht Hne Hlt. simpl.
  apply String.eqb_neq in Hne as ->. rewrite Ht.
  apply Z.ltb_lt in Hlt as ->. done.
Qed.

Lemma verify_session_valid t now (S : gmap string session) s :
  S !! t = Some s → t ≠ "" → (now ≤ session_expires s)%Z →
  verify_session (Some t) now S = (S, Accepted (session_email s)).
Proof.
  intros Ht Hne Hle. simpl.
  apply String.eqb_neq in Hne as ->. rewrite Ht.
  destruct (Z.ltb_spec (session_expires s) now); [lia|done].
Qed.

(** A successful login stores the session under the token it returns, with
    the expiry eight hours ahead. *)
Lemma login_patient_ok data tok now fs_ok patients (S : gmap string session) :
  status_of (login_patient data tok now fs_ok patients S).2 = 200%Z →
  ∃ e name,
    (login_patient data tok now fs_ok patients S).1
    = <[tok := {| session_email := e; session_patient_name := name;
                  session_expires := now + eight_hours |}]> S.
Proof.
  unfold login_patient.
  destruct (field_stripped data "email") as [e|]; simpl; [|done].
  destruct (field_stripped data "password") as [p|]; simpl; [|done].
  destruct (_ || _); simpl; [done|].
  destruct (firestore _ _ _) as [[|[k [|f d]] l]|]; simpl; try done.
  destruct (negb _); simpl; [done|]. eauto.
Qed.

Section SessionProperties.

Variable py_repr : value -> string.
Variable generate_content : string -> result string.

Lemma handle_query_rejected header now data fs_ok idx (S S' : gmap string session) r :
  verify_session header now S = (S', Rejected r) →
  handle_query py_repr generate_content header now data fs_ok idx S = (S', r).
Proof. unfold handle_query. by intros ->. Qed.

Lemma logout_patient_rejected header now (S S' : gmap string session) r :
  verify_session header now S = (S', Rejected r) →
  logout_patient header now S = (S', r).
Proof. unfold logout_patient. by intros ->. Qed.

(** Once past verification [/query] answers 200, 400 or 500, and leaves the
    session table alone. *)
Lemma handle_query_accepted header now data fs_ok idx (S : gmap string session) e :
  verify_session header now S = (S, Accepted e) →
  (handle_query py_repr generate_content header now data fs_ok idx S).1 = S
  ∧ status_of (handle_query py_repr generate_content header now data fs_ok idx S).2 ≠ 401%Z.
Proof.
  unfold handle_query. intros ->. split; [done|]. simpl.
  destruct (field_stripped data "query") as [qr|]; simpl; [|done].
  destruct (String.eqb qr ""); simpl; [done|].
  destruct (search_patient_documents _ _ _); simpl; [done|].
  by destruct (generate_answer _ _ _ _).
Qed.

(** C4 -- Session expiry.  A login at instant [T] stores the expiry
    [T + 8 h] under the token it returns; any request on a protected
    endpoint ([/query], [/logout]) that presents the token at an instant
    strictly after [T + 8 h] is answered 401, and that check removes the
    session from the table; a request with no token or an unknown token is
    answered 401 as well.  The token is not the empty text, as no output of
    [secrets.token_urlsafe(32)] is. *)
Theorem C4_session_expiry data tok T fs_ok patients (S0 : gmap string session) :
  status_of (login_patient data tok T fs_ok patients S0).2 = 200%Z →
  tok ≠ "" →
  let S1 := (login_patient data tok T fs_ok patients S0).1 in
  (∃ s, S1 !! tok = Some s ∧ session_expires s = (T + eight_hours)%Z)
  ∧ (∀ now qdata fs_ok' idx (S : gmap string session),
       (T + eight_hours < now)%Z → S !! tok = S1 !! tok →
       let q := handle_query py_repr generate_content (Some tok) now qdata fs_ok' idx S in
       let l := logout_patient (Some tok) now S in
       status_of q.2 = 401%Z ∧ q.1 = delete tok S ∧ q.1 !! tok = None
       ∧ status_of l.2 = 401%Z ∧ l.1 = delete tok S ∧ l.1 !! tok = None)
  ∧ (∀ header now qdata fs_ok' idx (S : gmap string session),
       header = None ∨ (∃ t, header = Some t ∧ S !! t = None) →
       status_of (handle_query py_repr generate_content header now qdata fs_ok' idx S).2 = 401%Z
       ∧ status_of (logout_patient header now S).2 = 401%Z).
Proof.
  intros Hok Hne S1.
  destruct (login_patient_ok _ _ _ _ _ _ Hok) as (e & name & HS1).
  fold S1 in HS1.
  split; [|split].
  - eexists. rewrite HS1, lookup_insert_eq. done.
  - intros now qdata fs_ok' idx S Hlate HS q l.
    rewrite HS1, lookup_insert_eq in HS.
    pose proof (verify_session_expired tok now S _ HS Hne Hlate) as Hv.
    subst q l.
    rewrite (handle_query_rejected _ _ _ _ _ _ _ _ Hv).
    rewrite (logout_patient_rejected _ _ _ _ _ Hv). simpl.
    rewrite lookup_delete_eq. done.
  - intros header now qdata fs_ok' idx S Hmiss.
    pose proof (verify_session_unknown header now S Hmiss) as Hv.
    rewrite (handle_query_rejected _ _ _ _ _ _ _ _ Hv).
    rewrite (logout_patient_rejected _ _ _ _ _ Hv). done.
Qed.

End SessionProperties.

(** The example of C4: Ann logs in at instant 0 and asks one microsecond
    after the eight hours. *)
Lemma C4_session_expiry_witness :
  let q := handle_query Fixture.no_repr Fixture.model_down (Some Fixture.ann_token)
             (eight_hours + 1) (Fixture.asking "query" "What did I decline?")
             Fixture.up ∅ Fixture.ann_logged_in in
  status_of q.2 = 401%Z ∧ q.1 !! Fixture.ann_token = None.
Proof.
  destruct (C4_session_expiry Fixture.no_repr Fixture.model_down Fixture.ann
              Fixture.ann_token 0 Fixture.up Fixture.ann_registered ∅)
    as (_ & Hlate & _); [vm_compute; reflexivity | vm_compute; discriminate |].
  destruct (Hlate (eight_hours + 1)%Z (Fixture.asking "query" "What did I decline?")
              Fixture.up ∅ Fixture.ann_logged_in) as (H1 & _ & H2 & _);
    [vm_compute; reflexivity | reflexivity |].
  exact (conj H1 H2).
Defined.

(** ** The Authorization header *)

Lemma is_token_bearer t : is_token ("Bearer " +:+ t) = false.
Proof. reflexivity. Qed.

Lemma is_token_nonempty t : is_token t = true → t ≠ "".
Proof. intros H ->. discriminate H. Qed.

(** The invariant [sessions_wf] holds of the empty table and is kept by
    every operation on the table. *)
Lemma sessions_wf_empty : sessions_wf ∅.
Proof. intros t s Ht. by rewrite lookup_empty in Ht. Qed.

Lemma sessions_wf_delete t (S : gmap string session) :
  sessions_wf S → sessions_wf (delete t S).
Proof.
  intros Hwf t' s Ht'. apply lookup_delete_Some in Ht' as [_ Ht']. eauto.
Qed.

Lemma verify_session_wf header now (S : gmap string session) :
  sessions_wf S → sessions_wf (verify_session header now S).1.
Proof.
  intros Hwf. unfold verify_session.
  repeat case_match; simpl; auto using sessions_wf_delete.
Qed.

Lemma login_patient_wf data tok now fs_ok patients (S : gmap string session) :
  is_token tok = true → sessions_wf S →
  sessions_wf (login_patient data tok now fs_ok patients S).1.
Proof.
  intros Htok Hwf. unfold login_patient.
  destruct (field_stripped data "email") as [e|]; simpl; [|done].
  destruct (field_stripped data "password") as [p|]; simpl; [|done].
  destruct (_ || _); simpl; [done|].
  destruct (firestore _ _ _) as [[|[k [|f d]] l]|]; simpl; try done.
  destruct (negb _); simpl; [done|].
  intros t s Ht. apply lookup_insert_Some in Ht as [[<- _]|[_ Ht]]; eauto.
Qed.

Lemma logout_patient_wf header now (S : gmap string session) :
  sessions_wf S → sessions_wf (logout_patient header now S).1.
Proof.
  intros Hwf. unfold logout_patient.
  pose proof (verify_session_wf header now S Hwf) as Hv.
  destruct (verify_session header now S) as [S' [r|e]]; simpl in *; [done|].
  destruct header; auto using sessions_wf_delete.
Qed.

Section HeaderProperties.

Variable py_repr : value -> string.
Variable generate_content : string -> result string.

Lemma handle_query_wf header now data fs_ok idx (S : gmap string session) :
  sessions_wf S →
  sessions_wf (handle_query py_repr generate_content header now data fs_ok idx S).1.
Proof.
  intros Hwf. unfold handle_query.
  pose proof (verify_session_wf header now S Hwf) as Hv.
  by destruct (verify_session header now S) as [S' [r|e]].
Qed.

(** C10 -- The Authorization header is the session key, verbatim.  For a
    token [t] of a live session, a request whose header is exactly [t]
    passes verification (bound to the session's email; [/query] does not
    answer 401 and [/logout] answers 200), and a request whose header is
    ["Bearer "] followed by [t] is answered 401. *)
Theorem C10_header_verbatim t now qdata fs_ok idx (S : gmap string session) s :
  sessions_wf S → S !! t = Some s → (now ≤ session_expires s)%Z →
  verify_session (Some t) now S = (S, Accepted (session_email s))
  ∧ status_of (handle_query py_repr generate_content (Some t) now qdata fs_ok idx S).2 ≠ 401%Z
  ∧ status_of (logout_patient (Some t) now S).2 = 200%Z
  ∧ verify_session (Some ("Bearer " +:+ t)) now S
    = (S, Rejected (Json 401 [("error", VStr "Unauthorized. Please log in.")]))
  ∧ status_of (handle_query py_repr generate_content (Some ("Bearer " +:+ t)) now
                 qdata fs_ok idx S).2 = 401%Z
  ∧ status_of (logout_patient (Some ("Bearer " +:+ t)) now S).2 = 401%Z.
Proof.
  intros Hwf Ht Hlive.
  assert (t ≠ "") as Hne by (eapply is_token_nonempty, Hwf, Ht).
  pose proof (verify_session_valid t now S s Ht Hne Hlive) as Hv.
  assert (S !! ("Bearer " +:+ t) = None) as Hbearer.
  { destruct (S !! ("Bearer " +:+ t)) as [s'|] eqn:E; [|done].
    apply Hwf in E. by rewrite is_token_bearer in E. }
  pose proof (verify_session_unknown (Some ("Bearer " +:+ t)) now S
                (or_intror (ex_intro _ _ (conj eq_refl Hbearer)))) as Hb.
  repeat split.
  - exact Hv.
  - by apply handle_query_accepted with (e := session_email s).
  - unfold logout_patient. by rewrite Hv.
  - exact Hb.
  - by rewrite (handle_query_rejected _ _ _ _ _ _ _ _ _ _ Hb).
  - by rewrite (logout_patient_rejected _ _ _ _ _ Hb).
Qed.

End HeaderProperties.

(** The example of C10: Ann's token, with and without the prefix. *)
Lemma C10_header_verbatim_witness :
  verify_session (Some Fixture.ann_token) 1 Fixture.ann_logged_in
  = (Fixture.ann_logged_in, Accepted "ann@example.org")
  ∧ status_of (logout_patient (Some ("Bearer " +:+ Fixture.ann_token)) 1
                 Fixture.ann_logged_in).2 = 401%Z.
Proof.
  destruct (C10_header_verbatim Fixture.no_repr Fixture.model_down Fixture.ann_token 1
              (Fixture.asking "query" "hello") Fixture.up ∅ Fixture.ann_logged_in
              {| session_email := "ann@example.org"; session_patient_name := VStr "";
                 session_expires := 0 + eight_hours |})
    as (H1 & _ & _ & _ & _ & H2).
  - apply login_patient_wf; [reflexivity | apply sessions_wf_empty].
  - vm_compute. reflexivity.
  - vm_compute. discriminate.
  - exact (conj H1 H2).
Defined.

(** ** The ingestion pipeline *)

Lemma fold_delete_lookup (blobs : list (string * string)) (b : gmap string string) name :
  name ∈ blobs.*1 →
  List.fold_left (fun b blob => delete (fst blob) b) blobs b !! name = None.
Proof.
  revert b. induction blobs as [|[n c] blobs IH]; intros b Hin; simpl.
  - by apply elem_of_nil in Hin.
  - destruct (decide (name ∈ blobs.*1)) as [Hin'|Hnot]; [by apply IH|].
    apply elem_of_cons in Hin as [->|Hin]; [|done].
    clear IH Hnot. revert b. induction blobs as [|[n' c'] blobs IH]; intros b; simpl.
    + apply lookup_delete_eq.
    + destruct (decide (n' = n)) as [->|Hne].
      * rewrite delete_delete_eq. apply IH.
      * rewrite delete_delete. apply IH.
Qed.

Lemma json_dumps_fallback : json_dumps fallback_analysis = Ok fallback_json.
Proof. vm_compute. reflexivity. Qed.

Section IngestionProperties.

Variable json_loads : string -> result value.
Variable generate_content : string -> result string.

(** C9 -- Non-PDF no-op.  When the object name does not end, whatever the
    case of its letters, in [.pdf], the entry point returns normally having
    made no call at all (no OCR, storage, model or Firestore call, no blob
    deletion) and leaves the databases and the bucket as they were. *)
Theorem C9_non_pdf_noop bucket_name file_name ocr patient_id fs_ok w :
  is_pdf file_name = false →
  process_consent_pdf json_loads generate_content bucket_name file_name ocr
    patient_id fs_ok w
  = (Ok tt, w, []).
Proof. intros H. unfold process_consent_pdf. by rewrite H. Qed.

(** A PDF name does start the pipeline: the first call is the OCR request. *)
Lemma pdf_starts_ocr bucket_name file_name ocr patient_id fs_ok w :
  is_pdf file_name = true →
  ∃ rest,
    (process_consent_pdf json_loads generate_content bucket_name file_name ocr
       patient_id fs_ok w).2
    = VisionOcr ("gs://" +:+ bucket_name +:+ "/" +:+ file_name)
        ("gs://" +:+ bucket_name +:+ "/" +:+ file_name +:+ "-ocr-output/") :: rest.
Proof.
  intros H. unfold process_consent_pdf. rewrite H. simpl.
  destruct ocr as [written|e]; [|by eexists].
  destruct (read_blobs _ _ _) as [[full_text|e] downloads]; [|by eexists].
  destruct (analyse _ _) as [cleaned|e]; [|by eexists].
  destruct (firestore _ _ _) as [consents|e]; [|by eexists].
  destruct (_store_enhanced_analysis _ _ _ _ _ _) as [idx stored].
  destruct (provision_account _ _ _ _ _) as [patients provisioned].
  by eexists.
Qed.

(** C3 -- Model-failure fallback.  Whatever text steps 1 and 2 extracted,
    when the model call raises, the analysis becomes exactly the text of
    the fixed fallback object; provided the write of the ConsentRecord
    succeeds, the invocation then completes: the record holds the fallback
    text, and the run ends by deleting every OCR result blob, whatever
    happens to the entity index and the account. *)
Theorem C3_model_failure_fallback bucket_name file_name written patient_id fs_ok w
    full_text downloads e :
  is_pdf file_name = true →
  read_blobs json_loads "" (ocr_blobs file_name (list_to_map written ∪ w_bucket w))
  = (Ok full_text, downloads) →
  generate_content (analysis_prompt full_text) = Raise e →
  fs_ok "consents" = true →
  json_dumps fallback_analysis = Ok fallback_json
  ∧ analyse generate_content full_text = Ok fallback_json
  ∧ ∃ w' before,
      process_consent_pdf json_loads generate_content bucket_name file_name
        (Ok written) patient_id fs_ok w
      = (Ok tt, w',
         before ++ List.map (fun blob => BlobDelete (fst blob))
                     (ocr_blobs file_name (list_to_map written ∪ w_bucket w)))
      ∧ w_consents w' !! doc_id_of file_name
        = Some [ ("filename", VStr file_name);
                 ("ai_analysis_json", VStr fallback_json);
                 ("full_text", VStr full_text);
                 ("processed_timestamp", VTimestamp) ]
      ∧ ∀ name,
          name ∈ (ocr_blobs file_name (list_to_map written ∪ w_bucket w)).*1 →
          w_bucket w' !! name = None.
Proof.
  intros Hpdf Hread Hmodel Hfs.
  assert (analyse generate_content full_text = Ok fallback_json) as Han.
  { unfold analyse. rewrite Hmodel. apply json_dumps_fallback. }
  split; [apply json_dumps_fallback|]. split; [exact Han|].
  unfold process_consent_pdf. rewrite Hpdf. cbn [negb]. rewrite Hread, Han.
  unfold firestore at 1. rewrite Hfs.
  destruct (_store_enhanced_analysis _ _ _ _ _ _) as [idx stored].
  destruct (provision_account _ _ _ _ _) as [patients provisioned].
  eexists _, _. split; [|split].
  - rewrite !app_assoc. reflexivity.
  - simpl. apply lookup_insert_eq.
  - intros name Hin. simpl. by apply fold_delete_lookup.
Qed.

End IngestionProperties.

(** The example of C9: a text file lands in the bucket. *)
Lemma C9_non_pdf_noop_witness :
  process_consent_pdf Fixture.scan_loads Fixture.model_down "consent-bucket" "notes.txt"
    (Ok []) "n3wPat1ent" Fixture.up Fixture.empty_world
  = (Ok tt, Fixture.empty_world, []).
Proof. apply C9_non_pdf_noop. vm_compute. reflexivity. Defined.

(** The example of C3: the model is down, Firestore takes the ConsentRecord
    and refuses everything else. *)
Lemma C3_model_failure_fallback_witness :
  ∃ w' before,
    process_consent_pdf Fixture.scan_loads Fixture.model_down "consent-bucket" "form.pdf"
      (Ok Fixture.scan_blobs) "n3wPat1ent" Fixture.only_consents Fixture.empty_world
    = (Ok tt, w',
       before ++ List.map (fun blob => BlobDelete (fst blob))
                   (ocr_blobs "form.pdf"
                      (list_to_map Fixture.scan_blobs ∪ w_bucket Fixture.empty_world)))
    ∧ w_consents w' !! doc_id_of "form.pdf"
      = Some [ ("filename", VStr "form.pdf");
               ("ai_analysis_json", VStr fallback_json);
               ("full_text", VStr "I consent to surgery.");
               ("processed_timestamp", VTimestamp) ]
    ∧ ∀ name,
        name ∈ (ocr_blobs "form.pdf"
                  (list_to_map Fixture.scan_blobs ∪ w_bucket Fixture.empty_world)).*1 →
        w_bucket w' !! name = None.
Proof.
  refine (proj2 (proj2
    (C3_model_failure_fallback Fixture.scan_loads Fixture.model_down "consent-bucket"
       "form.pdf" Fixture.scan_blobs "n3wPat1ent" Fixture.only_consents
       Fixture.empty_world "I consent to surgery."
       [BlobDownload "form.pdf-ocr-output/output-1-to-1.json"]
       (ServiceError "vertexai") _ _ _ _))); vm_compute; reflexivity.
Defined.

(** C8 -- Document identifier.  The identifier is the object name with
    every occurrence of the lower-case text [.pdf] removed.  An upload named
    [Scan.PDF] passes the PDF check, and both its ConsentRecord and its
    EntityIndexEntry are stored under [Scan.PDF], extension included; the
    names [a.pdf] and [a.pdf.pdf] share the identifier [a]. *)
Theorem C8_extension_not_stripped :
  is_pdf "Scan.PDF" = true
  ∧ doc_id_of "Scan.PDF" = "Scan.PDF"
  ∧ (let w' := (process_consent_pdf Fixture.scan_loads Fixture.model_down
                  "consent-bucket" "Scan.PDF" (Ok Fixture.upper_blobs) "n3wPat1ent"
                  Fixture.up Fixture.empty_world).1.2 in
     dom (w_consents w') = {["Scan.PDF"]} ∧ dom (w_entity_index w') = {["Scan.PDF"]})
  ∧ doc_id_of "scan.pdf" = "scan"
  ∧ doc_id_of "a.pdf.pdf" = doc_id_of "a.pdf".
Proof. vm_compute. repeat split; reflexivity. Qed.

(** ** The entity index entry *)

Lemma dict_set_fresh (d : dict) k v : k ∉ d.*1 → dict_set d k v = d ++ [(k, v)].
Proof.
  induction d as [|[k' v'] d IH]; intros Hk; simpl; [done|].
  apply not_elem_of_cons in Hk as [Hne Hk].
  destruct (String.eqb k' k) eqn:E.
  - apply String.eqb_eq in E. by subst.
  - by rewrite IH.
Qed.

Lemma indexed_str k s :
  indexed (k, VStr s) = true ↔ s ≠ "" ∧ s ≠ "N/A".
Proof.
  unfold indexed. simpl. rewrite andb_true_iff, !negb_true_iff.
  by rewrite !String.eqb_neq.
Qed.

Lemma filter_keys_subseteq (f : string * value → bool) (d : dict) k :
  k ∈ (List.filter f d).*1 → k ∈ d.*1.
Proof.
  intros Hin. apply list_elem_of_fmap in Hin as ([k' v] & -> & Hin).
  apply elem_of_filter_bool in Hin as [Hin _].
  apply list_elem_of_fmap. by exists (k', v).
Qed.

(** In a dict (no key twice) the kept fields are found under their keys,
    the others are not. *)
Lemma dict_lookup_filter (f : string * value → bool) (d : dict) k :
  NoDup d.*1 →
  dict_lookup (List.filter f d) k
  = match dict_lookup d k with
    | Some v => if f (k, v) then Some v else None
    | None => None
    end.
Proof.
  induction d as [|[k' v'] d IH]; intros Hnd; simpl; [done|].
  apply NoDup_cons in Hnd as [Hk' Hnd].
  destruct (String.eqb k' k) eqn:E.
  - apply String.eqb_eq in E as ->.
    destruct (f (k, v')) eqn:Ef; simpl; [by rewrite String.eqb_refl|].
    destruct (dict_lookup (List.filter f d) k) as [v|] eqn:El; [|done].
    exfalso. apply Hk'. apply (filter_keys_subseteq f).
    clear -El. induction (List.filter f d) as [|[k0 v0] l IH]; simpl in *; [done|].
    destruct (String.eqb k0 k) eqn:E0.
    + apply String.eqb_eq in E0 as ->. left.
    + right. by apply IH.
  - destruct (f (k', v')); simpl; [rewrite E|]; by apply IH.
Qed.

Lemma index_entities_str k s (rest entity_data : dict) (search_terms : list value) :
  index_entities ((k, VStr s) :: rest) entity_data search_terms
  = if indexed (k, VStr s)
    then index_entities rest (dict_set entity_data k (VStr s))
           (search_terms ++ [VStr (k +:+ ":" +:+ s); VStr (Py.lower s)])
    else index_entities rest entity_data search_terms.
Proof. reflexivity. Qed.

Lemma index_entities_spec (items entity_data : dict) (search_terms : list value) :
  str_valued items → NoDup items.*1 →
  (∀ k, k ∈ items.*1 → k ∉ entity_data.*1) →
  index_entities items entity_data search_terms
  = Ok (entity_data ++ List.filter indexed items,
        search_terms ++ List.flat_map search_terms_of (List.filter indexed items)).
Proof.
  revert entity_data search_terms.
  induction items as [|[k v] items IH]; intros acc terms Hstr Hnd Hfresh.
  - simpl. by rewrite !app_nil_r.
  - apply Forall_cons in Hstr as [[s Hs] Hstr]. simpl in Hs. subst v.
    apply NoDup_cons in Hnd as [Hk Hnd].
    rewrite index_entities_str. simpl List.filter.
    destruct (indexed (k, VStr s)) eqn:Ei.
    + rewrite IH; [|done..|].
      * rewrite dict_set_fresh by (apply Hfresh; left).
        simpl. by rewrite <- !app_assoc.
      * intros k' Hk'. rewrite dict_set_fresh by (apply Hfresh; left).
        rewrite fmap_app. simpl. intros Hin.
        apply elem_of_app in Hin as [Hin|Hin].
        -- eapply Hfresh; [right; exact Hk'|done].
        -- apply list_elem_of_singleton in Hin as ->. done.
    + apply IH; [done..|]. intros k' Hk'. apply Hfresh. by right.
Qed.

Lemma str_valued_lookup (d : dict) k v :
  str_valued d → dict_lookup d k = Some v → ∃ s, v = VStr s.
Proof.
  intros Hstr. induction Hstr as [|[k' v'] d [s Hs] _ IH]; simpl; [done|].
  destruct (String.eqb k' k); [|done]. intros [= <-]. by exists s.
Qed.

Section EntityIndexProperties.

Variable json_loads : string -> result value.

(** The entry built from an analysis whose entities are all strings. *)
Lemma entity_entry_spec document_id analysis_json (analysis entities : dict) :
  json_loads analysis_json = Ok (VDict analysis) →
  dict_get analysis "entities" (VDict []) = VDict entities →
  str_valued entities → NoDup entities.*1 →
  entity_entry json_loads document_id analysis_json
  = Ok [ ("document_id", VStr document_id);
         ("entities", VDict (List.filter indexed entities));
         ("search_terms",
           VList (List.flat_map search_terms_of (List.filter indexed entities)));
         ("patient_name", dict_get entities "patient_name" (VStr "N/A"));
         ("patient_id", dict_get analysis "patient_id" (VStr "unknown"));
         ("patient_email", VStr (stored_email_of entities));
         ("consented_items", dict_get analysis "consented_items" (VList []));
         ("declined_items", dict_get analysis "declined_items" (VList []));
         ("summary", dict_get analysis "summary" (VStr ""));
         ("processed_timestamp", VTimestamp) ].
Proof.
  intros Hloads Hents Hstr Hnd. unfold entity_entry.
  rewrite Hloads. simpl. rewrite Hents. simpl.
  rewrite index_entities_spec; [|done..|intros ? ? Hin; by apply elem_of_nil in Hin].
  simpl.
  assert ((if is_str (dict_get entities "patient_email" (VStr "N/A")) "N/A"
           then Ok "N/A"
           else py_lower (dict_get entities "patient_email" (VStr "N/A")))
          = Ok (stored_email_of entities)) as ->; [|done].
  unfold stored_email_of, dict_get.
  destruct (dict_lookup entities "patient_email") as [v|] eqn:E; [|done].
  destruct (str_valued_lookup _ _ _ Hstr E) as [s ->]. simpl.
  by destruct (String.eqb s "N/A").
Qed.


(** An entity value that is no string and is not false makes the whole
    entry fail: nothing is written. *)
Lemma entity_not_str_stores_nothing document_id analysis_json full_text fs_ok
    (entity_index : collection) (analysis : dict) k z rest :
  json_loads analysis_json = Ok (VDict analysis) →
  dict_get analysis "entities" (VDict []) = VDict ((k, VInt z) :: rest) →
  z ≠ 0%Z →
  _store_enhanced_analysis json_loads document_id analysis_json full_text fs_ok
    entity_index
  = (entity_index, []).
Proof.
  intros Hloads Hents Hz. unfold _store_enhanced_analysis, entity_entry.
  rewrite Hloads. simpl. rewrite Hents. simpl.
  destruct (Z.eqb_spec z 0); [done|]. reflexivity.
Qed.

End EntityIndexProperties.


(** ** Patient accounts *)

Lemma is_str_inj v s1 s2 : is_str v s1 = true → is_str v s2 = true → s1 = s2.
Proof.
  destruct v; simpl; try done.
  intros H1%String.eqb_eq H2%String.eqb_eq. congruence.
Qed.

Lemma unique_email_empty : unique_email ∅.
Proof. intros e k1 d1 k2 d2 H. by rewrite lookup_empty in H. Qed.

(** Writing a document with email [e] under [k] keeps emails unique when
    no other document has that email. *)
Lemma unique_email_insert (patients : collection) k d e :
  unique_email patients → has_email e d = true →
  (∀ k' d', k' ≠ k → patients !! k' = Some d' → has_email e d' = false) →
  unique_email (<[k := d]> patients).
Proof.
  intros Huniq He Hothers e0 k1 d1 k2 d2 H1 H2 He1 He2.
  apply lookup_insert_Some in H1 as [[<- <-]|[Hne1 H1]];
    apply lookup_insert_Some in H2 as [[<- <-]|[Hne2 H2]]; try done.
  - assert (e0 = e) as -> by (eapply is_str_inj; [exact He1|exact He]).
    rewrite (Hothers k2 d2) in He2; done.
  - assert (e0 = e) as -> by (eapply is_str_inj; [exact He2|exact He]).
    rewrite (Hothers k1 d1) in He1; done.
  - eauto.
Qed.

Lemma where_eq_email_cons e (patients : collection) k d l k' d' :
  where_eq "email" e patients = (k, d) :: l →
  unique_email patients → patients !! k' = Some d' → has_email e d' = true → k' = k.
Proof.
  intros Hw Huniq Hk' He'.
  assert ((k, d) ∈ where_eq "email" e patients) as Hin by (rewrite Hw; left).
  apply elem_of_where_eq in Hin as [Hk He]. eapply Huniq; eauto.
Qed.

Lemma register_patient_unique data patient_id fs_ok (patients : collection) :
  unique_email patients → unique_email (register_patient data patient_id fs_ok patients).1.
Proof.
  intros Huniq. unfold register_patient.
  destruct (field_stripped data "email") as [e|]; simpl; [|done].
  destruct (field_stripped data "password") as [p|]; simpl; [|done].
  destruct (field_stripped data "patient_name") as [n|]; simpl; [|done].
  destruct (field_stripped data "date_of_birth") as [b|]; simpl; [|done].
  destruct (_ || _); simpl; [done|].
  unfold firestore. destruct (fs_ok "patients"); simpl; [|done].
  destruct (where_eq "email" (Py.lower e) patients) as [|x l] eqn:Hw; simpl; [|done].
  apply unique_email_insert with (e := Py.lower e); [done| |].
  - unfold has_email. simpl. apply String.eqb_refl.
  - intros k' d' _ Hk'. by apply (proj1 (where_eq_nil _ _ _) Hw k' d').
Qed.

Lemma create_patient_account_unique e name patient_id fs_ok (patients : collection) :
  unique_email patients →
  unique_email (_create_patient_account e name patient_id fs_ok patients).1.2.
Proof.
  intros Huniq. unfold _create_patient_account.
  destruct (default_password_of name) as [pw|]; [|done].
  unfold firestore. destruct (fs_ok "patients"); [|done].
  destruct (where_eq "email" e patients) as [|[k d] l] eqn:Hw; simpl.
  - apply unique_email_insert with (e := e); [done| |].
    + unfold has_email. simpl. apply String.eqb_refl.
    + intros k' d' _ Hk'. by apply (proj1 (where_eq_nil _ _ _) Hw k' d').
  - apply unique_email_insert with (e := e); [done| |].
    + unfold has_email, dict_get, dict_update.
      destruct (negb _); simpl;
        repeat (rewrite dict_lookup_set_ne by done);
        by rewrite dict_lookup_set_eq; simpl; rewrite String.eqb_refl.
    + intros k' d' Hne Hk'. destruct (has_email e d') eqn:He'; [|done].
      destruct Hne. eapply where_eq_email_cons; eauto.
Qed.

(** [/login] once the account is found: the stored hash decides. *)
Lemma login_patient_found ldata tok now fs_ok (patients : collection)
    (S : gmap string session) se sp k d l :
  sends ldata "email" se → sends ldata "password" sp →
  Py.lower se ≠ "" → sp ≠ "" → fs_ok "patients" = true →
  where_eq "email" (Py.lower se) patients = (k, d) :: l →
  login_patient ldata tok now fs_ok patients S
  = if is_str (dict_get d "password_hash" VNone) (hash_password sp)
    then (<[tok := {| session_email := Py.lower se;
                      session_patient_name := dict_get d "patient_name" (VStr "N/A");
                      session_expires := now + eight_hours |}]> S,
          Json 200
            [ ("message", VStr "Login successful");
              ("session_token", VStr tok);
              ("patient_name", dict_get d "patient_name" (VStr "N/A"));
              ("email", VStr (Py.lower se)) ])
    else (S, Json 401 [("error", VStr "Invalid email or password")]).
Proof.
  unfold sends. intros He Hp Hne Hpne Hfs Hw. unfold login_patient.
  rewrite He, Hp. simpl.
  apply String.eqb_neq in Hne as ->. apply String.eqb_neq in Hpne as ->. simpl.
  unfold firestore. rewrite Hfs, Hw. simpl.
  destruct d as [|f d]; [done|].
  by destruct (is_str _ _).
Qed.

(** C2 -- Credential preservation.  Let an account with email [e] hold a
    non-empty [password_hash] [h].  Running [_create_patient_account] for
    [e] leaves that account with the hash [h] (whatever the name on the
    form, the new identifier and the state of Firestore), changes no
    credential that was set, keeps emails unique, and a login with that
    email and a password whose hash is [h] succeeds afterwards. *)
Theorem C2_credential_preserved e name patient_id fs_ok (patients : collection) k d h :
  unique_email patients →
  patients !! k = Some d → has_email e d = true →
  dict_get d "password_hash" VNone = VStr h → h ≠ "" →
  let patients' := (_create_patient_account e name patient_id fs_ok patients).1.2 in
  (∃ d', patients' !! k = Some d' ∧ has_email e d' = true
         ∧ dict_get d' "password_hash" VNone = VStr h)
  ∧ (∀ k0 d0 d0', patients !! k0 = Some d0 → patients' !! k0 = Some d0' →
       truthy (dict_get d0 "password_hash" VNone) = true →
       dict_get d0' "password_hash" VNone = dict_get d0 "password_hash" VNone)
  ∧ unique_email patients'
  ∧ (∀ ldata tok now fs_ok' (S : gmap string session) se sp,
       sends ldata "email" se → Py.lower se = e → e ≠ "" →
       sends ldata "password" sp → sp ≠ "" → hash_password sp = h →
       fs_ok' "patients" = true →
       let r := login_patient ldata tok now fs_ok' patients' S in
       status_of r.2 = 200%Z ∧ dict_lookup (body_of r.2) "session_token" = Some (VStr tok)).
Proof.
  intros Huniq Hk He Hh Hne patients'.
  assert (where_eq "email" e patients = [(k, d)]) as Hw.
  { apply where_eq_singleton; [done..|]. intros k' d' Hk' He'. eapply Huniq; eauto. }
  assert (truthy (VStr h) = true) as Htruthy.
  { simpl. by apply String.eqb_neq in Hne as ->. }
  (* the account after the run *)
  assert (∃ d', patients' !! k = Some d' ∧ has_email e d' = true
                ∧ dict_get d' "password_hash" VNone = VStr h
                ∧ (patients' = patients ∨ patients' = <[k := d']> patients)) as
    (d' & Hk' & He' & Hh' & Hshape).
  { subst patients'. unfold _create_patient_account.
    destruct (default_password_of name) as [pw|]; [|exists d; auto].
    unfold firestore. destruct (fs_ok "patients"); [|exists d; auto].
    rewrite Hw. change (take 1 [(k, d)]) with [(k, d)]. cbv beta iota zeta.
    rewrite Hh, Htruthy. simpl.
    eexists. split; [apply lookup_insert_eq|]. split; [|split; [|by right]].
    - unfold has_email, dict_get.
      rewrite dict_lookup_set_ne by done.
      by rewrite dict_lookup_set_eq; simpl; rewrite String.eqb_refl.
    - unfold dict_get in *. by rewrite !dict_lookup_set_ne. }
  split; [by exists d'|]. split; [|split].
  - intros k0 d0 d0' Hk0 Hk0' _.
    destruct Hshape as [Heq|Heq]; rewrite Heq in Hk0'; [congruence|].
    apply lookup_insert_Some in Hk0' as [[<- <-]|[_ Hk0']]; congruence.
  - apply create_patient_account_unique, Huniq.
  - intros ldata tok now fs_ok' S se sp Hse Hlow Hene Hsp Hspne Hhash Hfs r.
    assert (where_eq "email" (Py.lower se) patients' = [(k, d')]) as Hw'.
    { rewrite Hlow. apply where_eq_singleton; [done..|].
      intros k2 d2 Hk2 He2.
      eapply (create_patient_account_unique e name patient_id fs_ok patients Huniq);
        eauto. }
    subst r.
    rewrite (login_patient_found ldata tok now fs_ok' patients' S se sp k d' []
               Hse Hsp); [|by rewrite Hlow|done..].
    rewrite Hh'. unfold is_str. rewrite Hhash, String.eqb_refl. done.
Qed.

(** The example of C2, as the specification words it: register with the
    password [secret1], ingest a form bearing the same email, log in. *)
Lemma C2_credential_preserved_witness :
  let patients' :=
    (_create_patient_account "ann@example.org" (VStr "Ann Lee") "n3wPat1ent" Fixture.up
       Fixture.ann_registered).1.2 in
  status_of (login_patient Fixture.ann Fixture.ann_token 5 Fixture.up patients' ∅).2 = 200%Z
  ∧ unique_email patients'.
Proof.
  destruct (C2_credential_preserved "ann@example.org" (VStr "Ann Lee") "n3wPat1ent"
              Fixture.up Fixture.ann_registered "0b8f6c1e-ann"
              [ ("email", VStr "ann@example.org");
                ("password_hash", VStr (hash_password "secret1"));
                ("patient_name", VStr "");
                ("date_of_birth", VStr "");
                ("created_at", VTimestamp) ]
              (hash_password "secret1"))
    as (_ & _ & Huniq & Hlogin).
  - apply register_patient_unique, unique_email_empty.
  - vm_compute. reflexivity.
  - vm_compute. reflexivity.
  - reflexivity.
  - vm_compute. discriminate.
  - split; [|exact Huniq].
    apply (Hlogin Fixture.ann Fixture.ann_token 5%Z Fixture.up ∅ "Ann@Example.org" "secret1");
      try (vm_compute; reflexivity); vm_compute; discriminate.
Defined.

Lemma lower_empty s : Py.lower s = "" ↔ s = "".
Proof. destruct s; [done|]. split; intros H; discriminate H. Qed.

(** [/register] on a body with its four fields, Firestore answering. *)
Lemma register_patient_eq rdata patient_id fs_ok (patients : collection) e p name dob :
  sends rdata "email" e → sends rdata "password" p →
  sends rdata "patient_name" name → sends rdata "date_of_birth" dob →
  fs_ok "patients" = true →
  register_patient rdata patient_id fs_ok patients
  = if String.eqb (Py.lower e) "" || String.eqb p ""
    then (patients, Json 400 [("error", VStr "Email and password are required")])
    else
      match where_eq "email" (Py.lower e) patients with
      | _ :: _ => (patients, Json 409 [("error", VStr "Patient already registered")])
      | [] =>
          (<[patient_id :=
               [ ("email", VStr (Py.lower e));
                 ("password_hash", VStr (hash_password p));
                 ("patient_name", VStr name);
                 ("date_of_birth", VStr dob);
                 ("created_at", VTimestamp) ]]> patients,
           Json 200 [ ("message", VStr "Registration successful");
                      ("email", VStr (Py.lower e)) ])
      end.
Proof.
  unfold sends. intros He Hp Hn Hb Hfs. unfold register_patient.
  rewrite He, Hp, Hn, Hb. simpl.
  destruct (_ || _); [done|]. simpl.
  unfold firestore. rewrite Hfs. simpl.
  by destruct (where_eq "email" (Py.lower e) patients) as [|[k d] [|x l]].
Qed.




(** ** Entity resolution for [/ask] *)

Lemma elem_of_where_range field lo hi (c : collection) k d :
  (k, d) ∈ where_range field lo hi c ↔ c !! k = Some d ∧ in_range field lo hi (k, d) = true.
Proof.
  unfold where_range.
  by rewrite merge_sort_Permutation, elem_of_filter_bool, elem_of_map_to_list.
Qed.

Lemma where_range_nil field lo hi (c : collection) :
  where_range field lo hi c = [] ↔
  ∀ k d, c !! k = Some d → in_range field lo hi (k, d) = false.
Proof.
  split.
  - intros Hnil k d Hk. destruct (in_range field lo hi (k, d)) eqn:E; [|done].
    assert ((k, d) ∈ where_range field lo hi c) as Hin by (by apply elem_of_where_range).
    rewrite Hnil in Hin. by apply elem_of_nil in Hin.
  - intros Hnone. destruct (where_range field lo hi c) as [|[k d] l] eqn:E; [done|].
    assert ((k, d) ∈ where_range field lo hi c) as Hin by (rewrite E; left).
    apply elem_of_where_range in Hin as [Hk Hf]. rewrite (Hnone _ _ Hk) in Hf. done.
Qed.

(** First match wins: the group comes from the first pattern, in the order
    of the list, that matches anywhere in the text. *)
Lemma first_match_spec (patterns : list Re.regex) s g :
  first_match patterns s = Some g ↔
  ∃ i pattern,
    patterns !! i = Some pattern ∧ Re.search pattern s = Some g
    ∧ ∀ j earlier, j < i → patterns !! j = Some earlier → Re.search earlier s = None.
Proof.
  induction patterns as [|p ps IH]; simpl.
  - split; [done|]. by intros (i & pattern & Hi & _).
  - destruct (Re.search p s) as [g'|] eqn:E.
    + split.
      * intros [= ->]. exists 0, p. split; [done|]. split; [done|]. intros; lia.
      * intros ([|i] & pattern & Hi & Hs & Hbefore); simpl in Hi.
        -- congruence.
        -- specialize (Hbefore 0 p ltac:(lia) eq_refl). congruence.
    + rewrite IH. split.
      * intros (i & pattern & Hi & Hs & Hbefore). exists (S i), pattern.
        split; [done|]. split; [done|]. intros [|j] earlier Hj Hl; simpl in Hl.
        -- congruence.
        -- apply (Hbefore j); [lia|done].
      * intros ([|i] & pattern & Hi & Hs & Hbefore); simpl in Hi.
        -- congruence.
        -- exists i, pattern. split; [done|]. split; [done|].
           intros j earlier Hj Hl. apply (Hbefore (S j)); [lia|done].
Qed.

Lemma first_match_none (patterns : list Re.regex) s :
  first_match patterns s = None ↔
  ∀ pattern, pattern ∈ patterns → Re.search pattern s = None.
Proof.
  induction patterns as [|p ps IH]; simpl.
  - split; [|done]. intros _ ? Hin. by apply elem_of_nil in Hin.
  - destruct (Re.search p s) as [g'|] eqn:E.
    + split; [done|]. intros H. specialize (H p ltac:(left)). congruence.
    + rewrite IH. split.
      * intros H pattern Hin. apply elem_of_cons in Hin as [->|Hin]; auto.
      * intros H pattern Hin. apply H. by right.
Qed.

(** The three strategies of [_resolve_document_from_entity], in order of
    priority. *)
Lemma resolve_document_priority entity fs_ok (idx : collection) :
  fs_ok "entity_index" = true →
  let r := _resolve_document_from_entity entity fs_ok idx in
  let named kd := is_str (dict_get (snd kd) "patient_name" VNone) entity in
  let termed kd := array_has (dict_get (snd kd) "search_terms" VNone) (Py.lower entity) in
  let prefixed := in_range "patient_name" entity (entity +:+ uf8ff) in
  ((∃ k d, idx !! k = Some d ∧ named (k, d) = true) →
   ∃ k d, r = Some d ∧ idx !! k = Some d ∧ named (k, d) = true
          ∧ ∀ k' d', idx !! k' = Some d' → named (k', d') = true → String.le k k')
  ∧ ((∀ k d, idx !! k = Some d → named (k, d) = false) →
     (∃ k d, idx !! k = Some d ∧ termed (k, d) = true) →
     ∃ k d, r = Some d ∧ idx !! k = Some d ∧ termed (k, d) = true
            ∧ ∀ k' d', idx !! k' = Some d' → termed (k', d') = true → String.le k k')
  ∧ ((∀ k d, idx !! k = Some d → named (k, d) = false) →
     (∀ k d, idx !! k = Some d → termed (k, d) = false) →
     (∃ k d, idx !! k = Some d ∧ prefixed (k, d) = true) →
     ∃ k d, r = Some d ∧ idx !! k = Some d ∧ prefixed (k, d) = true)
  ∧ ((∀ k d, idx !! k = Some d → named (k, d) = false) →
     (∀ k d, idx !! k = Some d → termed (k, d) = false) →
     (∀ k d, idx !! k = Some d → prefixed (k, d) = false) →
     r = None).
Proof.
  intros Hfs r named termed prefixed.
  assert (r = match List.filter named (stream idx) with
              | doc :: _ => Some (snd doc)
              | [] =>
                  match List.filter termed (stream idx) with
                  | doc :: _ => Some (snd doc)
                  | [] =>
                      match where_range "patient_name" entity (entity +:+ uf8ff) idx with
                      | doc :: _ => Some (snd doc)
                      | [] => None
                      end
                  end
              end) as Hr.
  { subst r. unfold _resolve_document_from_entity, firestore. rewrite Hfs. simpl.
    fold (where_eq "patient_name" entity idx).
    unfold where_eq, where_array_contains.
    fold named. fold termed.
    destruct (List.filter named (stream idx)) as [|x l]; [|done]. simpl.
    destruct (List.filter termed (stream idx)) as [|x l]; [|done]. simpl.
    by destruct (where_range _ _ _ _). }
  split; [|split; [|split]].
  - intros (k & d & Hk & Hn).
    destruct (List.filter named (stream idx)) as [|[k0 d0] l] eqn:E.
    + rewrite (proj1 (filter_stream_nil _ _) E k d Hk) in Hn. done.
    + apply filter_stream_head in E as (Hk0 & Hn0 & Hmin). by exists k0, d0.
  - intros Hnone (k & d & Hk & Ht).
    apply filter_stream_nil in Hnone. rewrite Hnone in Hr.
    destruct (List.filter termed (stream idx)) as [|[k0 d0] l] eqn:E.
    + rewrite (proj1 (filter_stream_nil _ _) E k d Hk) in Ht. done.
    + apply filter_stream_head in E as (Hk0 & Ht0 & Hmin). by exists k0, d0.
  - intros Hnone Hnone' (k & d & Hk & Hp).
    apply filter_stream_nil in Hnone, Hnone'. rewrite Hnone, Hnone' in Hr.
    destruct (where_range _ _ _ _) as [|[k0 d0] l] eqn:E.
    + change (in_range "patient_name" entity (entity +:+ uf8ff) (k, d) = true) in Hp.
      rewrite (proj1 (where_range_nil _ _ _ _) E k d Hk) in Hp. done.
    + assert ((k0, d0) ∈ where_range "patient_name" entity (entity +:+ uf8ff) idx)
        as Hin by (rewrite E; left).
      apply elem_of_where_range in Hin as [Hk0 Hp0]. by exists k0, d0.
  - intros Hnone Hnone' Hnone''.
    apply filter_stream_nil in Hnone, Hnone'. apply where_range_nil in Hnone''.
    by rewrite Hnone, Hnone', Hnone'' in Hr.
Qed.

Section AskProperties.

Variable py_repr : value -> string.

(** The Jane example in general form: when Jane's entry is the only one
    whose name or search terms match the extracted token [jane], [/ask]
    answers from it. *)
Lemma ask_jane fs_ok (idx : collection) k d :
  fs_ok "entity_index" = true →
  idx !! k = Some d →
  dict_lookup d "patient_name" = Some (VStr "Jane") →
  dict_lookup d "declined_items" = Some (VList [VStr "blood transfusion"]) →
  array_has (dict_get d "search_terms" VNone) "jane" = true →
  (∀ k' d', idx !! k' = Some d' → k' ≠ k →
     is_str (dict_get d' "patient_name" VNone) "jane" = false
     ∧ array_has (dict_get d' "search_terms" VNone) "jane" = false) →
  ask_question py_repr (VDict [("question", VStr "What did Jane decline?")]) fs_ok idx
  = Json 200
      [ ("answer",
          VStr ("Based on " +:+ py_str py_repr (dict_get d "document_id" (VStr "Unknown"))
                +:+ ", the following items were declined: blood transfusion"));
        ("document_id", dict_get d "document_id" VNone);
        ("entity", VStr "jane") ].
Proof.
  intros Hfs Hk Hname Hdecl Hterm Hothers.
  destruct (resolve_document_priority "jane" fs_ok idx Hfs) as (_ & Hsecond & _).
  destruct Hsecond as (k0 & d0 & Hr & Hk0 & Ht0 & _).
  { intros k' d' Hk'. destruct (decide (k' = k)) as [->|Hne].
    - assert (d' = d) as -> by congruence. simpl. unfold dict_get. by rewrite Hname.
    - by destruct (Hothers k' d' Hk' Hne). }
  { by exists k, d. }
  assert (k0 = k) as ->.
  { destruct (decide (k0 = k)) as [|Hne]; [done|].
    destruct (Hothers k0 d0 Hk0 Hne) as [_ Hno].
    change (array_has (dict_get d0 "search_terms" VNone) "jane" = true) in Ht0.
    congruence. }
  assert (d0 = d) as -> by congruence.
  unfold ask_question.
  change (field_stripped (VDict [("question", VStr "What did Jane decline?")]) "question")
    with (Ok (A:=string) (Py.strip "What did Jane decline?")).
  change (Py.strip "What did Jane decline?") with "What did Jane decline?".
  cbn [mbind result_bind String.eqb Ascii.eqb Bool.eqb].
  assert (_extract_key_entity "What did Jane decline?" = Some "jane") as ->
    by (vm_compute; reflexivity).
  cbn [String.eqb Ascii.eqb Bool.eqb opt_str].
  rewrite Hr.
  destruct d as [|f d]; [done|]. cbv beta iota zeta.
  set (dd := f :: d) in *.
  unfold _generate_contextual_answer.
  change (Py.contains "decline" (Py.lower "What did Jane decline?")) with true.
  cbv beta iota zeta.
  replace (dict_get dd "declined_items" (VList [])) with (VList [VStr "blood transfusion"])
    by (unfold dict_get; by rewrite Hdecl).
  reflexivity.
Qed.


End AskProperties.


(** ** Patient data isolation of [/query] *)

Lemma is_str_true v s : is_str v s = true → v = VStr s.
Proof. destruct v; simpl; try done. by intros ->%String.eqb_eq. Qed.

Lemma search_patient_documents_eq e fs_ok (idx : collection) :
  search_patient_documents e fs_ok idx
  = if fs_ok "entity_index"
    then List.map found_of (List.filter (owned_by e) (stream idx))
    else [].
Proof.
  unfold search_patient_documents, firestore. by destruct (fs_ok "entity_index").
Qed.

(** Every document found for [e] is the projection of an entry whose
    stored [patient_email] is [e]. *)
Lemma search_patient_documents_owned e fs_ok (idx : collection) fd :
  fd ∈ search_patient_documents e fs_ok idx →
  ∃ d, idx !! doc_id fd = Some d
       ∧ dict_get d "patient_email" VNone = VStr e
       ∧ fd = found_of (doc_id fd, d).
Proof.
  rewrite search_patient_documents_eq. destruct (fs_ok "entity_index").
  - intros Hin. apply list_elem_of_fmap in Hin as ([k d] & -> & Hin).
    apply elem_of_filter_bool in Hin as [Hk Ho]. apply elem_of_stream in Hk.
    exists d. split; [done|]. split; [|done]. by apply is_str_true.
  - intros Hin. by apply elem_of_nil in Hin.
Qed.

(** The search depends on the entries of [e] alone. *)
Lemma search_patient_documents_ext e fs_ok (idx idx' : collection) :
  (∀ k d, owned_by e (k, d) = true → (idx !! k = Some d ↔ idx' !! k = Some d)) →
  search_patient_documents e fs_ok idx' = search_patient_documents e fs_ok idx.
Proof.
  intros H. rewrite !search_patient_documents_eq.
  destruct (fs_ok "entity_index"); [|done].
  f_equal. symmetry. by apply filter_stream_ext.
Qed.

Lemma search_patient_documents_none e fs_ok (idx : collection) :
  (∀ k d, idx !! k = Some d → owned_by e (k, d) = false) →
  search_patient_documents e fs_ok idx = [].
Proof.
  intros H. rewrite search_patient_documents_eq.
  destruct (fs_ok "entity_index"); [|done].
  by rewrite (proj2 (filter_stream_nil (owned_by e) idx) H).
Qed.

Section QueryProperties.

Variable py_repr : value -> string.
Variable generate_content : string -> result string.

(** [/query] for a live session and a query that is not empty. *)
Lemma handle_query_eq tok now data fs_ok (idx : collection) (S : gmap string session)
    s query :
  S !! tok = Some s → tok ≠ "" → (now ≤ session_expires s)%Z →
  sends data "query" query → query ≠ "" →
  handle_query py_repr generate_content (Some tok) now data fs_ok idx S
  = (S,
     match search_patient_documents (session_email s) fs_ok idx with
     | [] =>
         Json 200
           [ ("query", VStr query);
             ("answer", VStr "I don't have any consent forms on file for you. Please contact your healthcare provider.");
             ("sources", VList []) ]
     | relevant_docs =>
         match generate_answer py_repr generate_content query relevant_docs with
         | Ok answer =>
             Json 200
               [ ("query", VStr query);
                 ("answer", VStr answer);
                 ("sources", VList (List.map doc_filename relevant_docs)) ]
         | Raise e => ServerError "Internal server error" e
         end
     end).
Proof.
  intros Ht Hne Hlive Hq Hqne. unfold handle_query.
  rewrite (verify_session_valid tok now S s Ht Hne Hlive).
  unfold sends in Hq. rewrite Hq. simpl.
  apply String.eqb_neq in Hqne as ->.
  destruct (search_patient_documents _ _ _) as [|fd l]; [done|].
  by destruct (generate_answer _ _ _ _).
Qed.

(** C1 -- Patient data isolation of [/query].  For a live session bound to
    the email [e] and a query that is not empty: every document the search
    returns, hence every source listed and every document of the answer
    context, is the projection of an entry whose stored [patient_email] is
    exactly [e], and no entry of another patient is among them; the answer
    is computed from the query and those documents alone; the whole response is the same for any two indexes that hold the
    same entries of [e], whatever the entries of other patients; and when
    no entry has [patient_email] equal to [e] the response is the fixed
    message with an empty list of sources. *)
Theorem C1_query_isolation tok now data fs_ok (idx : collection)
    (S : gmap string session) s query :
  S !! tok = Some s → tok ≠ "" → (now ≤ session_expires s)%Z →
  sends data "query" query → query ≠ "" →
  let e := session_email s in
  let docs := search_patient_documents e fs_ok idx in
  let r := (handle_query py_repr generate_content (Some tok) now data fs_ok idx S).2 in
  (∀ fd, fd ∈ docs →
     ∃ d, idx !! doc_id fd = Some d
          ∧ dict_get d "patient_email" VNone = VStr e
          ∧ fd = found_of (doc_id fd, d))
  ∧ (∀ k d, idx !! k = Some d → owned_by e (k, d) = false →
            ∀ fd, fd ∈ docs → doc_id fd ≠ k)
  ∧ (docs ≠ [] →
     match generate_answer py_repr generate_content query docs with
     | Ok answer =>
         r = Json 200 [ ("query", VStr query);
                        ("answer", VStr answer);
                        ("sources", VList (List.map doc_filename docs)) ]
     | Raise _ => status_of r = 500%Z
     end)
  ∧ (∀ idx' : collection,
       (∀ k d, owned_by e (k, d) = true → (idx !! k = Some d ↔ idx' !! k = Some d)) →
       handle_query py_repr generate_content (Some tok) now data fs_ok idx' S
       = handle_query py_repr generate_content (Some tok) now data fs_ok idx S)
  ∧ ((∀ k d, idx !! k = Some d → owned_by e (k, d) = false) →
     r = Json 200
           [ ("query", VStr query);
             ("answer", VStr "I don't have any consent forms on file for you. Please contact your healthcare provider.");
             ("sources", VList []) ]).
Proof.
  intros Ht Hne Hlive Hq Hqne e docs r.
  pose proof (handle_query_eq tok now data fs_ok idx S s query Ht Hne Hlive Hq Hqne)
    as Heq.
  fold e in Heq. fold docs in Heq.
  split; [|split; [|split; [|split]]].
  - intros fd. apply search_patient_documents_owned.
  - intros k d Hk Hother fd Hfd <-.
    destruct (search_patient_documents_owned e fs_ok idx fd Hfd) as (d' & Hk' & He' & _).
    assert (d' = d) as -> by congruence.
    unfold owned_by in Hother. simpl in Hother. rewrite He' in Hother.
    simpl in Hother. by rewrite String.eqb_refl in Hother.
  - intros Hdocs. subst r. rewrite Heq. simpl.
    destruct docs as [|fd l]; [done|].
    by destruct (generate_answer _ _ _ _).
  - intros idx' Hsame.
    rewrite (handle_query_eq tok now data fs_ok idx' S s query Ht Hne Hlive Hq Hqne).
    rewrite Heq. fold e.
    by rewrite (search_patient_documents_ext e fs_ok idx idx' Hsame).
  - intros Hnone. subst r. rewrite Heq. simpl.
    subst docs. by rewrite (search_patient_documents_none e fs_ok idx Hnone).
Qed.

End QueryProperties.

(** The example of C1: Jane asks, with Bob's form in the index; the sources
    are her form alone, and without Bob's form the response is the same. *)
Lemma C1_query_isolation_witness :
  let ask idx :=
    handle_query Fixture.no_repr Fixture.model_down (Some Fixture.jane_token) 5
      (Fixture.asking "query" "What did I decline?") Fixture.up idx Fixture.jane_sessions in
  (ask Fixture.clinic_index).2
  = Json 200
      [ ("query", VStr "What did I decline?");
        ("answer", VStr "Based on your consent form, you declined: blood transfusion");
        ("sources", VList [VStr "jane-form"]) ]
  ∧ ask (delete "bob-form" Fixture.clinic_index) = ask Fixture.clinic_index.
Proof.
  destruct (C1_query_isolation Fixture.no_repr Fixture.model_down Fixture.jane_token 5
              (Fixture.asking "query" "What did I decline?") Fixture.up
              Fixture.clinic_index Fixture.jane_sessions
              {| session_email := "jane.roe@example.org";
                 session_patient_name := VStr "Jane";
                 session_expires := eight_hours |}
              "What did I decline?")
    as (_ & _ & _ & Hsame & _).
  - vm_compute. reflexivity.
  - vm_compute. discriminate.
  - vm_compute. discriminate.
  - vm_compute. reflexivity.
  - vm_compute. discriminate.
  - split.
    + vm_compute. reflexivity.
    + apply Hsame. intros k d Ho. rewrite lookup_delete_Some.
      split; [|by intros [_ ?]]. intros Hk. split; [|done]. intros <-.
      revert Hk Ho. vm_compute. intros [= <-]. discriminate.
Defined.

(** ** Further properties of the pipeline *)

Section PipelineProperties.

Variable json_loads : string -> result value.
Variable generate_content : string -> result string.

Lemma read_blobs_calls full_text blob_list :
  Forall (fun c => ∃ name, c = BlobDownload name)
    (read_blobs json_loads full_text blob_list).2.
Proof.
  revert full_text. induction blob_list as [|[name content] l IH]; intros full_text; simpl.
  - constructor.
  - destruct (_ ≫= _) as [ft|e]; simpl.
    + specialize (IH ft). destruct (read_blobs json_loads ft l) as [r calls].
      simpl in *. constructor; [by eexists|done].
    + constructor; [by eexists|constructor].
Qed.

(** Step 4 is fatal: when the write of the ConsentRecord fails, the
    exception is raised again, the databases are as before, and no OCR
    result blob is deleted. *)
Theorem primary_write_failure_aborts bucket_name file_name written patient_id fs_ok w
    full_text downloads cleaned :
  is_pdf file_name = true →
  read_blobs json_loads "" (ocr_blobs file_name (list_to_map written ∪ w_bucket w))
  = (Ok full_text, downloads) →
  analyse generate_content full_text = Ok cleaned →
  fs_ok "consents" = false →
  ∃ w' calls,
    process_consent_pdf json_loads generate_content bucket_name file_name
      (Ok written) patient_id fs_ok w
    = (Raise (ServiceError "firestore"), w', calls)
    ∧ w_consents w' = w_consents w
    ∧ w_entity_index w' = w_entity_index w
    ∧ w_patients w' = w_patients w
    ∧ w_bucket w' = list_to_map written ∪ w_bucket w
    ∧ ∀ name, BlobDelete name ∉ calls.
Proof.
  intros Hpdf Hread Han Hfs.
  pose proof (read_blobs_calls ""
                (ocr_blobs file_name (list_to_map written ∪ w_bucket w))) as Hdl.
  unfold process_consent_pdf. rewrite Hpdf. cbn [negb]. rewrite Hread in *. rewrite Han.
  unfold firestore at 1. rewrite Hfs.
  eexists _, _. split; [reflexivity|]. repeat (split; [done|]).
  intros name Hin. simpl in Hdl. rewrite Forall_forall in Hdl.
  repeat (apply elem_of_app in Hin as [Hin|Hin]);
    try (apply elem_of_cons in Hin as [Hin|Hin]; [discriminate Hin|]);
    try (by apply elem_of_nil in Hin).
  destruct (Hdl _ Hin) as [n Hn]. discriminate Hn.
Qed.

Lemma store_enhanced_analysis_writes document_id analysis_json full_text fs_ok
    (idx : collection) :
  let idx' := (_store_enhanced_analysis json_loads document_id analysis_json full_text
                 fs_ok idx).1 in
  idx' = idx ∨ ∃ entry, idx' = <[document_id := entry]> idx.
Proof.
  unfold _store_enhanced_analysis.
  destruct (entity_entry _ _ _) as [entry|]; [|by left].
  unfold firestore. destruct (fs_ok "entity_index"); simpl; [right; by eexists|by left].
Qed.

(** A completed run writes the ConsentRecord under the identifier derived
    from the name, and touches the entity index under that identifier
    only. *)
Lemma process_consent_pdf_writes bucket_name file_name ocr patient_id fs_ok w w' calls :
  is_pdf file_name = true →
  process_consent_pdf json_loads generate_content bucket_name file_name ocr
    patient_id fs_ok w
  = (Ok tt, w', calls) →
  (∃ cleaned full_text,
     w_consents w'
     = <[doc_id_of file_name :=
           [ ("filename", VStr file_name);
             ("ai_analysis_json", VStr cleaned);
             ("full_text", VStr full_text);
             ("processed_timestamp", VTimestamp) ]]> (w_consents w))
  ∧ (w_entity_index w' = w_entity_index w
     ∨ ∃ entry, w_entity_index w' = <[doc_id_of file_name := entry]> (w_entity_index w)).
Proof.
  intros Hpdf. unfold process_consent_pdf. rewrite Hpdf. cbn [negb].
  destruct ocr as [written|e]; [|done].
  destruct (read_blobs _ _ _) as [[full_text|e] downloads]; [|done].
  destruct (analyse _ _) as [cleaned|e]; [|done].
  unfold firestore at 1. destruct (fs_ok "consents"); [|done].
  pose proof (store_enhanced_analysis_writes (doc_id_of file_name) cleaned full_text
                fs_ok (w_entity_index w)) as Hstore.
  cbn [w_entity_index] in *.
  destruct (_store_enhanced_analysis _ _ _ _ _ _) as [idx stored].
  destruct (provision_account _ _ _ _ _) as [patients provisioned].
  intros [= <- _]. simpl. split; [by eexists _, _|exact Hstore].
Qed.


End PipelineProperties.

(** The example for the fatal step 4: Firestore is down. *)
Lemma primary_write_failure_aborts_witness :
  ∃ w' calls,
    process_consent_pdf Fixture.scan_loads Fixture.model_down "consent-bucket" "form.pdf"
      (Ok Fixture.scan_blobs) "n3wPat1ent" Fixture.down Fixture.empty_world
    = (Raise (ServiceError "firestore"), w', calls)
    ∧ w_bucket w' = list_to_map Fixture.scan_blobs ∪ w_bucket Fixture.empty_world
    ∧ ∀ name, BlobDelete name ∉ calls.
Proof.
  destruct (primary_write_failure_aborts Fixture.scan_loads Fixture.model_down
              "consent-bucket" "form.pdf" Fixture.scan_blobs "n3wPat1ent" Fixture.down
              Fixture.empty_world "I consent to surgery."
              [BlobDownload "form.pdf-ocr-output/output-1-to-1.json"] fallback_json)
    as (w' & calls & Hrun & _ & _ & _ & Hbucket & Hcalls);
    [vm_compute; reflexivity | vm_compute; reflexivity | vm_compute; reflexivity
    | reflexivity |].
  exists w', calls. exact (conj Hrun (conj Hbucket Hcalls)).
Defined.


(** At most one account per email: the invariant is kept by [/register]
    and by every path of the ingestion worker's upsert. *)
Theorem unique_email_preserved data patient_id fs_ok e name patient_id' fs_ok'
    (patients : collection) :
  unique_email patients →
  unique_email (register_patient data patient_id fs_ok patients).1
  ∧ unique_email (_create_patient_account e name patient_id' fs_ok' patients).1.2.
Proof.
  intros H. split; [by apply register_patient_unique|by apply create_patient_account_unique].
Qed.

(** The example for the invariant: Ann registers, then her form and Bob's
    form are ingested. *)
Lemma unique_email_preserved_witness :
  unique_email
    (_create_patient_account "bob@example.org" (VStr "Bob") "n3wPat1ent" Fixture.up
       Fixture.ann_registered).1.2.
Proof.
  apply (unique_email_preserved Fixture.ann "0b8f6c1e-ann" Fixture.up "bob@example.org"
           (VStr "Bob") "n3wPat1ent" Fixture.up Fixture.ann_registered).
  apply register_patient_unique, unique_email_empty.
Defined.

(** * Further properties of the two programs *)

(** ** Sessions: logout and the other tokens *)

Lemma verify_session_other header now (S : gmap string session) t :
  header ≠ Some t → (verify_session header now S).1 !! t = S !! t.
Proof.
  intros Hne. unfold verify_session.
  destruct header as [h|]; [|done].
  destruct (String.eqb h ""); [done|].
  destruct (S !! h) as [s|] eqn:E; [|done].
  destruct (_ <? _)%Z; [|done]. simpl.
  apply lookup_delete_ne. congruence.
Qed.

Lemma login_patient_failed data tok now fs_ok patients (S : gmap string session) :
  status_of (login_patient data tok now fs_ok patients S).2 ≠ 200%Z →
  (login_patient data tok now fs_ok patients S).1 = S.
Proof.
  unfold login_patient.
  destruct (field_stripped data "email") as [e|]; simpl; [|done].
  destruct (field_stripped data "password") as [p|]; simpl; [|done].
  destruct (_ || _); simpl; [done|].
  destruct (firestore _ _ _) as [[|[k [|f d]] l]|]; simpl; try done.
  destruct (negb _); simpl; done.
Qed.

Section SessionLifecycle.

Variable py_repr : value -> string.
Variable generate_content : string -> result string.

(** Logout revokes the session: the entry is removed, and the same token
    is answered 401 from then on, by [/query] and by a second [/logout]. *)
Theorem logout_revokes_session t now (S : gmap string session) s :
  S !! t = Some s → t ≠ "" → (now ≤ session_expires s)%Z →
  logout_patient (Some t) now S
  = (delete t S, Json 200 [("message", VStr "Logged out successfully")])
  ∧ ∀ later qdata fs_ok idx,
      status_of (handle_query py_repr generate_content (Some t) later qdata fs_ok idx
                   (delete t S)).2 = 401%Z
      ∧ status_of (logout_patient (Some t) later (delete t S)).2 = 401%Z.
Proof.
  intros Ht Hne Hlive. split.
  - unfold logout_patient. by rewrite (verify_session_valid t now S s Ht Hne Hlive).
  - intros later qdata fs_ok idx.
    assert (verify_session (Some t) later (delete t S)
            = (delete t S, Rejected (Json 401 [("error", VStr "Unauthorized. Please log in.")])))
      as Hv.
    { apply verify_session_unknown. right. exists t. split; [done|].
      apply lookup_delete_eq. }
    rewrite (handle_query_rejected _ _ _ _ _ _ _ _ _ _ Hv).
    by rewrite (logout_patient_rejected _ _ _ _ _ Hv).
Qed.

(** No request touches the session of another token: [/query], [/logout]
    and [/login] leave the entry of every token but the one presented or
    issued as it was, and a login that is not answered 200 leaves the whole
    table as it was. *)
Theorem sessions_of_other_tokens_kept header now qdata ldata tok fs_ok idx patients
    (S : gmap string session) t :
  header ≠ Some t → t ≠ tok →
  (handle_query py_repr generate_content header now qdata fs_ok idx S).1 !! t = S !! t
  ∧ (logout_patient header now S).1 !! t = S !! t
  ∧ (login_patient ldata tok now fs_ok patients S).1 !! t = S !! t
  ∧ (status_of (login_patient ldata tok now fs_ok patients S).2 = 200%Z
     ∨ (login_patient ldata tok now fs_ok patients S).1 = S).
Proof.
  intros Hne Htok.
  pose proof (verify_session_other header now S t Hne) as Hv.
  split; [|split; [|split]].
  - unfold handle_query. by destruct (verify_session header now S) as [S' [r|e]].
  - unfold logout_patient. destruct (verify_session header now S) as [S' [r|e]]; [done|].
    simpl in *. destruct header as [h|]; [|done].
    rewrite lookup_delete_ne; [done|congruence].
  - destruct (decide (status_of (login_patient ldata tok now fs_ok patients S).2 = 200%Z))
      as [Hok|Hfail].
    + destruct (login_patient_ok _ _ _ _ _ _ Hok) as (e & name & ->).
      by rewrite lookup_insert_ne.
    + by rewrite login_patient_failed.
  - destruct (decide (status_of (login_patient ldata tok now fs_ok patients S).2 = 200%Z))
      as [Hok|Hfail]; [by left|right; by apply login_patient_failed].
Qed.

End SessionLifecycle.

(** The example of the revocation: Ann logs out. *)
Lemma logout_revokes_session_witness :
  (logout_patient (Some Fixture.ann_token) 1 Fixture.ann_logged_in).1 !! Fixture.ann_token
  = None
  ∧ status_of (logout_patient (Some Fixture.ann_token) 2
                 (delete Fixture.ann_token Fixture.ann_logged_in)).2 = 401%Z.
Proof.
  destruct (logout_revokes_session Fixture.no_repr Fixture.model_down Fixture.ann_token 1
              Fixture.ann_logged_in
              {| session_email := "ann@example.org"; session_patient_name := VStr "";
                 session_expires := 0 + eight_hours |})
    as (Hout & Hlater);
    [vm_compute; reflexivity | vm_compute; discriminate | vm_compute; discriminate |].
  split.
  - rewrite Hout. apply lookup_delete_eq.
  - exact (proj2 (Hlater 2%Z (Fixture.asking "query" "hello") Fixture.up ∅)).
Defined.

(** The example for the other tokens: Ann's token expired and she logs in
    again, while Jane holds a session. *)
Lemma sessions_of_other_tokens_kept_witness :
  let S := <[Fixture.ann_token :=
               {| session_email := "ann@example.org"; session_patient_name := VStr "";
                  session_expires := 5 |}]> Fixture.jane_sessions in
  (logout_patient (Some Fixture.ann_token) 9 S).1 !! Fixture.jane_token
  = S !! Fixture.jane_token
  ∧ (login_patient Fixture.ann "n3wT0ken" 9 Fixture.up Fixture.ann_registered S).1
      !! Fixture.jane_token
    = S !! Fixture.jane_token.
Proof.
  intros S.
  destruct (sessions_of_other_tokens_kept Fixture.no_repr Fixture.model_down
              (Some Fixture.ann_token) 9 (Fixture.asking "query" "hello") Fixture.ann
              "n3wT0ken" Fixture.up ∅ Fixture.ann_registered S Fixture.jane_token)
    as (_ & Hlogout & Hlogin & _);
    [vm_compute; discriminate | vm_compute; discriminate |].
  exact (conj Hlogout Hlogin).
Defined.

(** ** The account endpoints: rejections, malformed bodies, outages *)

(** [/login] tells nothing about which emails have an account: with no
    account under the email, or with accounts whose stored hash is not the
    one of the password, the answer is the same 401 and the session table
    is as before. *)
Theorem login_rejection_uniform ldata tok now fs_ok (patients : collection)
    (S : gmap string session) se sp :
  sends ldata "email" se → sends ldata "password" sp →
  Py.lower se ≠ "" → sp ≠ "" → fs_ok "patients" = true →
  (∀ k d, patients !! k = Some d → has_email (Py.lower se) d = true →
          is_str (dict_get d "password_hash" VNone) (hash_password sp) = false) →
  login_patient ldata tok now fs_ok patients S
  = (S, Json 401 [("error", VStr "Invalid email or password")]).
Proof.
  intros He Hp Hne Hpne Hfs Hnone.
  destruct (where_eq "email" (Py.lower se) patients) as [|[k d] l] eqn:Hw.
  - unfold sends in *. unfold login_patient. rewrite He, Hp. simpl.
    apply String.eqb_neq in Hne as ->. apply String.eqb_neq in Hpne as ->. simpl.
    unfold firestore. by rewrite Hfs, Hw.
  - rewrite (login_patient_found ldata tok now fs_ok patients S se sp k d l
               He Hp Hne Hpne Hfs Hw).
    assert ((k, d) ∈ where_eq "email" (Py.lower se) patients) as Hin by (rewrite Hw; left).
    apply elem_of_where_eq in Hin as [Hk Hd].
    by rewrite (Hnone k d Hk Hd).
Qed.

(** The example: an email nobody registered. *)
Lemma login_rejection_uniform_witness :
  login_patient (Fixture.credentials "bob@example.org" "secret1") Fixture.ann_token 0
    Fixture.up Fixture.ann_registered ∅
  = (∅, Json 401 [("error", VStr "Invalid email or password")]).
Proof.
  apply (login_rejection_uniform _ _ _ _ _ _ "bob@example.org" "secret1");
    [vm_compute; reflexivity | vm_compute; reflexivity | vm_compute; discriminate
    | vm_compute; discriminate | reflexivity |].
  intros k d Hk Hd. exfalso.
  assert ((k, d) ∈ where_eq "email" (Py.lower "bob@example.org") Fixture.ann_registered)
    as Hin by (by apply elem_of_where_eq).
  revert Hin. vm_compute. intros Hin. by apply elem_of_nil in Hin.
Defined.

Lemma field_stripped_not_text data k :
  not_text data k = true → field_stripped data k = Raise AttributeError.
Proof.
  unfold not_text, field_stripped, py_get, dict_get.
  destruct data as [| | | |?|d|]; try done.
  by destruct (dict_lookup d k) as [[]|].
Qed.

Section MalformedBodies.

Variable py_repr : value -> string.
Variable generate_content : string -> result string.

(** A body that is not a JSON object, or whose text field is a number,
    [null] or a list, is answered 500 by every endpoint (never 400), and
    changes neither the accounts nor the sessions. *)
Theorem malformed_body_is_500 data qdata adata patient_id tok now fs_ok
    (patients idx : collection) (S : gmap string session) t s :
  not_text data "email" = true →
  not_text qdata "query" = true →
  not_text adata "question" = true →
  S !! t = Some s → t ≠ "" → (now ≤ session_expires s)%Z →
  register_patient data patient_id fs_ok patients
  = (patients, ServerError "Registration failed" AttributeError)
  ∧ login_patient data tok now fs_ok patients S
    = (S, ServerError "Login failed" AttributeError)
  ∧ handle_query py_repr generate_content (Some t) now qdata fs_ok idx S
    = (S, ServerError "Internal server error" AttributeError)
  ∧ ask_question py_repr adata fs_ok idx
    = ServerError "Internal server error" AttributeError.
Proof.
  intros He Hq Ha Ht Hne Hlive.
  apply field_stripped_not_text in He, Hq, Ha.
  split; [|split; [|split]].
  - unfold register_patient. by rewrite He.
  - unfold login_patient. by rewrite He.
  - unfold handle_query. rewrite (verify_session_valid t now S s Ht Hne Hlive).
    by rewrite Hq.
  - unfold ask_question. by rewrite Ha.
Qed.

End MalformedBodies.

(** The example: JSON [null] where a text is expected. *)
Lemma malformed_body_is_500_witness :
  status_of (register_patient (VDict [("email", VNone)]) "0b8f6c1e-ann" Fixture.up ∅).2
  = 500%Z
  ∧ status_of (ask_question Fixture.no_repr (VList []) Fixture.up ∅) = 500%Z.
Proof.
  destruct (malformed_body_is_500 Fixture.no_repr Fixture.model_down
              (VDict [("email", VNone)]) (VDict [("query", VInt 7)]) (VList [])
              "0b8f6c1e-ann" "n3wT0ken" 1 Fixture.up ∅ ∅ Fixture.ann_logged_in
              Fixture.ann_token
              {| session_email := "ann@example.org"; session_patient_name := VStr "";
                 session_expires := 0 + eight_hours |})
    as (Hr & _ & _ & Ha);
    [reflexivity | reflexivity | reflexivity | vm_compute; reflexivity
    | vm_compute; discriminate | vm_compute; discriminate |].
  rewrite Hr, Ha. split; reflexivity.
Defined.

(** [/register] writes under the new identifier only, and only when it
    answers 200. *)
Theorem register_patient_frame data patient_id fs_ok (patients : collection) k :
  k ≠ patient_id →
  (register_patient data patient_id fs_ok patients).1 !! k = patients !! k
  ∧ (status_of (register_patient data patient_id fs_ok patients).2 = 200%Z
     ∨ (register_patient data patient_id fs_ok patients).1 = patients).
Proof.
  intros Hne. unfold register_patient.
  destruct (field_stripped data "email") as [e|]; simpl; [|by split; [|right]].
  destruct (field_stripped data "password") as [p|]; simpl; [|by split; [|right]].
  destruct (field_stripped data "patient_name") as [n|]; simpl; [|by split; [|right]].
  destruct (field_stripped data "date_of_birth") as [b|]; simpl; [|by split; [|right]].
  destruct (_ || _); simpl; [by split; [|right]|].
  unfold firestore. destruct (fs_ok "patients"); simpl; [|by split; [|right]].
  destruct (where_eq "email" (Py.lower e) patients) as [|x l]; simpl; [|by split; [|right]].
  split; [by rewrite lookup_insert_ne|by left].
Qed.

(** The example: Ann's account is kept when Bob registers. *)
Lemma register_patient_frame_witness :
  (register_patient (Fixture.credentials "bob@example.org" "hunter2") "7c1d-bob"
     Fixture.up Fixture.ann_registered).1 !! "0b8f6c1e-ann"
  = Fixture.ann_registered !! "0b8f6c1e-ann".
Proof.
  apply (register_patient_frame (Fixture.credentials "bob@example.org" "hunter2")
           "7c1d-bob" Fixture.up Fixture.ann_registered "0b8f6c1e-ann").
  vm_compute. discriminate.
Defined.

Section Outage.

Variable py_repr : value -> string.
Variable generate_content : string -> result string.

(** What a Firestore outage looks like from outside: the account endpoints
    answer 500 and change nothing, while [/query] answers 200 with the
    message of a patient without forms, and [/ask] answers 404 as if no
    form existed. *)
Theorem firestore_outage_responses rdata ldata qdata adata patient_id tok now fs_ok
    (patients idx : collection) (S : gmap string session) t s e p name dob le lp
    query question :
  fs_ok "patients" = false → fs_ok "entity_index" = false →
  sends rdata "email" e → sends rdata "password" p →
  sends rdata "patient_name" name → sends rdata "date_of_birth" dob →
  Py.lower e ≠ "" → p ≠ "" →
  sends ldata "email" le → sends ldata "password" lp → Py.lower le ≠ "" → lp ≠ "" →
  S !! t = Some s → t ≠ "" → (now ≤ session_expires s)%Z →
  sends qdata "query" query → query ≠ "" →
  sends adata "question" question → question ≠ "" →
  register_patient rdata patient_id fs_ok patients
  = (patients, ServerError "Registration failed" (ServiceError "firestore"))
  ∧ login_patient ldata tok now fs_ok patients S
    = (S, ServerError "Login failed" (ServiceError "firestore"))
  ∧ handle_query py_repr generate_content (Some t) now qdata fs_ok idx S
    = (S, Json 200
            [ ("query", VStr query);
              ("answer", VStr "I don't have any consent forms on file for you. Please contact your healthcare provider.");
              ("sources", VList []) ])
  ∧ ask_question py_repr adata fs_ok idx
    = Json 404 [("error", VStr "No consent form found")].
Proof.
  unfold sends.
  intros Hp Hi He Hpw Hn Hb Hene Hpne Hle Hlp Hlene Hlpne Ht Hne Hlive Hq Hqne Ha Hane.
  split; [|split; [|split]].
  - unfold register_patient. rewrite He, Hpw, Hn, Hb. simpl.
    apply String.eqb_neq in Hene as ->. apply String.eqb_neq in Hpne as ->. simpl.
    unfold firestore. by rewrite Hp.
  - unfold login_patient. rewrite Hle, Hlp. simpl.
    apply String.eqb_neq in Hlene as ->. apply String.eqb_neq in Hlpne as ->. simpl.
    unfold firestore. by rewrite Hp.
  - rewrite (handle_query_eq py_repr generate_content t now qdata fs_ok idx S s query
               Ht Hne Hlive Hq Hqne).
    by rewrite search_patient_documents_eq, Hi.
  - unfold ask_question. rewrite Ha. simpl.
    apply String.eqb_neq in Hane as ->.
    assert (_get_most_recent_document fs_ok idx = None) as Hrecent.
    { unfold _get_most_recent_document, firestore. by rewrite Hi. }
    assert (∀ entity, _resolve_document_from_entity entity fs_ok idx = None) as Hresolve.
    { intros entity. unfold _resolve_document_from_entity, firestore. by rewrite Hi. }
    destruct (_extract_key_entity question) as [entity|]; [|by rewrite Hrecent].
    destruct (String.eqb entity ""); [by rewrite Hrecent|by rewrite Hresolve].
Qed.

End Outage.

(** The example: Jane asks while Firestore is down. *)
Lemma firestore_outage_responses_witness :
  status_of (handle_query Fixture.no_repr Fixture.model_down (Some Fixture.jane_token) 1
               (Fixture.asking "query" "What did I consent to?") Fixture.down
               Fixture.clinic_index Fixture.jane_sessions).2 = 200%Z
  ∧ status_of (ask_question Fixture.no_repr
                 (Fixture.asking "question" "What did Jane decline?") Fixture.down
                 Fixture.clinic_index) = 404%Z.
Proof.
  destruct (firestore_outage_responses Fixture.no_repr Fixture.model_down
              Fixture.ann Fixture.ann (Fixture.asking "query" "What did I consent to?")
              (Fixture.asking "question" "What did Jane decline?") "0b8f6c1e-ann"
              "n3wT0ken" 1 Fixture.down ∅ Fixture.clinic_index Fixture.jane_sessions
              Fixture.jane_token
              {| session_email := "jane.roe@example.org";
                 session_patient_name := VStr "Jane";
                 session_expires := eight_hours |}
              "Ann@Example.org" "secret1" "" "" "Ann@Example.org" "secret1"
              "What did I consent to?" "What did Jane decline?")
    as (_ & _ & Hq & Ha);
    [reflexivity | reflexivity | vm_compute; reflexivity | vm_compute; reflexivity
    | vm_compute; reflexivity | vm_compute; reflexivity | vm_compute; discriminate
    | discriminate | vm_compute; reflexivity | vm_compute; reflexivity
    | vm_compute; discriminate | discriminate | vm_compute; reflexivity
    | vm_compute; discriminate | vm_compute; discriminate | vm_compute; reflexivity
    | discriminate | vm_compute; reflexivity | discriminate |].
  rewrite Hq, Ha. split; reflexivity.
Defined.

(** ** Accounts provisioned by the ingestion worker *)

(** The account [_create_patient_account] makes for a patient who has
    none. *)
Lemma create_patient_account_new e n w ws patient_id fs_ok (patients : collection) :
  Py.split n = w :: ws → n ≠ "N/A" →
  fs_ok "patients" = true →
  (∀ k d, patients !! k = Some d → has_email e d = false) →
  let account :=
    [ ("email", VStr e);
      ("password_hash", VStr (SHA256.hexdigest (Py.lower w +:+ "123!")));
      ("patient_name", VStr n);
      ("default_password", VStr (Py.lower w +:+ "123!"));
      ("created_at", VTimestamp);
      ("updated_at", VTimestamp) ] in
  _create_patient_account e (VStr n) patient_id fs_ok patients
  = (Ok tt, <[patient_id := account]> patients,
     [FirestoreQuery "patients"; FirestoreSet "patients" patient_id account]).
Proof.
  intros Hsplit Hna Hfs Hnone account.
  assert (where_eq "email" e patients = []) as Hw by (by apply where_eq_nil).
  unfold _create_patient_account, default_password_of, py_split. simpl.
  apply String.eqb_neq in Hna as ->. rewrite Hsplit. simpl.
  unfold firestore. by rewrite Hfs, Hw.
Qed.

(** A login with the default password on the account just made. *)
Lemma login_created_account e n w patient_id fs_ok (patients : collection)
    ldata tok now (S : gmap string session) se :
  fs_ok "patients" = true →
  (∀ k d, patients !! k = Some d → has_email e d = false) →
  sends ldata "email" se → Py.lower se = e → e ≠ "" →
  sends ldata "password" (Py.lower w +:+ "123!") →
  let account :=
    [ ("email", VStr e);
      ("password_hash", VStr (SHA256.hexdigest (Py.lower w +:+ "123!")));
      ("patient_name", VStr n);
      ("default_password", VStr (Py.lower w +:+ "123!"));
      ("created_at", VTimestamp);
      ("updated_at", VTimestamp) ] in
  login_patient ldata tok now fs_ok (<[patient_id := account]> patients) S
  = (<[tok := {| session_email := e; session_patient_name := VStr n;
                 session_expires := now + eight_hours |}]> S,
     Json 200 [ ("message", VStr "Login successful");
                ("session_token", VStr tok);
                ("patient_name", VStr n);
                ("email", VStr e) ]).
Proof.
  intros Hfs Hnone He Hlow Hene Hp account.
  assert (where_eq "email" (Py.lower se) (<[patient_id := account]> patients)
          = [(patient_id, account)]) as Hw'.
  { rewrite Hlow. apply where_eq_singleton.
    - apply lookup_insert_eq.
    - simpl. apply String.eqb_refl.
    - intros k' d' Hk' Hd'. destruct (decide (k' = patient_id)) as [|Hne]; [done|].
      rewrite lookup_insert_ne in Hk' by done.
      unfold has_email in Hnone. by rewrite (Hnone k' d' Hk') in Hd'. }
  rewrite (login_patient_found ldata tok now fs_ok _ S se _ patient_id account []
             He Hp); [| by rewrite Hlow | by destruct (Py.lower w) | done | done].
  rewrite Hlow. unfold hash_password.
  change (dict_get account "password_hash" VNone)
    with (VStr (SHA256.hexdigest (Py.lower w +:+ "123!"))).
  change (dict_get account "patient_name" (VStr "N/A")) with (VStr n).
  simpl. by rewrite String.eqb_refl.
Qed.

(** A form naming a patient without an account creates one whose password
    is the first word of the name in lower case followed by [123!]: a login
    with the form's email and that password succeeds. *)
Theorem provisioned_account_login e n w ws patient_id fs_ok (patients : collection)
    ldata tok now (S : gmap string session) se :
  Py.split n = w :: ws → n ≠ "N/A" →
  fs_ok "patients" = true →
  (∀ k d, patients !! k = Some d → has_email e d = false) →
  sends ldata "email" se → Py.lower se = e → e ≠ "" →
  sends ldata "password" (Py.lower w +:+ "123!") →
  let account :=
    [ ("email", VStr e);
      ("password_hash", VStr (SHA256.hexdigest (Py.lower w +:+ "123!")));
      ("patient_name", VStr n);
      ("default_password", VStr (Py.lower w +:+ "123!"));
      ("created_at", VTimestamp);
      ("updated_at", VTimestamp) ] in
  _create_patient_account e (VStr n) patient_id fs_ok patients
  = (Ok tt, <[patient_id := account]> patients,
     [FirestoreQuery "patients"; FirestoreSet "patients" patient_id account])
  ∧ login_patient ldata tok now fs_ok (<[patient_id := account]> patients) S
    = (<[tok := {| session_email := e; session_patient_name := VStr n;
                   session_expires := now + eight_hours |}]> S,
       Json 200 [ ("message", VStr "Login successful");
                  ("session_token", VStr tok);
                  ("patient_name", VStr n);
                  ("email", VStr e) ]).
Proof.
  intros Hsplit Hna Hfs Hnone He Hlow Hene Hp account. split.
  - by eapply create_patient_account_new.
  - by apply (login_created_account e n w patient_id fs_ok patients ldata tok now S se).
Qed.

(** The example: Bob's form is ingested, and Bob logs in with [bob123!]. *)
Lemma provisioned_account_login_witness :
  status_of
    (login_patient (Fixture.credentials " Bob@Example.org" "bob123!") "n3wT0ken" 0
       Fixture.up
       (_create_patient_account "bob@example.org" (VStr "Bob Stone") "n3wPat1ent"
          Fixture.up Fixture.ann_registered).1.2 ∅).2
  = 200%Z.
Proof.
  destruct (provisioned_account_login "bob@example.org" "Bob Stone" "Bob" ["Stone"]
              "n3wPat1ent" Fixture.up Fixture.ann_registered
              (Fixture.credentials " Bob@Example.org" "bob123!") "n3wT0ken" 0 ∅
              "Bob@Example.org")
    as [Hcreate Hlogin];
    [vm_compute; reflexivity | discriminate | reflexivity | | vm_compute; reflexivity
    | vm_compute; reflexivity | discriminate | vm_compute; reflexivity |].
  - intros k d Hk. destruct (has_email "bob@example.org" d) eqn:Hd; [|done]. exfalso.
    assert ((k, d) ∈ where_eq "email" "bob@example.org" Fixture.ann_registered)
      as Hin by (by apply elem_of_where_eq).
    revert Hin. vm_compute. intros Hin. by apply elem_of_nil in Hin.
  - rewrite Hcreate. cbn [fst snd]. rewrite Hlogin. reflexivity.
Defined.

Section Provisioning.

Variable json_loads : string -> result value.

(** Step 6 makes no account and no Firestore call when the analysis has
    no usable email: the key is missing, or its value is empty or [N/A] in
    any case of the letters. *)
Theorem provisioning_skipped_without_email cleaned analysis entities e patient_id fs_ok
    (patients : collection) :
  json_loads cleaned = Ok (VDict analysis) →
  dict_get analysis "entities" (VDict []) = VDict entities →
  dict_get entities "patient_email" (VStr "") = VStr e →
  Py.lower e = "" ∨ Py.lower e = "n/a" →
  provision_account json_loads cleaned patient_id fs_ok patients = (patients, []).
Proof.
  intros Hloads Hent Hemail Hskip. unfold provision_account.
  rewrite Hloads. simpl. rewrite Hent. simpl. rewrite Hemail. simpl.
  by destruct Hskip as [-> | ->].
Qed.

(** Step 6 makes no account and no Firestore call either when the form has
    an email but a blank patient name, or a name that is not a text: the
    default password cannot be built, and the exception is dropped. *)
Theorem blank_name_no_account cleaned analysis entities e name patient_id fs_ok
    (patients : collection) :
  json_loads cleaned = Ok (VDict analysis) →
  dict_get analysis "entities" (VDict []) = VDict entities →
  dict_get entities "patient_email" (VStr "") = VStr e →
  dict_get entities "patient_name" (VStr "N/A") = name →
  (∃ n, name = VStr n ∧ Py.split n = []) ∨ (∀ n, name ≠ VStr n) →
  provision_account json_loads cleaned patient_id fs_ok patients = (patients, [])
  ∧ ∃ ex, _create_patient_account (Py.lower e) name patient_id fs_ok patients
          = (Raise ex, patients, []).
Proof.
  intros Hloads Hent Hemail Hname Hblank.
  assert (∃ ex, default_password_of name = Raise ex) as [ex Hex].
  { unfold default_password_of. destruct Hblank as [(n & -> & Hn)|Hnot].
    - simpl. destruct (String.eqb n "N/A") eqn:E.
      + apply String.eqb_eq in E as ->. discriminate Hn.
      + rewrite Hn. simpl. by eexists.
    - destruct name; simpl; try by eexists. by destruct (Hnot s). }
  assert (_create_patient_account (Py.lower e) name patient_id fs_ok patients
          = (Raise ex, patients, [])) as Hcreate.
  { unfold _create_patient_account. by rewrite Hex. }
  split; [|by exists ex].
  unfold provision_account.
  rewrite Hloads. simpl. rewrite Hent. simpl. rewrite Hemail. simpl. rewrite Hname.
  destruct (negb _ && negb _); [|done]. by rewrite Hcreate.
Qed.

End Provisioning.

(** The example: the fallback analysis names nobody. *)
Lemma provisioning_skipped_without_email_witness :
  provision_account Fixture.scan_loads fallback_json "n3wPat1ent" Fixture.up
    Fixture.ann_registered
  = (Fixture.ann_registered, []).
Proof.
  apply (provisioning_skipped_without_email Fixture.scan_loads fallback_json
           [ ("summary", VStr "Consent form processed - AI analysis failed");
             ("entities",
               VDict
                 [ ("patient_name", VStr "N/A");
                   ("patient_email", VStr "N/A");
                   ("date_of_birth", VStr "N/A");
                   ("doctor_name", VStr "N/A");
                   ("procedure", VStr "N/A");
                   ("date", VStr "N/A") ]);
             ("consented_items", VList [VStr "Analysis pending"]);
             ("declined_items", VList []);
             ("patient_id", VStr "unknown") ]
           [ ("patient_name", VStr "N/A");
             ("patient_email", VStr "N/A");
             ("date_of_birth", VStr "N/A");
             ("doctor_name", VStr "N/A");
             ("procedure", VStr "N/A");
             ("date", VStr "N/A") ]
           "N/A" "n3wPat1ent" Fixture.up Fixture.ann_registered);
    [vm_compute; reflexivity | reflexivity | reflexivity | right; vm_compute; reflexivity].
Defined.

(** The example: a form with an email and a blank name. *)
Lemma blank_name_no_account_witness :
  provision_account Fixture.nameless_loads (Fixture.dumped Fixture.nameless_analysis)
    "n3wPat1ent" Fixture.up ∅
  = (∅, []).
Proof.
  refine (proj1 (blank_name_no_account Fixture.nameless_loads
                   (Fixture.dumped Fixture.nameless_analysis)
                   [ ("summary", VStr "Consent to a blood test.");
                     ("entities",
                       VDict [ ("patient_name", VStr "  ");
                               ("patient_email", VStr "Zoe@Example.org") ]);
                     ("consented_items", VList [VStr "blood test"]);
                     ("declined_items", VList []);
                     ("patient_id", VStr "zoe") ]
                   [("patient_name", VStr "  "); ("patient_email", VStr "Zoe@Example.org")]
                   "Zoe@Example.org" (VStr "  ") "n3wPat1ent" Fixture.up ∅ _ _ _ _ _));
    [vm_compute; reflexivity | reflexivity | reflexivity | reflexivity |].
  left. exists "  ". split; [reflexivity | vm_compute; reflexivity].
Defined.

(** ** Emails as the sessions carry them *)

Lemma lower_char_idemp c : Py.lower_char (Py.lower_char c) = Py.lower_char c.
Proof. destruct c as [[] [] [] [] [] [] [] []]; vm_compute; reflexivity. Qed.

Lemma isspace_lower_char c : Py.isspace (Py.lower_char c) = Py.isspace c.
Proof. destruct c as [[] [] [] [] [] [] [] []]; vm_compute; reflexivity. Qed.

Lemma lower_cons c s : Py.lower (String c s) = String (Py.lower_char c) (Py.lower s).
Proof. reflexivity. Qed.

Lemma lower_idemp s : Py.lower (Py.lower s) = Py.lower s.
Proof.
  induction s as [|c s IH]; [done|]. by rewrite !lower_cons, lower_char_idemp, IH.
Qed.

Lemma lstrip_lower s : Py.lstrip (Py.lower s) = Py.lower (Py.lstrip s).
Proof.
  induction s as [|c s IH]; [done|]. rewrite lower_cons. simpl.
  rewrite isspace_lower_char. destruct (Py.isspace c); [done|]. by rewrite lower_cons.
Qed.

Lemma rstrip_lower s : Py.rstrip (Py.lower s) = Py.lower (Py.rstrip s).
Proof.
  induction s as [|c s IH]; [done|]. rewrite lower_cons. simpl.
  rewrite IH, isspace_lower_char.
  destruct (Py.rstrip s) as [|a r]; [by destruct (Py.isspace c)|].
  by rewrite !lower_cons.
Qed.

Lemma strip_lower s : Py.strip (Py.lower s) = Py.lower (Py.strip s).
Proof. unfold Py.strip. by rewrite lstrip_lower, rstrip_lower. Qed.

Lemma rstrip_idemp s : Py.rstrip (Py.rstrip s) = Py.rstrip s.
Proof.
  induction s as [|c s IH]; simpl; [done|].
  destruct (Py.rstrip s) as [|a r] eqn:E.
  - destruct (Py.isspace c) eqn:Ec; simpl; [done|]. by rewrite Ec.
  - simpl in *. by rewrite IH.
Qed.

Lemma lstrip_no_leading_blank s : no_leading_blank (Py.lstrip s).
Proof.
  induction s as [|c s IH]; simpl; [done|].
  destruct (Py.isspace c) eqn:E; [done|]. simpl. done.
Qed.

Lemma rstrip_no_leading_blank s : no_leading_blank s → no_leading_blank (Py.rstrip s).
Proof.
  destruct s as [|c s]; simpl; [done|]. intros Hc.
  destruct (Py.rstrip s); simpl; [by rewrite Hc|done].
Qed.

Lemma lstrip_id s : no_leading_blank s → Py.lstrip s = s.
Proof. destruct s as [|c s]; simpl; [done|]. by intros ->. Qed.

Lemma strip_idemp s : Py.strip (Py.strip s) = Py.strip s.
Proof.
  unfold Py.strip.
  rewrite (lstrip_id (Py.rstrip (Py.lstrip s)))
    by apply rstrip_no_leading_blank, lstrip_no_leading_blank.
  apply rstrip_idemp.
Qed.

Lemma field_stripped_strip data k s : field_stripped data k = Ok s → Py.strip s = s.
Proof.
  unfold field_stripped, py_get.
  destruct data as [| | | |?|d|]; simpl; try done.
  destruct (dict_get d k (VStr "")); simpl; try done.
  intros [= <-]. apply strip_idemp.
Qed.

(** A session that [/login] opens is bound to a normalised email: lower
    case, without blanks around it. *)
Lemma login_patient_normalised data tok now fs_ok patients (S : gmap string session) :
  status_of (login_patient data tok now fs_ok patients S).2 = 200%Z →
  ∃ s, (login_patient data tok now fs_ok patients S).1 !! tok = Some s
       ∧ Py.lower (Py.strip (session_email s)) = session_email s.
Proof.
  unfold login_patient.
  destruct (field_stripped data "email") as [e|] eqn:He; simpl; [|done].
  destruct (field_stripped data "password") as [p|]; simpl; [|done].
  destruct (_ || _); simpl; [done|].
  destruct (firestore _ _ _) as [[|[k [|f d]] l]|]; simpl; try done.
  destruct (negb _); simpl; [done|]. intros _.
  eexists. rewrite lookup_insert_eq. split; [done|]. simpl.
  by rewrite strip_lower, (field_stripped_strip _ _ _ He), lower_idemp.
Qed.

(** Forms nobody can see: an entry of the index whose [patient_email] is
    not a normalised email (the [N/A] of a failed or empty extraction, an
    email with a blank around it) is found for no session opened by
    [/login], whatever credentials were presented. *)
Theorem unattributed_forms_unreachable data tok now fs_ok patients
    (S : gmap string session) fs_ok' (idx : collection) k d x :
  status_of (login_patient data tok now fs_ok patients S).2 = 200%Z →
  idx !! k = Some d →
  dict_get d "patient_email" VNone = VStr x →
  Py.lower (Py.strip x) ≠ x →
  ∃ s, (login_patient data tok now fs_ok patients S).1 !! tok = Some s
       ∧ ∀ fd, fd ∈ search_patient_documents (session_email s) fs_ok' idx →
               doc_id fd ≠ k.
Proof.
  intros Hok Hk Hx Hraw.
  destruct (login_patient_normalised data tok now fs_ok patients S Hok) as (s & Hs & Hnorm).
  exists s. split; [done|]. intros fd Hfd <-.
  destruct (search_patient_documents_owned _ _ _ _ Hfd) as (d' & Hk' & He' & _).
  assert (d' = d) as -> by congruence.
  rewrite Hx in He'. injection He' as ->. done.
Qed.

(** The example: Ann is logged in, and the index holds a form analysed by
    the fallback. *)
Lemma unattributed_forms_unreachable_witness :
  ∃ s, Fixture.ann_logged_in !! Fixture.ann_token = Some s
       ∧ ∀ fd, fd ∈ search_patient_documents (session_email s) Fixture.up
                      (w_entity_index Fixture.first_run.1.2) →
               doc_id fd ≠ "form".
Proof.
  apply (unattributed_forms_unreachable Fixture.ann Fixture.ann_token 0 Fixture.up
           Fixture.ann_registered ∅ Fixture.up (w_entity_index Fixture.first_run.1.2)
           "form"
           [ ("document_id", VStr "form");
             ("entities", VDict []);
             ("search_terms", VList []);
             ("patient_name", VStr "N/A");
             ("patient_id", VStr "unknown");
             ("patient_email", VStr "N/A");
             ("consented_items", VList [VStr "Analysis pending"]);
             ("declined_items", VList []);
             ("summary", VStr "Consent form processed - AI analysis failed");
             ("processed_timestamp", VTimestamp) ]
           "N/A");
    [vm_compute; reflexivity | vm_compute; reflexivity | reflexivity
    | vm_compute; discriminate].
Defined.

(** ** The ingestion run as a whole *)

Lemma create_patient_account_down e name patient_id fs_ok (patients : collection) :
  fs_ok "patients" = false →
  (_create_patient_account e name patient_id fs_ok patients).1.2 = patients.
Proof.
  intros Hfs. unfold _create_patient_account, firestore. rewrite Hfs.
  by destruct (default_password_of name).
Qed.

Section RunProperties.

Variable json_loads : string -> result value.
Variable generate_content : string -> result string.

Lemma analyse_total full_text : ∃ cleaned, analyse generate_content full_text = Ok cleaned.
Proof.
  unfold analyse. destruct (generate_content _); [by eexists|].
  rewrite json_dumps_fallback. by eexists.
Qed.

Lemma provision_account_down cleaned patient_id fs_ok (patients : collection) :
  fs_ok "patients" = false →
  (provision_account json_loads cleaned patient_id fs_ok patients).1 = patients.
Proof.
  intros Hfs. unfold provision_account.
  destruct (_ ≫= _) as [[e name]|]; [|done].
  destruct (negb _ && negb _); [|done].
  pose proof (create_patient_account_down e name patient_id fs_ok patients Hfs) as H.
  by destruct (_create_patient_account _ _ _ _ _) as [[r p] c].
Qed.



End RunProperties.



(** ** Document identifiers *)

Lemma contains_cons sub c r :
  Py.contains sub (String c r) = Py.startswith (String c r) sub || Py.contains sub r.
Proof. reflexivity. Qed.

Lemma replace_from_cons old new c r :
  Py.replace_from 0 old new (String c r)
  = if Py.startswith (String c r) old
    then new +:+ Py.replace_from (String.length old - 1) old new r
    else String c (Py.replace_from 0 old new r).
Proof. reflexivity. Qed.

Lemma lower_app s t : Py.lower (s +:+ t) = Py.lower s +:+ Py.lower t.
Proof.
  induction s as [|c s IH]; [done|].
  change (String c s +:+ t) with (String c (s +:+ t)).
  rewrite !lower_cons, IH. reflexivity.
Qed.

Lemma length_app s t : String.length (s +:+ t) = (String.length s + String.length t)%nat.
Proof. induction s as [|c s IH]; simpl; [done|]. by rewrite IH. Qed.

Lemma drop_length_app s t : Py.drop (String.length s) (s +:+ t) = t.
Proof. induction s as [|c s IH]; simpl; [by destruct t|done]. Qed.

Lemma endswith_app s p : Py.endswith (s +:+ p) p = true.
Proof.
  unfold Py.endswith. rewrite length_app.
  replace (String.length s + String.length p - String.length p)%nat
    with (String.length s) by lia.
  rewrite drop_length_app, String.eqb_refl, andb_true_r.
  apply Nat.leb_le. lia.
Qed.



(** ** Answers *)

Section AnswerProperties.

Variable py_repr : value -> string.
Variable generate_content : string -> result string.

Lemma generate_answer_take query docs :
  generate_answer py_repr generate_content query docs
  = generate_answer py_repr generate_content query (take 3 docs).
Proof. by destruct docs as [|a [|b [|c [|d l]]]]. Qed.

(** The answer of [/query] is computed from the first three documents
    found: patients whose forms agree on the first three get the same
    answer, whatever further forms they have. *)
Theorem answer_uses_first_three query docs docs' :
  take 3 docs = take 3 docs' →
  generate_answer py_repr generate_content query docs
  = generate_answer py_repr generate_content query docs'.
Proof.
  intros H. rewrite (generate_answer_take query docs), (generate_answer_take query docs').
  by rewrite H.
Qed.

(** [/ask] without a recognised entity answers from the entry with the
    least document identifier, whatever the timestamps. *)
Theorem ask_defaults_to_least_identifier adata question fs_ok (idx : collection) k d :
  sends adata "question" question → question ≠ "" →
  _extract_key_entity question = None →
  fs_ok "entity_index" = true →
  idx !! k = Some d → d ≠ [] →
  (∀ k' d', idx !! k' = Some d' → String.le k k') →
  ask_question py_repr adata fs_ok idx
  = Json 200 [ ("answer", VStr (_generate_contextual_answer py_repr question d));
               ("document_id", dict_get d "document_id" VNone);
               ("entity", VNone) ].
Proof.
  unfold sends. intros Hq Hne Hnone Hfs Hk Hd Hleast.
  assert (∃ l, stream idx = (k, d) :: l) as [l Hstream].
  { pose proof (stream_sorted idx) as Hsorted.
    destruct (stream idx) as [|[k0 d0] l] eqn:E.
    - apply elem_of_stream in Hk. rewrite E in Hk. by apply elem_of_nil in Hk.
    - exists l. assert (idx !! k0 = Some d0) as Hk0 by (apply elem_of_stream; rewrite E; left).
      apply StronglySorted_inv in Hsorted as [_ Hall]. rewrite Forall_forall in Hall.
      assert (k0 = k) as ->.
      { apply (anti_symm String.le); [|by eapply Hleast].
        apply elem_of_stream in Hk. rewrite E in Hk.
        apply elem_of_cons in Hk as [[= -> ->]|Hk]; [done|]. exact (Hall _ Hk). }
      congruence. }
  unfold ask_question. rewrite Hq. simpl.
  apply String.eqb_neq in Hne as ->. rewrite Hnone.
  unfold _get_most_recent_document, firestore. rewrite Hfs, Hstream. simpl.
  by destruct d.
Qed.

End AnswerProperties.

(** The example: a fourth form changes nothing. *)
Lemma answer_uses_first_three_witness :
  generate_answer Fixture.no_repr Fixture.model_down "What did I consent to?"
    [ Fixture.form "a" "x-ray"; Fixture.form "b" "biopsy"; Fixture.form "c" "surgery";
      Fixture.form "d" "anaesthesia" ]
  = generate_answer Fixture.no_repr Fixture.model_down "What did I consent to?"
      [ Fixture.form "a" "x-ray"; Fixture.form "b" "biopsy"; Fixture.form "c" "surgery" ].
Proof. apply answer_uses_first_three. reflexivity. Defined.

(** The example: a question that names nobody is answered from Bob's
    form, the first of the index. *)
Lemma ask_defaults_to_least_identifier_witness :
  ask_question Fixture.no_repr (Fixture.asking "question" "Any allergies?") Fixture.up
    Fixture.clinic_index
  = Json 200 [ ("answer", VStr "Based on bob-form: Consent to a knee replacement.");
               ("document_id", VStr "bob-form");
               ("entity", VNone) ].
Proof.
  assert (∃ d, Fixture.clinic_index !! "bob-form" = Some d) as [d Hd].
  { vm_compute. eexists. reflexivity. }
  rewrite (ask_defaults_to_least_identifier Fixture.no_repr
             (Fixture.asking "question" "Any allergies?") "Any allergies?" Fixture.up
             Fixture.clinic_index "bob-form" d).
  - revert Hd. vm_compute. intros [= <-]. reflexivity.
  - vm_compute. reflexivity.
  - discriminate.
  - vm_compute. reflexivity.
  - reflexivity.
  - exact Hd.
  - revert Hd. vm_compute. intros [= <-]. discriminate.
  - clear. change (map_Forall (λ k' (_ : dict), String.le "bob-form" k')
                     Fixture.clinic_index).
    apply (bool_decide_unpack _). vm_compute. exact I.
Defined.

(** ** The index names its documents *)

Section IndexProperties.

Variable json_loads : string -> result value.
Variable generate_content : string -> result string.

Lemma entity_entry_document_id document_id analysis_json entry :
  entity_entry json_loads document_id analysis_json = Ok entry →
  dict_lookup entry "document_id" = Some (VStr document_id).
Proof.
  unfold entity_entry.
  destruct (json_loads analysis_json) as [analysis|]; simpl; [|done].
  destruct (py_get analysis "entities" (VDict [])) as [entities|]; simpl; [|done].
  destruct (py_items entities) as [items|]; simpl; [|done].
  destruct (index_entities items [] []) as [indexed|]; simpl; [|done].
  destruct (py_get analysis "patient_id" _) as [pid|]; simpl; [|done].
  destruct (py_get entities "patient_email" _) as [pe|]; simpl; [|done].
  destruct (py_get entities "patient_name" _) as [pn|]; simpl; [|done].
  destruct (if is_str pe "N/A" then _ else _) as [se|]; simpl; [|done].
  destruct (py_get analysis "consented_items" _) as [ci|]; simpl; [|done].
  destruct (py_get analysis "declined_items" _) as [di|]; simpl; [|done].
  destruct (py_get analysis "summary" _) as [su|]; simpl; [|done].
  by intros [= <-].
Qed.

Lemma store_enhanced_analysis_wf document_id analysis_json full_text fs_ok
    (idx : collection) :
  index_wf idx →
  index_wf (_store_enhanced_analysis json_loads document_id analysis_json full_text
              fs_ok idx).1.
Proof.
  intros Hwf. unfold _store_enhanced_analysis.
  destruct (entity_entry _ _ _) as [entry|] eqn:E; [|done].
  unfold firestore. destruct (fs_ok "entity_index"); simpl; [|done].
  intros k d Hk. apply lookup_insert_Some in Hk as [[<- <-]|[_ Hk]]; [|by apply Hwf].
  by apply entity_entry_document_id in E.
Qed.

(** Every entry of the index carries, under [document_id], the identifier
    it is stored under: a run of the worker keeps it so, and the sources
    [/query] lists are then the identifiers of the patient's entries. *)
Theorem index_names_documents bucket_name file_name ocr patient_id fs_ok w :
  index_wf (w_entity_index w) →
  index_wf (w_entity_index
              (process_consent_pdf json_loads generate_content bucket_name file_name ocr
                 patient_id fs_ok w).1.2)
  ∧ ∀ e fs_ok' fd,
      fd ∈ search_patient_documents e fs_ok' (w_entity_index w) →
      doc_filename fd = VStr (doc_id fd).
Proof.
  intros Hwf. split.
  - unfold process_consent_pdf.
    destruct (negb (is_pdf file_name)); [done|].
    destruct ocr as [written|e]; [|done].
    cbn [w_bucket w_consents w_entity_index w_patients].
    destruct (read_blobs _ _ _) as [[full_text|e] downloads]; [|done].
    destruct (analyse _ _) as [cleaned|e]; [|done].
    destruct (firestore _ _ _) as [consents|e]; [|done].
    pose proof (store_enhanced_analysis_wf (doc_id_of file_name) cleaned full_text fs_ok
                  (w_entity_index w) Hwf) as Hstore.
    destruct (_store_enhanced_analysis _ _ _ _ _ _) as [idx stored].
    by destruct (provision_account _ _ _ _ _) as [patients provisioned].
  - intros e fs_ok' fd Hfd.
    destruct (search_patient_documents_owned _ _ _ _ Hfd) as (d & Hk & _ & ->).
    unfold found_of, dict_get. simpl. by rewrite (Hwf _ _ Hk).
Qed.

End IndexProperties.

(** The example: the first ingestion into an empty index. *)
Lemma index_names_documents_witness :
  index_wf (w_entity_index Fixture.first_run.1.2).
Proof.
  refine (proj1 (index_names_documents Fixture.scan_loads Fixture.model_down
                   "consent-bucket" "form.pdf" (Ok Fixture.scan_blobs) "n3wPat1ent"
                   Fixture.up Fixture.empty_world _)).
  intros k d Hk. unfold Fixture.empty_world in Hk. simpl in Hk.
  by rewrite lookup_empty in Hk.
Defined.

(** ** Updating an account from a form *)

Lemma dict_lookup_update_ne (d u : dict) f :
  f ∉ u.*1 → dict_lookup (dict_update d u) f = dict_lookup d f.
Proof.
  unfold dict_update. revert d. induction u as [|[k v] u IH]; intros d Hf; simpl; [done|].
  rewrite fmap_cons, not_elem_of_cons in Hf. destruct Hf as [Hne Hf].
  rewrite IH by done. apply dict_lookup_set_ne. by intros ->.
Qed.

(** A form for a patient who has an account updates that account in place:
    no account is added, the other accounts are untouched, and apart from
    the name, the email, the update time and the two password fields every
    field of the account (the date of birth, the creation time) is kept. *)
Theorem account_update_keeps_other_fields e name patient_id fs_ok (patients : collection)
    k d f :
  unique_email patients →
  patients !! k = Some d → has_email e d = true →
  f ∉ ["patient_name"; "email"; "updated_at"; "password_hash"; "default_password"] →
  let patients' := (_create_patient_account e name patient_id fs_ok patients).1.2 in
  dom patients' = dom patients
  ∧ (∀ k', k' ≠ k → patients' !! k' = patients !! k')
  ∧ ∃ d', patients' !! k = Some d' ∧ dict_lookup d' f = dict_lookup d f.
Proof.
  intros Huniq Hk He Hf patients'. subst patients'.
  assert (where_eq "email" e patients = [(k, d)]) as Hw.
  { apply where_eq_singleton; [done..|]. intros k' d' Hk' He'. by eapply Huniq. }
  unfold _create_patient_account.
  destruct (default_password_of name) as [pw|]; [|by eauto].
  unfold firestore. destruct (fs_ok "patients"); [|by eauto].
  rewrite Hw. change (take 1 [(k, d)]) with [(k, d)]. cbv beta iota zeta.
  cbn [fst snd]. split; [|split].
  - apply dom_insert_lookup_L. by eexists.
  - intros k' Hne. by rewrite lookup_insert_ne.
  - eexists. rewrite lookup_insert_eq. split; [done|].
    apply dict_lookup_update_ne.
    destruct (negb _); simpl; [exact Hf|].
    rewrite !not_elem_of_cons in *. tauto.
Qed.

(** The example: Ann registered with her date of birth, then her form is
    ingested. *)
Lemma account_update_keeps_other_fields_witness :
  ∃ d', (_create_patient_account "ann@example.org" (VStr "Ann Lee") "n3wPat1ent" Fixture.up
           Fixture.ann_registered).1.2 !! "0b8f6c1e-ann" = Some d'
        ∧ dict_lookup d' "date_of_birth" = Some (VStr "").
Proof.
  assert (∃ d, Fixture.ann_registered !! "0b8f6c1e-ann" = Some d
               ∧ dict_lookup d "date_of_birth" = Some (VStr "")) as (d & Hd & Hdob).
  { vm_compute. eexists. split; reflexivity. }
  destruct (account_update_keeps_other_fields "ann@example.org" (VStr "Ann Lee")
              "n3wPat1ent" Fixture.up Fixture.ann_registered "0b8f6c1e-ann" d
              "date_of_birth")
    as (_ & _ & d' & Hd' & Hkeep).
  - apply register_patient_unique, unique_email_empty.
  - exact Hd.
  - revert Hd. vm_compute. intros [= <-]. reflexivity.
  - rewrite !not_elem_of_cons. repeat (split; [discriminate|]). apply not_elem_of_nil.
  - exists d'. split; [exact Hd'|]. by rewrite Hkeep.
Defined.

(** ** Uploads *)

Example splitext_examples :
  List.map OsPath.splitext ["a.pdf"; ".pdf"; "dir/.pdf"; "a/b.PDF"; "a.b.pdf"; "a/b"]
  = [("a", ".pdf"); (".pdf", EmptyString); ("dir/.pdf", EmptyString); ("a/b", ".PDF");
     ("a.b", ".pdf"); ("a/b", EmptyString)].
Proof. vm_compute. reflexivity. Qed.

Lemma rfind_app s t c :
  OsPath.rfind (s +:+ t) c
  = match OsPath.rfind t c with
    | Some i => Some (String.length s + i)%nat
    | None => OsPath.rfind s c
    end.
Proof.
  induction s as [|a s IH]; simpl.
  - change (EmptyString +:+ t) with t. by destruct (OsPath.rfind t c).
  - rewrite IH. by destruct (OsPath.rfind t c).
Qed.

Lemma rfind_lt s c i : OsPath.rfind s c = Some i → (i < String.length s)%nat.
Proof.
  revert i. induction s as [|a s IH]; intros i; simpl; [done|].
  destruct (OsPath.rfind s c) as [j|].
  - intros [= <-]. specialize (IH j eq_refl). lia.
  - destruct (Ascii.eqb a c); [|done]. intros [= <-]. lia.
Qed.

Lemma rfind_none s c : Py.contains (String c EmptyString) s = false → OsPath.rfind s c = None.
Proof.
  induction s as [|a s IH]; [done|].
  rewrite contains_cons. intros [Ha Hs]%orb_false_iff. simpl.
  rewrite (IH Hs). cbn [Py.startswith] in Ha.
  rewrite Ascii.eqb_sym. destruct (Ascii.eqb c a); [|done]. destruct s; discriminate Ha.
Qed.

Lemma eqb_lower_char_dot c : Ascii.eqb c "." = Ascii.eqb (Py.lower_char c) ".".
Proof. destruct c as [[] [] [] [] [] [] [] []]; vm_compute; reflexivity. Qed.

Lemma eqb_lower_char_slash c : Ascii.eqb c "/" = Ascii.eqb (Py.lower_char c) "/".
Proof. destruct c as [[] [] [] [] [] [] [] []]; vm_compute; reflexivity. Qed.

(** An extension that reads [.pdf] in lower case: one dot, in front. *)
Lemma pdf_extension_rfind ext :
  Py.lower ext = ".pdf" →
  OsPath.rfind ext "." = Some O ∧ OsPath.rfind ext "/" = None.
Proof.
  destruct ext as [|c1 [|c2 [|c3 [|c4 [|c5 r]]]]]; try discriminate.
  rewrite !lower_cons. intros [= H1 H2 H3 H4]. simpl.
  rewrite (eqb_lower_char_dot c1), (eqb_lower_char_dot c2), (eqb_lower_char_dot c3),
    (eqb_lower_char_dot c4), (eqb_lower_char_slash c1), (eqb_lower_char_slash c2),
    (eqb_lower_char_slash c3), (eqb_lower_char_slash c4), H1, H2, H3, H4.
  done.
Qed.

Lemma splitext_pdf stem ext :
  Py.lower ext = ".pdf" →
  (OsPath.splitext (stem +:+ ext)).2
  = if OsPath.has_stem (stem +:+ ext)
         (Z.to_nat (OsPath.index (OsPath.rfind stem "/") + 1))
         (Z.to_nat (Z.of_nat (String.length stem)
                    - (OsPath.index (OsPath.rfind stem "/") + 1)))
    then ext else EmptyString.
Proof.
  intros Hext. destruct (pdf_extension_rfind ext Hext) as [Hdot Hsep].
  unfold OsPath.splitext. rewrite !rfind_app, Hdot, Hsep, Nat.add_0_r.
  cbn [OsPath.index].
  assert (OsPath.index (OsPath.rfind stem "/") < Z.of_nat (String.length stem))%Z as Hlt.
  { destruct (OsPath.rfind stem "/") as [i|] eqn:E; simpl; [|lia].
    apply rfind_lt in E. lia. }
  apply Z.ltb_lt in Hlt as ->. cbn [andb].
  destruct (OsPath.has_stem _ _ _); [|done].
  cbn [snd]. by rewrite Nat2Z.id, drop_length_app.
Qed.

Lemma append_empty_r s : s +:+ EmptyString = s.
Proof.
  induction s as [|a s IH]; [done|].
  change (String a s +:+ EmptyString) with (String a (s +:+ EmptyString)). by rewrite IH.
Qed.

Lemma is_pdf_app stem ext : Py.lower ext = ".pdf" → is_pdf (stem +:+ ext) = true.
Proof. intros Hext. unfold is_pdf. rewrite lower_app, Hext. apply endswith_app. Qed.



Section UploadAndIngestion.

Variable json_loads : string -> result value.
Variable generate_content : string -> result string.

(** An upload named by its extension alone ([.pdf], [.PDF]) is answered
    200 and stored under the bare identifier: the extension is lost, and
    the worker, triggered for that object, ignores it. *)
Theorem upload_without_stem_never_processed ext content unique
    (bucket : gmap string string) bucket_name ocr patient_id fs_ok w :
  Py.lower ext = ".pdf" → is_pdf unique = false →
  upload_file (Some (ext, content)) unique true bucket
  = (<[unique := content]> bucket,
     Json 200 [ ("message", VStr "File uploaded successfully");
                ("filename", VStr unique);
                ("original_name", VStr ext) ])
  ∧ process_consent_pdf json_loads generate_content bucket_name unique ocr patient_id
      fs_ok w
    = (Ok tt, w, []).
Proof.
  intros Hext Huniq. split.
  - unfold upload_file.
    change (Py.endswith (Py.lower ext) ".pdf") with (is_pdf ext).
    pose proof (is_pdf_app EmptyString ext Hext) as Hpdf.
    assert ((OsPath.splitext ext).2 = EmptyString) as Hsplit
      by exact (splitext_pdf EmptyString ext Hext).
    change (EmptyString +:+ ext) with ext in Hpdf.
    rewrite Hpdf, Hsplit. cbn [negb].
    assert (String.eqb ext EmptyString = false) as -> by (by destruct ext).
    by rewrite append_empty_r.
  - unfold process_consent_pdf. by rewrite Huniq.
Qed.

End UploadAndIngestion.

(** The example: a file named [.pdf]. *)
Lemma upload_without_stem_never_processed_witness :
  (upload_file (Some (".pdf", "%PDF-1.7")) "3f2b8c1e-77aa-4c0d-9e51-0a1b2c3d4e5f" true ∅).1
  = {[ "3f2b8c1e-77aa-4c0d-9e51-0a1b2c3d4e5f" := "%PDF-1.7" ]}
  ∧ process_consent_pdf Fixture.scan_loads Fixture.model_down "consent-bucket"
      "3f2b8c1e-77aa-4c0d-9e51-0a1b2c3d4e5f" (Ok []) "n3wPat1ent" Fixture.up
      Fixture.empty_world
    = (Ok tt, Fixture.empty_world, []).
Proof.
  destruct (upload_without_stem_never_processed Fixture.scan_loads Fixture.model_down
              ".pdf" "%PDF-1.7" "3f2b8c1e-77aa-4c0d-9e51-0a1b2c3d4e5f" ∅ "consent-bucket"
              (Ok []) "n3wPat1ent" Fixture.up Fixture.empty_world)
    as [Hup Hrun]; [vm_compute; reflexivity | vm_compute; reflexivity |].
  split; [by rewrite Hup|exact Hrun].
Defined.

(** ** The text of a form *)

Lemma append_assoc s t u : (s +:+ t) +:+ u = s +:+ (t +:+ u).
Proof.
  induction s as [|a s IH]; [done|].
  change ((String a s +:+ t) +:+ u) with (String a ((s +:+ t) +:+ u)). by rewrite IH.
Qed.

Lemma read_pages_concat full_text pages texts :
  Forall2 (fun p t => page_text p = Some t) pages texts →
  read_pages full_text pages = Ok (full_text +:+ concat_texts texts).
Proof.
  intros H. revert full_text.
  induction H as [|p t pages texts Hp _ IH]; intros full_text.
  - simpl. by rewrite append_empty_r.
  - cbn [read_pages]. unfold page_text in Hp.
    destruct (py_subscript p "fullTextAnnotation") as [annotation|]; [|done]. simpl.
    destruct (py_subscript annotation "text") as [[]|]; try done.
    injection Hp as ->. simpl. rewrite IH. by rewrite append_assoc.
Qed.

Lemma concat_texts_app l1 l2 :
  concat_texts (l1 ++ l2) = concat_texts l1 +:+ concat_texts l2.
Proof.
  induction l1 as [|t l1 IH]; [done|].
  cbn [app]. unfold concat_texts in *. cbn [List.fold_right].
  by rewrite IH, append_assoc.
Qed.

Section TextProperties.

Variable json_loads : string -> result value.

Lemma read_blobs_concat full_text blob_list textss :
  Forall2 (fun (blob : string * string) texts =>
             ∃ response pages,
               json_loads (snd blob) = Ok response
               ∧ py_subscript response "responses" = Ok (VList pages)
               ∧ Forall2 (fun p t => page_text p = Some t) pages texts)
    blob_list textss →
  read_blobs json_loads full_text blob_list
  = (Ok (full_text +:+ concat_texts (List.concat textss)),
     List.map (fun blob => BlobDownload (fst blob)) blob_list).
Proof.
  intros H. revert full_text.
  induction H as [|[name content] texts l textss (response & pages & Hr & Hp & Ht) _ IH];
    intros full_text.
  - simpl. by rewrite append_empty_r.
  - cbn [read_blobs]. simpl in Hr. rewrite Hr. simpl. rewrite Hp. simpl.
    rewrite (read_pages_concat _ _ _ Ht), IH.
    cbn [List.concat List.map fst]. by rewrite concat_texts_app, append_assoc.
Qed.

(** The text of a form is the text of its pages, the OCR results taken in
    the order of the listing, which is the byte order of their names (not
    the order of the pages they hold), and within a result in the order of
    its pages. *)
Theorem full_text_in_listing_order file_name (bucket : gmap string string) textss :
  Forall2 (fun (blob : string * string) texts =>
             ∃ response pages,
               json_loads (snd blob) = Ok response
               ∧ py_subscript response "responses" = Ok (VList pages)
               ∧ Forall2 (fun p t => page_text p = Some t) pages texts)
    (ocr_blobs file_name bucket) textss →
  read_blobs json_loads "" (ocr_blobs file_name bucket)
  = (Ok (concat_texts (List.concat textss)),
     List.map (fun blob => BlobDownload (fst blob)) (ocr_blobs file_name bucket))
  ∧ StronglySorted (fun a b : string * string => String.le (fst a) (fst b))
      (ocr_blobs file_name bucket).
Proof.
  intros H. split.
  - by rewrite (read_blobs_concat "" _ _ H).
  - unfold ocr_blobs. apply filter_StronglySorted, StronglySorted_merge_sort.
    + intros a b c. apply transitivity.
    + intros a b. apply total, _.
Qed.

End TextProperties.

(** The example: twelve pages in six results; the result of pages 11 and 12
    is listed, and read, second. *)
Lemma full_text_in_listing_order_witness :
  (read_blobs Fixture.batch_loads "" (ocr_blobs "scan.pdf" Fixture.batch_bucket)).1
  = Ok "[1][2][11][12][3][4][5][6][7][8][9][10]".
Proof.
  destruct (full_text_in_listing_order Fixture.batch_loads "scan.pdf" Fixture.batch_bucket
              [ ["[1]"; "[2]"]; ["[11]"; "[12]"]; ["[3]"; "[4]"]; ["[5]"; "[6]"];
                ["[7]"; "[8]"]; ["[9]"; "[10]"] ]) as [Hread _].
  - assert (ocr_blobs "scan.pdf" Fixture.batch_bucket
            = List.map (fun b => (fst b, Fixture.dumped (Fixture.ocr_pages (snd b))))
                [ ("scan.pdf-ocr-output/output-1-to-2.json", ["[1]"; "[2]"]);
                  ("scan.pdf-ocr-output/output-11-to-12.json", ["[11]"; "[12]"]);
                  ("scan.pdf-ocr-output/output-3-to-4.json", ["[3]"; "[4]"]);
                  ("scan.pdf-ocr-output/output-5-to-6.json", ["[5]"; "[6]"]);
                  ("scan.pdf-ocr-output/output-7-to-8.json", ["[7]"; "[8]"]);
                  ("scan.pdf-ocr-output/output-9-to-10.json", ["[9]"; "[10]"]) ]) as ->
      by (vm_compute; reflexivity).
    repeat (constructor;
            [eexists _, _; split; [vm_compute; reflexivity|];
             split; [vm_compute; reflexivity|];
             repeat (constructor; [reflexivity|]); constructor|]).
    constructor.
  - rewrite Hread. vm_compute. reflexivity.
Defined.

(** ** The analysis text *)

Lemma rstrip_fence s : Py.rstrip (s +:+ fence) = s +:+ fence.
Proof.
  induction s as [|c s IH]; [done|].
  change (String c s +:+ fence) with (String c (s +:+ fence)).
  cbn [Py.rstrip]. rewrite IH.
  destruct (s +:+ fence) eqn:E; [|done]. by destruct s.
Qed.

Lemma replace_from_plain old' new body tail :
  Py.contains "`" body = false →
  Py.replace_from 0 (String "`" old') new (body +:+ tail)
  = body +:+ Py.replace_from 0 (String "`" old') new tail.
Proof.
  induction body as [|c b IH]; [done|].
  rewrite contains_cons. intros [Hc Hb]%orb_false_iff.
  change (String c b +:+ tail) with (String c (b +:+ tail)).
  rewrite replace_from_cons.
  assert (Py.startswith (String c (b +:+ tail)) (String "`" old') = false) as ->.
  { cbn [Py.startswith] in *. destruct (Ascii.eqb "`" c); [|done].
    destruct b; discriminate Hc. }
  by rewrite (IH Hb).
Qed.

Lemma startswith_app p x : Py.startswith (p +:+ x) p = true.
Proof.
  induction p as [|a p IH]; [by destruct x|].
  change (String a p +:+ x) with (String a (p +:+ x)).
  cbn [Py.startswith]. by rewrite Ascii.eqb_refl, IH.
Qed.

Lemma replace_from_skip old new p x :
  Py.replace_from (String.length p) old new (p +:+ x) = Py.replace_from 0 old new x.
Proof. induction p as [|a p IH]; [done|exact IH]. Qed.

Lemma replace_from_prefix a old' new x :
  Py.replace_from 0 (String a old') new (String a old' +:+ x)
  = new +:+ Py.replace_from 0 (String a old') new x.
Proof.
  change (String a old' +:+ x) with (String a (old' +:+ x)).
  rewrite replace_from_cons.
  change (String a (old' +:+ x)) with (String a old' +:+ x).
  rewrite startswith_app.
  replace (String.length (String a old') - 1)%nat with (String.length old')
    by (cbn [String.length]; lia).
  by rewrite replace_from_skip.
Qed.

Section AnalysisProperties.

Variable generate_content : string -> result string.

(** A model answer wrapped in a [json] code fence is unwrapped to exactly
    the text between the fences. *)
Theorem analyse_unwraps_fenced_json full_text body :
  Py.contains "`" body = false →
  generate_content (analysis_prompt full_text) = Ok (fence_json +:+ body +:+ fence) →
  analyse generate_content full_text = Ok body.
Proof.
  intros Hbody Hmodel. unfold analyse. rewrite Hmodel. f_equal.
  assert (Py.strip (fence_json +:+ body +:+ fence) = fence_json +:+ body +:+ fence) as ->.
  { unfold Py.strip.
    change (Py.lstrip (fence_json +:+ body +:+ fence)) with (fence_json +:+ body +:+ fence).
    rewrite <- append_assoc. apply rstrip_fence. }
  unfold Py.replace. unfold fence_json at 1 2.
  rewrite replace_from_prefix.
  change (EmptyString +:+ ?x) with x.
  rewrite (replace_from_plain _ _ _ _ Hbody).
  change (Py.replace_from 0 "```json" EmptyString fence) with fence.
  unfold fence at 1. rewrite (replace_from_plain _ _ _ _ Hbody).
  change (Py.replace_from 0 "```" EmptyString fence) with EmptyString.
  apply append_empty_r.
Qed.

End AnalysisProperties.

(** The example: an empty JSON object on a line of its own. *)
Lemma analyse_unwraps_fenced_json_witness :
  analyse (Fixture.model_says (fence_json +:+ (nl +:+ "{}" +:+ nl) +:+ fence))
    "I consent to surgery."
  = Ok (nl +:+ "{}" +:+ nl).
Proof.
  apply analyse_unwraps_fenced_json; [vm_compute; reflexivity | reflexivity].
Defined.

(** ** Responses that are never a 500 *)

Section Robustness.

Variable py_repr : value -> string.
Variable generate_content : string -> result string.

Lemma py_join_text sep v : text_items v = true → ∃ s, py_join sep v = Ok s.
Proof.
  destruct v as [| | | |l| |]; try done. simpl. intros Hl. unfold py_join. simpl.
  assert (∃ ss, all_str l = Ok ss) as [ss ->]; [|by eexists].
  induction l as [|x l IH]; [by eexists|].
  simpl in Hl. destruct x; try done. destruct (IH Hl) as [ss Hss].
  simpl. rewrite Hss. by eexists.
Qed.

Lemma items_or_text items none : text_items items = true → ∃ s, items_or items none = Ok s.
Proof.
  intros H. unfold items_or. destruct (truthy items); [by apply py_join_text|by eexists].
Qed.

Lemma answer_context_text context docs :
  Forall (fun fd => text_items (doc_consented_items fd) = true
                    ∧ text_items (doc_declined_items fd) = true) docs →
  ∃ c, answer_context py_repr context docs = Ok c.
Proof.
  intros H. revert context. induction H as [|fd docs [Hc Hd] _ IH]; intros context.
  - by eexists.
  - cbn [answer_context].
    destruct (items_or_text (doc_consented_items fd) "None listed" Hc) as [c ->].
    destruct (items_or_text (doc_declined_items fd) "None listed" Hd) as [d ->].
    simpl. apply IH.
Qed.

Lemma generate_answer_text query docs :
  Forall (fun fd => text_items (doc_consented_items fd) = true
                    ∧ text_items (doc_declined_items fd) = true) docs →
  ∃ answer, generate_answer py_repr generate_content query docs = Ok answer.
Proof.
  intros H. unfold generate_answer. destruct docs as [|fd docs]; [by eexists|].
  destruct (answer_context_text EmptyString (take 3 (fd :: docs))) as [c ->].
  { by apply Forall_take. }
  simpl. destruct (generate_content _); [by eexists|].
  apply Forall_cons in H as [[Hc Hd] _]. unfold generate_fallback_answer.
  destruct (Py.contains "decline" _).
  - destruct (truthy _); [|by eexists].
    destruct (py_join_text ", " _ Hd) as [s ->]. by eexists.
  - destruct (_ || _); [|by eexists].
    destruct (truthy _); [|by eexists].
    destruct (py_join_text ", " _ Hc) as [s ->]. by eexists.
Qed.

(** [/query] does not fail on a well-formed index: for a live session and
    a query that is not empty, when the consented and the declined items of
    the patient's entries are lists of texts the answer is a 200, whether
    the model answers or not and whether Firestore answers or not. *)
Theorem query_answers_text_items tok now data fs_ok (idx : collection)
    (S : gmap string session) s query :
  S !! tok = Some s → tok ≠ "" → (now ≤ session_expires s)%Z →
  sends data "query" query → query ≠ "" →
  (∀ k d, idx !! k = Some d → owned_by (session_email s) (k, d) = true →
          text_items (dict_get d "consented_items" (VList [])) = true
          ∧ text_items (dict_get d "declined_items" (VList [])) = true) →
  status_of (handle_query py_repr generate_content (Some tok) now data fs_ok idx S).2
  = 200%Z.
Proof.
  intros Ht Hne Hlive Hq Hqne Hitems.
  rewrite (handle_query_eq py_repr generate_content tok now data fs_ok idx S s query
             Ht Hne Hlive Hq Hqne).
  assert (Forall (fun fd => text_items (doc_consented_items fd) = true
                            ∧ text_items (doc_declined_items fd) = true)
            (search_patient_documents (session_email s) fs_ok idx)) as Hdocs.
  { apply Forall_forall. intros fd Hfd.
    destruct (search_patient_documents_owned _ _ _ _ Hfd) as (d & Hk & He & Hfd').
    rewrite Hfd'. apply (Hitems (doc_id fd) d Hk).
    unfold owned_by. simpl. rewrite He. simpl. apply String.eqb_refl. }
  destruct (generate_answer_text query _ Hdocs) as [answer Hanswer].
  destruct (search_patient_documents _ _ _) as [|fd l]; [done|].
  cbn [snd]. by rewrite Hanswer.
Qed.

(** [/ask] answers a text question with 400, 404 or 200, never 500: 400
    exactly when the question is empty once stripped. *)
Theorem ask_never_fails adata question fs_ok (idx : collection) :
  sends adata "question" question →
  let status := status_of (ask_question py_repr adata fs_ok idx) in
  (question = "" ∧ status = 400%Z)
  ∨ (question ≠ "" ∧ (status = 200%Z ∨ status = 404%Z)).
Proof.
  unfold sends. intros Hq. cbv zeta. unfold ask_question. rewrite Hq. simpl.
  destruct (String.eqb question "") eqn:E.
  - apply String.eqb_eq in E. left. by split.
  - apply String.eqb_neq in E. right. split; [done|].
    destruct (match _extract_key_entity question with Some _ => _ | None => _ end)
      as [[|f d]|]; simpl; auto.
Qed.

End Robustness.

(** The example: Jane asks while the model is down. *)
Lemma query_answers_text_items_witness :
  status_of (handle_query Fixture.no_repr Fixture.model_down (Some Fixture.jane_token) 1
               (Fixture.asking "query" "What did I decline?") Fixture.up
               Fixture.clinic_index Fixture.jane_sessions).2
  = 200%Z.
Proof.
  apply (query_answers_text_items Fixture.no_repr Fixture.model_down Fixture.jane_token 1
           (Fixture.asking "query" "What did I decline?") Fixture.up Fixture.clinic_index
           Fixture.jane_sessions
           {| session_email := "jane.roe@example.org";
              session_patient_name := VStr "Jane";
              session_expires := eight_hours |}
           "What did I decline?");
    [vm_compute; reflexivity | vm_compute; discriminate | vm_compute; discriminate
    | vm_compute; reflexivity | discriminate |].
  intros k d Hk _. revert k d Hk.
  change (map_Forall (λ (_ : string) (d : dict),
            text_items (dict_get d "consented_items" (VList [])) = true
            ∧ text_items (dict_get d "declined_items" (VList [])) = true)
          Fixture.clinic_index).
  apply (bool_decide_unpack _). vm_compute. exact I.
Defined.

(** The example: a question with a name nobody has. *)
Lemma ask_never_fails_witness :
  status_of (ask_question Fixture.no_repr
               (Fixture.asking "question" "What did Zed decline?") Fixture.up
               Fixture.clinic_index)
  = 404%Z.
Proof.
  destruct (ask_never_fails Fixture.no_repr
              (Fixture.asking "question" "What did Zed decline?") "What did Zed decline?"
              Fixture.up Fixture.clinic_index) as [[Hq _]|[_ [H200|H404]]].
  - vm_compute. reflexivity.
  - discriminate Hq.
  - revert H200. vm_compute. discriminate.
  - exact H404.
Defined.

(** ** From the form to the patient *)

Section EndToEnd.

Variable json_loads : string -> result value.
Variable generate_content : string -> result string.


End EndToEnd.


(** ** The entity of a question *)

Lemma all_chars_app cls s t :
  all_chars cls (s +:+ t) = all_chars cls s && all_chars cls t.
Proof.
  induction s as [|c s IH]; [done|].
  change (String c s +:+ t) with (String c (s +:+ t)). simpl.
  by rewrite IH, andb_assoc.
Qed.

Lemma not_upper_lower_char c : Py.isupper (Py.lower_char c) = false.
Proof. destruct c as [[] [] [] [] [] [] [] []]; vm_compute; reflexivity. Qed.

Lemma all_chars_lower s : all_chars (fun c => negb (Py.isupper c)) (Py.lower s) = true.
Proof.
  induction s as [|c s IH]; [done|]. rewrite lower_cons. simpl.
  by rewrite not_upper_lower_char, IH.
Qed.

Lemma lower_not_upper s :
  all_chars (fun c => negb (Py.isupper c)) s = true → Py.lower s = s.
Proof.
  induction s as [|c s IH]; [done|]. simpl. intros [Hc Hs]%andb_true_iff.
  rewrite lower_cons, (IH Hs). unfold Py.lower_char.
  by apply negb_true_iff in Hc as ->.
Qed.

Lemma plus_greedy_inv cls k acc s g :
  Re.plus_greedy cls k acc s = Some g →
  ∃ m r, m ≠ "" ∧ all_chars cls m = true ∧ s = m +:+ r ∧ k (acc +:+ m) r = Some g.
Proof.
  revert acc. induction s as [|c s IH]; intros acc; simpl; [done|].
  destruct (cls c) eqn:Hc; [|done].
  destruct (Re.plus_greedy cls k (acc +:+ String c EmptyString) s) as [g'|] eqn:E.
  - intros [= ->]. destruct (IH _ E) as (m & r & Hm & Hcls & -> & Hk).
    exists (String c m), r. split; [done|]. split; [by simpl; rewrite Hc|].
    split; [done|]. by rewrite append_assoc in Hk.
  - intros Hk. exists (String c EmptyString), s. split; [done|].
    split; [by simpl; rewrite Hc|]. by split.
Qed.

(** What a pattern of literals, [\s+] and [(\w+)] captures: nothing, or a
    non-empty run of word characters of the text. *)
Lemma match_here_group re g s g' :
  Forall (fun a => match a with
                   | Re.Chr _ => True
                   | Re.Plus cls capture => capture = true → cls = Py.isword
                   end) re →
  all_chars (fun c => negb (Py.isupper c)) s = true →
  Re.match_here re g s = Some g' →
  (captures re = false ∧ g' = g)
  ∨ (g' ≠ "" ∧ all_chars Py.isword g' = true
     ∧ all_chars (fun c => negb (Py.isupper c)) g' = true).
Proof.
  intros Hre. revert g s. induction Hre as [|a re Ha _ IH]; intros g s Hs.
  - intros [= <-]. by left.
  - destruct a as [c|cls capture]; cbn [Re.match_here].
    + destruct s as [|c' r]; [done|]. destruct (Ascii.eqb c c'); [|done].
      simpl in Hs. apply andb_true_iff in Hs as [_ Hr]. apply (IH g r Hr).
    + intros H. apply plus_greedy_inv in H as (m & r & Hm & Hcls & -> & Hk).
      rewrite all_chars_app in Hs. apply andb_true_iff in Hs as [Hlow Hr].
      change (EmptyString +:+ m) with m in Hk.
      destruct (IH _ r Hr Hk) as [[Hcap ->]|Hgood]; [|by right].
      destruct capture.
      * right. rewrite (Ha eq_refl) in Hcls. done.
      * left. by split.
Qed.

Lemma search_group re s g :
  Forall (fun a => match a with
                   | Re.Chr _ => True
                   | Re.Plus cls capture => capture = true → cls = Py.isword
                   end) re →
  captures re = true →
  all_chars (fun c => negb (Py.isupper c)) s = true →
  Re.search re s = Some g →
  g ≠ "" ∧ all_chars Py.isword g = true
  ∧ all_chars (fun c => negb (Py.isupper c)) g = true.
Proof.
  intros Hre Hcap. induction s as [|c s IH]; intros Hs; cbn [Re.search].
  - destruct (Re.match_here re EmptyString EmptyString) as [g'|] eqn:E; [|done].
    intros [= ->]. destruct (match_here_group _ _ _ _ Hre Hs E) as [[Hno _]|H]; [|done].
    congruence.
  - destruct (Re.match_here re EmptyString (String c s)) as [g'|] eqn:E.
    + intros [= ->]. destruct (match_here_group _ _ _ _ Hre Hs E) as [[Hno _]|H]; [|done].
      congruence.
    + simpl in Hs. apply andb_true_iff in Hs as [_ Hs]. by apply IH.
Qed.

Section EntityProperties.

Variable py_repr : value -> string.


End EntityProperties.

